(** * OpenAtlas: the entity/link model, date search, authorization and
      the place transaction, embedded from the Python sources.

    Layout: Part I holds the embedding (one module per source file),
    Part II the example data used by closed lemmas, Part III the theorems. *)

From stdpp Require Import base numbers strings list gmap sorting.

Local Open Scope Z_scope.

(* ===================================================================== *)
(** * Part I.  The embedding                                              *)
(* ===================================================================== *)

(** ** Python values, exceptions and the state-and-exception monad *)

(** The exceptions the modelled code can meet. [ProgrammingError] is the
    database driver's error for a malformed statement, [HTTPException]
    is werkzeug's [abort(status)]. *)
Inductive Exn :=
| TypeError
| ValueError
| KeyError
| AttributeError
| IndexError
| ProgrammingError
| HTTPException (status : Z)
| InvalidGeomException
| OtherException.

Inductive Res (A : Type) :=
| Ok (a : A)
| Raise (e : Exn).
Arguments Ok {A} a.
Arguments Raise {A} e.

(** A computation over a mutable store [S]: it returns a value or raises,
    and the store keeps whatever was written before the exception. *)
Definition M (S A : Type) : Type := S → Res A * S.

Definition ret {S A} (a : A) : M S A := λ s, (Ok a, s).

Definition raise {S A} (e : Exn) : M S A := λ s, (Raise e, s).

Definition bind {S A B} (c : M S A) (k : A → M S B) : M S B :=
  λ s, match c s with
       | (Ok a, s') => k a s'
       | (Raise e, s') => (Raise e, s')
       end.

Definition lift_res {S A} (r : Res A) : M S A := λ s, (r, s).

Definition modify {S} (f : S → S) : M S unit := λ s, (Ok tt, f s).

Definition gets {S A} (f : S → A) : M S A := λ s, (Ok (f s), s).

Declare Scope py_scope.
Delimit Scope py_scope with py.
Notation "x <- c ;; k" := (bind c (λ x, k))
  (at level 100, c at next level, right associativity) : py_scope.
Notation "c ;;; k" := (bind c (λ _, k))
  (at level 100, right associativity) : py_scope.

(** numpy.datetime64 values are modelled by their integer count from the
    epoch 1970-01-01, ordered as the integers are; an absent date is
    Python's [None].  The truth value of a numpy scalar is that of its
    count: the date 1970-01-01, whose count is 0, is falsy, every other
    date is truthy. *)
Definition datetime64 := Z.

(** An [Entity] object: the attributes the modelled functions read.
    [class_code] is [entity.class_.code]. *)
Record Entity := {
  id : Z;
  name : string;
  description : string;
  class_code : string;
  system_class : string;
  begin_from : option datetime64;
  begin_to : option datetime64;
  begin_comment : option string;
  end_from : option datetime64;
  end_to : option datetime64;
  end_comment : option string
}.

Global Instance Entity_eq_dec : EqDecision Entity.
Proof. solve_decision. Defined.

(** The Python values that reach [LinkMapper.insert] as [domain] and
    [range_]: [None], ids as [int] or [str], [Entity] objects, lists. *)
#[warnings="-register-all"]
Inductive PyVal :=
| VNone
| VInt (z : Z)
| VStr (s : string)
| VEntity (e : Entity)
| VList (l : list PyVal).

(** Python truthiness ([not x] is its negation): [None], [0], the empty
    string and the empty list are falsy; an [Entity] defines neither
    [__bool__] nor [__len__] and is truthy. *)
Definition truthy (v : PyVal) : bool :=
  match v with
  | VNone => false
  | VInt z => negb (z =? 0)
  | VStr s => negb (String.eqb s "")
  | VEntity _ => true
  | VList l => match l with [] => false | _ :: _ => true end
  end.

(** [x if isinstance(x, list) else [x]] *)
Definition as_list (v : PyVal) : list PyVal :=
  match v with
  | VList l => l
  | _ => [v]
  end.

(** A row of [model.link]. [link_id] and [link_description] are the
    columns [id] and [description]. *)
Record LinkRow := {
  link_id : Z;
  property_code : string;
  domain_id : Z;
  range_id : Z;
  link_description : option string
}.

(** The mutable store: the two tables the models read and write, the
    sequence behind [RETURNING id], the user log joined by the search,
    the flashed messages and the [debug_model['div sql']] counter. *)
Record World := {
  entity_table : list Entity;
  link_table : list LinkRow;
  link_id_seq : Z;
  user_log : list (Z * Z);
  flashes : list (string * string);
  div_sql : Z
}.

Definition set_link_table (f : list LinkRow → list LinkRow) (w : World) : World :=
  {| entity_table := entity_table w; link_table := f (link_table w);
     link_id_seq := link_id_seq w; user_log := user_log w;
     flashes := flashes w; div_sql := div_sql w |}.

Definition set_link_id_seq (f : Z → Z) (w : World) : World :=
  {| entity_table := entity_table w; link_table := link_table w;
     link_id_seq := f (link_id_seq w); user_log := user_log w;
     flashes := flashes w; div_sql := div_sql w |}.

Definition set_flashes (f : list (string * string) → list (string * string))
    (w : World) : World :=
  {| entity_table := entity_table w; link_table := link_table w;
     link_id_seq := link_id_seq w; user_log := user_log w;
     flashes := f (flashes w); div_sql := div_sql w |}.

Definition set_div_sql (f : Z → Z) (w : World) : World :=
  {| entity_table := entity_table w; link_table := link_table w;
     link_id_seq := link_id_seq w; user_log := user_log w;
     flashes := flashes w; div_sql := f (div_sql w) |}.

(** flask's [flash(message, category)] *)
Definition flash (message category : string) : M World unit :=
  modify (set_flashes (λ fl, fl ++ [(message, category)])).

(** [openatlas.debug_model['div sql'] += 1] *)
Definition count_div_sql : M World unit := modify (set_div_sql (λ n, n + 1)).

(** The [codes] argument: one property code or a list of them. *)
Inductive Codes :=
| CodeStr (c : string)
| CodeList (cs : list string).

(** [codes if isinstance(codes, list) else [codes]] *)
Definition codes_list (codes : Codes) : list string :=
  match codes with
  | CodeStr c => [c]
  | CodeList cs => cs
  end.

(** [ORDER BY e.name]: a sort on the name column, here by code points. *)
Definition name_le (a b : Entity) : Prop := String.leb (name a) (name b) = true.

Global Instance name_le_dec : RelDecision name_le.
Proof. intros a b. unfold name_le. apply _. Defined.

Definition order_by_name (l : list Entity) : list Entity := merge_sort name_le l.

(** ** openatlas/models/link.py *)

Record Settings := { debug_mode : bool }.

(** The values of [openatlas.classes]: [.code] and [.name]. *)
Record ClassObj := { code : string; class_name : string }.

(** The values of [openatlas.properties]. *)
Record Property := { prop_code : string; prop_name : string }.

(** What a request only reads: the session, the CIDOC class and property
    tables and the [WHITELISTED_DOMAINS] entry of the configuration. *)
Record Env := {
  session_settings : option Settings;
  classes : gmap string ClassObj;
  properties : gmap string Property;
  WHITELISTED_DOMAINS : list string
}.

(** Code the link model calls that is not part of the repository's
    sources: Python's [int] on a string ([None] for a [ValueError]), the
    method [Property.find_object(attr, class_code)] that answers whether
    the class is among the property's whitelisted classes for [attr],
    and flask_babel's translation [_]. *)
Class LinkForeign := {
  int_of_str : string → option Z;
  find_object : Property → string → string → bool;
  gettext : string → string
}.

(** A [Link] object: the attributes [LinkMapper.update] reads. *)
Module Link.
Record t := {
  id : Z;
  description : option string;
  property : Property;
  domain : Entity;
  range : Entity
}.
End Link.

Module LinkMapper.
Section defs.
Context {F : LinkForeign} (env : Env).

(** Python's [int(x)] *)
Definition py_int (v : PyVal) : Res Z :=
  match v with
  | VInt z => Ok z
  | VStr s => match int_of_str s with Some z => Ok z | None => Raise ValueError end
  | _ => Raise TypeError
  end.

(** [d[k]] on a dict *)
Definition dict_get {A} (d : gmap string A) (k : string) : Res A :=
  match d !! k with
  | Some a => Ok a
  | None => Raise KeyError
  end.

(** [EntityMapper.get_by_id] is not among the sources; it follows
    [Entity.get_by_id] of models/entity.py: the row with that id, and
    [abort(418)] when there is none. *)
Definition get_by_id (id_ : Z) : M World Entity :=
  λ w, match List.find (λ e, bool_decide (id e = id_)) (entity_table w) with
       | Some e => (Ok e, w)
       | None => (Raise (HTTPException 418), w)
       end.

(** [x.id if type(x) is openatlas.Entity else int(x)] *)
Definition id_of (v : PyVal) : Res Z :=
  match v with
  | VEntity e => Ok (id e)
  | _ => py_int v
  end.

(** [x if type(x) is openatlas.Entity else EntityMapper.get_by_id(int(x))] *)
Definition entity_of (v : PyVal) : M World Entity :=
  match v with
  | VEntity e => ret e
  | _ => (n <- lift_res (py_int v) ;; get_by_id n)%py
  end.

(** ['settings' in session and session['settings']['debug_mode']] *)
Definition debug_active : bool :=
  match session_settings env with
  | Some s => debug_mode s
  | None => false
  end.

(** [INSERT INTO model.link (...) VALUES (...) RETURNING id] followed by
    [cursor.fetchone()[0]]: the row is appended under the next id of the
    sequence, which is returned.  The database is taken to accept the
    row: an id outside the column's range, or one that no entity has, is
    rejected by the database, the statement raises and no row is added;
    that path is not part of this model. *)
Definition sql_insert_link (property_code : string) (domain_id range_id : Z)
    (description : option string) : M World Z :=
  λ w, let new_id := link_id_seq w in
       (Ok new_id,
        set_link_id_seq (λ n, n + 1)
          (set_link_table
             (λ t, t ++ [{| link_id := new_id; property_code := property_code;
                            domain_id := domain_id; range_id := range_id;
                            link_description := description |}]) w)).

(** The text flashed for a pair that fails the CIDOC check. *)
Definition error_link_text (domain_class : ClassObj) (property_code : string)
    (range_class : ClassObj) : string :=
  let text := gettext "error link" +:+ ": " +:+ class_name domain_class +:+ " > " in
  text +:+ property_code +:+ " > " +:+ class_name range_class.

(** The block under [if 'settings' in session and ...debug_mode]: the
    CIDOC check of one pair.  It returns the reassigned [domain] and
    whether the loop body goes on ([false] is the [continue] taken after
    the error is flashed). *)
Definition check_link (domain : PyVal) (property_code : string) (range_param : PyVal)
    : M World (PyVal * bool) :=
  (domain_e <- entity_of domain ;;
   range_e <- entity_of range_param ;;
   domain_class <- lift_res (dict_get (classes env) (class_code domain_e)) ;;
   range_class <- lift_res (dict_get (classes env) (class_code range_e)) ;;
   property_ <- lift_res (dict_get (properties env) property_code) ;;
   let ignore := WHITELISTED_DOMAINS env in
   let domain_error := true in
   let range_error := true in
   let domain_error :=
     if find_object property_ "domain_class_code" (code domain_class)
     then false else domain_error in
   let domain_error :=
     if bool_decide (code domain_class ∈ ignore) then false else domain_error in
   let range_error :=
     if find_object property_ "range_class_code" (code range_class)
     then false else range_error in
   if domain_error || range_error then
     flash (error_link_text domain_class property_code range_class) "error" ;;;
     ret (VEntity domain_e, false)
   else ret (VEntity domain_e, true))%py.

(** One pass of the body of [for range_param in range_:] for a truthy
    [range_param]; it returns the loop's variables [domain] and [result]. *)
Definition insert_body (domain : PyVal) (property_code : string)
    (description : option string) (range_param : PyVal) (result : option Z)
    : M World (PyVal * option Z) :=
  (domain_id <- lift_res (id_of domain) ;;
   range_id <- lift_res (id_of range_param) ;;
   checked <- (if debug_active then check_link domain property_code range_param
               else ret (domain, true)) ;;
   let '(domain, go_on) := checked in
   if go_on then
     new_id <- sql_insert_link property_code domain_id range_id description ;;
     count_div_sql ;;;
     ret (domain, Some new_id)
   else ret (domain, result))%py.

(** [for range_param in range_:] with [if not range_param: continue]. *)
Fixpoint insert_loop (domain : PyVal) (property_code : string)
    (description : option string) (range_ : list PyVal) (result : option Z)
    : M World (option Z) :=
  match range_ with
  | [] => ret result
  | range_param :: rest =>
    if negb (truthy range_param)
    then insert_loop domain property_code description rest result
    else
      (vars <- insert_body domain property_code description range_param result ;;
       insert_loop vars.1 property_code description rest vars.2)%py
  end.

(** [LinkMapper.insert(domain, property_code, range_, description=None)];
    Python's [return] without a value and [result = None] are [None]. *)
Definition insert (domain : PyVal) (property_code : string) (range_ : PyVal)
    (description : option string) : M World (option Z) :=
  if negb (truthy domain) || negb (truthy range_) then ret None
  else insert_loop domain property_code description (as_list range_) None.

(** [SELECT range_id ... WHERE domain_id = %(entity_id)s AND property_code
    IN %(codes)s], with the two columns swapped when [inverse].  An empty
    tuple renders as [IN ()], which the database rejects (it is why
    [get_by_ids] returns early on an empty list). *)
Definition sql_select_linked (entity_id : Z) (codes : list string) (inverse : bool)
    : M World (list Z) :=
  λ w, match codes with
       | [] => (Raise ProgrammingError, w)
       | _ :: _ =>
         if inverse
         then (Ok (domain_id <$>
                     (filter (λ r, range_id r = entity_id ∧ property_code r ∈ codes)
                             (link_table w))), w)
         else (Ok (range_id <$>
                     (filter (λ r, domain_id r = entity_id ∧ property_code r ∈ codes)
                             (link_table w))), w)
       end.

(** [EntityMapper.get_by_ids] is not among the sources; it follows
    [Entity.get_by_ids] of models/entity.py: nothing for no ids, else the
    rows [WHERE e.id IN ids GROUP BY e.id ORDER BY e.name]. *)
Definition get_by_ids (entity_ids : list Z) : M World (list Entity) :=
  match entity_ids with
  | [] => ret []
  | _ :: _ => gets (λ w, order_by_name
                           (filter (λ e, id e ∈ entity_ids) (entity_table w)))
  end.

(** [LinkMapper.get_linked_entities(entity, codes, inverse=False)] *)
Definition get_linked_entities (entity : Entity) (codes : Codes) (inverse : bool)
    : M World (list Entity) :=
  (let codes := codes_list codes in
   ids <- sql_select_linked (id entity) codes inverse ;;
   count_div_sql ;;;
   get_by_ids ids)%py.

(** [LinkMapper.get_linked_entity(entity, code, inverse=False)] *)
Definition get_linked_entity (entity : Entity) (code : Codes) (inverse : bool)
    : M World (option Entity) :=
  (result <- get_linked_entities entity code inverse ;;
   if (1 <? length result)%nat then
     flash "alert multiple linked entities found" "error" ;;;
     ret (head result)
   else
     match result with
     | _ :: _ => ret (head result)
     | [] => ret None
     end)%py.

(** [LinkMapper.delete_by_codes(entity, codes)]: [DELETE FROM model.link
    WHERE domain_id = %(id)s AND property_code IN %(codes)s]; an empty
    tuple is rejected by the database. *)
Definition delete_by_codes (entity : Entity) (codes : Codes) : M World unit :=
  λ w, match codes_list codes with
       | [] => (Raise ProgrammingError, w)
       | codes =>
         (Ok tt,
          set_link_table
            (filter (λ r, ¬ (domain_id r = id entity ∧ property_code r ∈ codes))) w)
       end.

(** [LinkMapper.delete_by_id(id_)]: [DELETE FROM model.link WHERE id = %(id)s] *)
Definition delete_by_id (id_ : Z) : M World unit :=
  modify (set_link_table (filter (λ r, link_id r ≠ id_))).

(** [LinkMapper.update(link)]: [UPDATE model.link SET (property_code,
    domain_id, range_id, description) = (...) WHERE id = %(id)s] *)
Definition update (link : Link.t) : M World unit :=
  (modify (set_link_table
             (fmap (λ r, if bool_decide (link_id r = Link.id link)
                         then {| link_id := link_id r;
                                 property_code := prop_code (Link.property link);
                                 domain_id := id (Link.domain link);
                                 range_id := id (Link.range link);
                                 link_description := Link.description link |}
                         else r))) ;;;
   count_div_sql)%py.

End defs.
End LinkMapper.

(** ** openatlas/models/entity.py *)

(** The date fields of a form ([DateForm]); [.data] of an [IntegerField]
    is [None] or an integer, of a text field [None] or a string. *)
Module DateForm.
Record t := {
  begin_year_from : option Z;
  begin_month_from : option Z;
  begin_day_from : option Z;
  begin_year_to : option Z;
  begin_month_to : option Z;
  begin_day_to : option Z;
  begin_comment : option string;
  end_year_from : option Z;
  end_month_from : option Z;
  end_day_from : option Z;
  end_year_to : option Z;
  end_month_to : option Z;
  end_day_to : option Z;
  end_comment : option string
}.
End DateForm.

(** A form handed to [Entity.set_dates]: [date_fields] is [None] when
    the form has no attribute [begin_year_from]. *)
Record FlaskForm := { date_fields : option DateForm.t }.

(** The search form: [.data] of its fields. *)
Module SearchForm.
Record t := {
  term : string;
  own : bool;
  desc : bool;
  classes : list string;
  begin_year : option Z;
  begin_month : option Z;
  begin_day : option Z;
  end_year : option Z;
  end_month : option Z;
  end_day : option Z;
  include_dateless : bool
}.
End SearchForm.

(** The form of the similar-names check: [form.classes.data] and
    [form.ratio.data]. *)
Module SimilarForm.
Record t := { classes : Codes; ratio : Z }.
End SimilarForm.

(** Code the entity model calls that is not part of the repository's
    sources: [Date.form_to_datetime64(year, month, day, to_date)],
    the SQL test [UNACCENT(LOWER(value)) LIKE UNACCENT(LOWER(pattern))]
    and fuzzywuzzy's [fuzz.ratio]. *)
Class EntityForeign := {
  form_to_datetime64 : option Z → option Z → option Z → bool → option datetime64;
  sql_like : string → string → bool;
  fuzz_ratio : string → string → Z
}.

(** A Python [dict] keyed by integers, in insertion order: [d[k] = v]
    overwrites in place or appends. *)
Fixpoint dict_set {V} (k : Z) (v : V) (d : list (Z * V)) : list (Z * V) :=
  match d with
  | [] => [(k, v)]
  | (k', v') :: d' => if bool_decide (k = k') then (k, v) :: d'
                      else (k', v') :: dict_set k v d'
  end.

Definition dict_values {V} (d : list (Z * V)) : list V := snd <$> d.

(** Python's [sub in s] on strings. *)
Fixpoint str_in (sub s : string) : bool :=
  String.prefix sub s
  || match s with
     | EmptyString => false
     | String _ rest => str_in sub rest
     end.

(** What [Entity.get_by_id] reads of flask's [g] and [request]: the
    cached nodes and reference systems by id (both are entities), and
    [request.path]. *)
Record G := {
  nodes : gmap Z Entity;
  reference_systems : gmap Z Entity;
  request_path : string
}.

Module EntityModel.
Section defs.
Context {F : EntityForeign}.

(** Truthiness of an [IntegerField]'s data. *)
Definition int_truthy (x : option Z) : bool :=
  match x with
  | Some z => negb (z =? 0)
  | None => false
  end.

Definition set_begin (from to : option datetime64) (comment : option string)
    (self : Entity) : Entity :=
  {| id := id self; name := name self; description := description self;
     class_code := class_code self; system_class := system_class self;
     begin_from := from; begin_to := to; begin_comment := comment;
     end_from := end_from self; end_to := end_to self;
     end_comment := end_comment self |}.

Definition set_end (from to : option datetime64) (comment : option string)
    (self : Entity) : Entity :=
  {| id := id self; name := name self; description := description self;
     class_code := class_code self; system_class := system_class self;
     begin_from := begin_from self; begin_to := begin_to self;
     begin_comment := begin_comment self;
     end_from := from; end_to := to; end_comment := comment |}.

(** [Entity.set_dates(self, form)]; the updated object is returned. *)
Definition set_dates (self : Entity) (form : FlaskForm) : Entity :=
  match date_fields form with
  | None => self
  | Some f =>
    let self := set_begin None None None self in
    let self := set_end None None None self in
    let self :=
      if int_truthy (DateForm.begin_year_from f) then
        set_begin
          (form_to_datetime64 (DateForm.begin_year_from f)
             (DateForm.begin_month_from f) (DateForm.begin_day_from f) false)
          (form_to_datetime64 (DateForm.begin_year_to f)
             (DateForm.begin_month_to f) (DateForm.begin_day_to f) true)
          (DateForm.begin_comment f) self
      else self in
    let self :=
      if int_truthy (DateForm.end_year_from f) then
        set_end
          (form_to_datetime64 (DateForm.end_year_from f)
             (DateForm.end_month_from f) (DateForm.end_day_from f) false)
          (form_to_datetime64 (DateForm.end_year_to f)
             (DateForm.end_month_to f) (DateForm.end_day_to f) true)
          (DateForm.end_comment f) self
      else self in
    self
  end.

(** [Entity.get_by_class(classes)]: the rows [WHERE e.system_class IN
    %(class)s GROUP BY e.id]; an empty tuple is rejected by the database. *)
Definition get_by_class (classes : Codes) : M World (list Entity) :=
  λ w, match codes_list classes with
       | [] => (Raise ProgrammingError, w)
       | cs => (Ok (filter (λ e, system_class e ∈ cs) (entity_table w)), w)
       end.

(** [for entity in entities:] inside [get_similar_named]; the entry
    [similar[sample.id]] exists when the loop runs and is appended to. *)
Fixpoint similar_inner (ratio_data : Z) (sample : Entity) (entities : list Entity)
    (similar : gmap Z (Entity * list Entity)) (already_added : gset Z)
    : gmap Z (Entity * list Entity) * gset Z :=
  match entities with
  | [] => (similar, already_added)
  | entity :: rest =>
    if bool_decide (id sample = id entity)
    then similar_inner ratio_data sample rest similar already_added
    else if ratio_data <=? fuzz_ratio (name sample) (name entity)
    then
      let already_added := already_added ∪ {[id sample]} in
      let already_added := already_added ∪ {[id entity]} in
      let similar := alter (λ data, (data.1, data.2 ++ [entity])) (id sample) similar in
      similar_inner ratio_data sample rest similar already_added
    else similar_inner ratio_data sample rest similar already_added
  end.

(** [for sample in entities:] of [get_similar_named]; [samples] is what
    is left of the outer list, [entities] the whole list. *)
Fixpoint similar_outer (ratio_data : Z) (entities : list Entity) (samples : list Entity)
    (similar : gmap Z (Entity * list Entity)) (already_added : gset Z)
    : gmap Z (Entity * list Entity) * gset Z :=
  match samples with
  | [] => (similar, already_added)
  | sample :: rest =>
    if bool_decide (id sample ∈ already_added)
    then similar_outer ratio_data entities rest similar already_added
    else
      let similar := <[id sample := (sample, [])]> similar in
      let '(similar, already_added) :=
        similar_inner ratio_data sample entities similar already_added in
      similar_outer ratio_data entities rest similar already_added
  end.

(** [Entity.get_similar_named(form)] *)
Definition get_similar_named (form : SimilarForm.t)
    : M World (gmap Z (Entity * list Entity)) :=
  (let class_ := SimilarForm.classes form in
   entities <- get_by_class class_ ;;
   let '(similar, _) :=
     similar_outer (SimilarForm.ratio form) entities entities ∅ ∅ in
   ret (filter (λ kv : Z * (Entity * list Entity), kv.2.2 ≠ []) similar))%py.

(** The statement run by [Entity.search]: name (and, with [desc],
    description and comments) [LIKE] the term, [system_class IN classes],
    with [own] only entities the user has a log entry for; [GROUP BY e.id
    ORDER BY e.name].  [user_log] holds pairs (user id, entity id). *)
Definition sql_search (form : SearchForm.t) (user_id : Z) : M World (list Entity) :=
  λ w,
    let term := "%" +:+ SearchForm.term form +:+ "%" in
    let like_opt (v : option string) :=
      match v with Some s => sql_like s term | None => false end in
    match SearchForm.classes form with
    | [] => (Raise ProgrammingError, w)
    | classes =>
      (Ok (order_by_name
             (filter
                (λ e, (sql_like (name e) term
                       || (SearchForm.desc form
                           && (sql_like (description e) term
                               || like_opt (begin_comment e)
                               || like_opt (end_comment e)))) = true
                      ∧ (SearchForm.own form = true → (user_id, id e) ∈ user_log w)
                      ∧ system_class e ∈ classes)
                (entity_table w))), w)
    end.

(** Truthiness of a date ([if date], [not date]): [None] is falsy, and
    so is the date whose count is 0, 1970-01-01. *)
Definition date_truthy (d : option datetime64) : bool :=
  match d with
  | Some count => negb (count =? 0)
  | None => false
  end.

(** [not entity.begin_from and not entity.begin_to and not entity.end_from
    and not entity.end_to] *)
Definition dateless (entity : Entity) : bool :=
  negb (date_truthy (begin_from entity)) && negb (date_truthy (begin_to entity))
  && negb (date_truthy (end_from entity)) && negb (date_truthy (end_to entity)).

(** [for date in dates: if date and date >= from_date: begin_check_ok = True] *)
Fixpoint check_from (from_date : datetime64) (dates : list (option datetime64))
    (begin_check_ok : bool) : bool :=
  match dates with
  | [] => begin_check_ok
  | date :: rest =>
    match date with
    | Some d => if date_truthy date && (from_date <=? d)
                then check_from from_date rest true
                else check_from from_date rest begin_check_ok
    | None => check_from from_date rest begin_check_ok
    end
  end.

(** [for date in dates: if date and date <= to_date: end_check_ok = True] *)
Fixpoint check_to (to_date : datetime64) (dates : list (option datetime64))
    (end_check_ok : bool) : bool :=
  match dates with
  | [] => end_check_ok
  | date :: rest =>
    match date with
    | Some d => if date_truthy date && (d <=? to_date)
                then check_to to_date rest true
                else check_to to_date rest end_check_ok
    | None => check_to to_date rest end_check_ok
    end
  end.

(** The entity a fetched row stands for.  For a row of an alias class
    the code evaluates [Link.get_linked_entity(row.id, code, True)]:
    class [Link] of models/link.py has no attribute of that name (the
    function of that name belongs to [LinkMapper] and takes an entity,
    not an id), so the attribute lookup raises [AttributeError].  A row
    of a class that was not asked for stands for nothing, any other row
    for itself. *)
Definition row_entity (form : SearchForm.t) (row : Entity) : M World (option Entity) :=
  if bool_decide (system_class row = "actor_appellation")
  then raise AttributeError
  else if bool_decide (system_class row = "appellation")
  then raise AttributeError
  else if bool_decide (system_class row ∉ SearchForm.classes form)
  then ret None
  else ret (Some row).

(** [for row in g.cursor.fetchall():] of [Entity.search]. *)
Fixpoint search_loop (form : SearchForm.t) (from_date to_date : option datetime64)
    (rows : list Entity) (entities : list Entity) : M World (list Entity) :=
  match rows with
  | [] => ret entities
  | row :: rest =>
    (entity <- row_entity form row ;;
     match entity with
     | None => search_loop form from_date to_date rest entities
     | Some entity =>
       if negb (date_truthy from_date) && negb (date_truthy to_date)
       then search_loop form from_date to_date rest (entities ++ [entity])
       else if dateless entity
       then
         if SearchForm.include_dateless form
         then search_loop form from_date to_date rest (entities ++ [entity])
         else search_loop form from_date to_date rest entities
       else
         let dates := [begin_from entity; begin_to entity;
                       end_from entity; end_to entity] in
         let begin_check_ok := false in
         let begin_check_ok :=
           match from_date with
           | Some from_date' =>
             if negb (date_truthy from_date) then true
             else check_from from_date' dates begin_check_ok
           | None => true
           end in
         let end_check_ok := false in
         let end_check_ok :=
           match to_date with
           | Some to_date' =>
             if negb (date_truthy to_date) then true
             else check_to to_date' dates end_check_ok
           | None => true
           end in
         if begin_check_ok && end_check_ok
         then search_loop form from_date to_date rest (entities ++ [entity])
         else search_loop form from_date to_date rest entities
     end)%py
  end.

(** [{d.id: d for d in entities}] *)
Definition dict_by_id (entities : list Entity) : list (Z * Entity) :=
  fold_left (λ d e, dict_set (id e) e d) entities [].

(** [Entity.search(form)] for the user [user_id].  The lines that write
    the completed month and day back into the form are left out: they
    change the form only, and the function does not read those fields
    again. *)
Definition search (form : SearchForm.t) (user_id : Z) : M World (list Entity) :=
  if String.eqb (SearchForm.term form) "" then ret []
  else
    (rows <- sql_search form user_id ;;
     let from_date := form_to_datetime64 (SearchForm.begin_year form)
                        (SearchForm.begin_month form) (SearchForm.begin_day form) false in
     let to_date := form_to_datetime64 (SearchForm.end_year form)
                      (SearchForm.end_month form) (SearchForm.end_day form) true in
     entities <- search_loop form from_date to_date rows [] ;;
     ret (dict_values (dict_by_id entities)))%py.

(** [Entity.get_by_id(id_)]: a cached node or reference system, else
    the row [WHERE e.id = %(id)s]; building the entity of no row raises
    [AttributeError], which is raised again on a path with 'activity'
    and answered with [abort(418)] otherwise. *)
Definition get_by_id (g : G) (id_ : Z) : M World Entity :=
  match nodes g !! id_ with
  | Some node => ret node
  | None =>
    match reference_systems g !! id_ with
    | Some system => ret system
    | None =>
      λ w, match List.find (λ e, bool_decide (id e = id_)) (entity_table w) with
           | Some row => (Ok row, w)
           | None =>
             if str_in "activity" (request_path g)
             then (Raise AttributeError, w)
             else (Raise (HTTPException 418), w)
           end
    end
  end.

(** [[Entity.get_by_id(id_) for id_ in ids]] *)
Fixpoint get_each (g : G) (ids : list Z) : M World (list Entity) :=
  match ids with
  | [] => ret []
  | id_ :: rest =>
    (entity <- get_by_id g id_ ;;
     entities <- get_each g rest ;;
     ret (entity :: entities))%py
  end.

(** [Entity.get_circular()]: [SELECT domain_id FROM model.link WHERE
    domain_id = range_id], and the entity of each row. *)
Definition get_circular (g : G) : M World (list Entity) :=
  (ids <- gets (λ w, domain_id <$> filter (λ r, domain_id r = range_id r) (link_table w)) ;;
   get_each g ids)%py.

(** [Entity.sql_orphan]: the ids of the entities that are no type
    ([class_code != 'E55']), are the range of no link, and are the domain
    only of links whose range is a type (the two [LEFT JOIN]s find no
    row). *)
Definition sql_orphan (w : World) : list Z :=
  let types := id <$> filter (λ e, class_code e = "E55") (entity_table w) in
  id <$> filter (λ e, Forall (λ l, ¬ (id e = domain_id l ∧ range_id l ∉ types))
                        (link_table w)
                      ∧ Forall (λ l, id e ≠ range_id l) (link_table w)
                      ∧ class_code e ≠ "E55")
           (entity_table w).

(** [Entity.get_orphans()] *)
Definition get_orphans (g : G) : M World (list Entity) :=
  (ids <- gets sql_orphan ;;
   get_each g ids)%py.

End defs.
End EntityModel.

(** ** openatlas/util/util.py *)

(** [current_user]: [group] is [None] when the object has no attribute
    [group] (flask_login's [AnonymousUserMixin]). *)
Record User := { is_authenticated : bool; group : option string }.

(** Code of the standard library that [sanitize] calls: the
    substitution [re.sub(r'([^\s\w]|_)+', '', string)] with Python's
    Unicode character classes, the data [HTMLParser.feed] hands to
    [handle_data], and [str.strip]. *)
Class UtilForeign := {
  re_sub_node : string → string;
  html_feed : string → list string;
  str_strip : string → string
}.

Module Util.

(** [is_authorized(group)] for the user [current_user]. *)
Definition is_authorized (current_user : User) (group_ : string) : bool :=
  if negb (is_authenticated current_user) then false
  else match group current_user with
  | None => false
  | Some user_group =>
    if bool_decide (user_group = "admin")
            || (bool_decide (user_group = "manager")
                && bool_decide (group_ ∈ ["manager"; "editor"; "contributor"; "readonly"]))
            || (bool_decide (user_group = "editor")
                && bool_decide (group_ ∈ ["editor"; "contributor"; "readonly"]))
            || (bool_decide (user_group = "contributor")
                && bool_decide (group_ ∈ ["contributor"; "readonly"]))
            || (bool_decide (user_group = "readonly")
                && bool_decide (group_ = "readonly"))
    then true
    else false
  end.

(** What a guarded view answers: werkzeug's [redirect] to
    [url_for(endpoint, next=...)], or what the view returned. *)
Inductive Response (A : Type) :=
| Redirect (endpoint next : string)
| Returned (a : A).
Arguments Redirect {A} endpoint next.
Arguments Returned {A} a.

(** [required_group(group)(f)], called for [current_user] on the path
    [request.path]; the view [f] works on a store [S]. *)
Definition required_group {S A} (current_user : User) (path : string)
    (group_ : string) (f : M S A) : M S (Response A) :=
  if negb (is_authenticated current_user) then ret (Redirect "login" path)
  else if negb (is_authorized current_user group_) then raise (HTTPException 403)
  else (a <- f ;; ret (Returned a))%py.

(** A character of [A-Za-z0-9]. *)
Definition ascii_alnum (c : Ascii.ascii) : bool :=
  let n := Z.of_N (Ascii.N_of_ascii c) in
  ((48 <=? n) && (n <=? 57)) || ((65 <=? n) && (n <=? 90)) || ((97 <=? n) && (n <=? 122)).

(** [re.sub('[^A-Za-z0-9]+', '', string)]: every run of other characters
    is removed. *)
Fixpoint keep_alnum (s : string) : string :=
  match s with
  | EmptyString => EmptyString
  | String c rest => if ascii_alnum c then String c (keep_alnum rest) else keep_alnum rest
  end.

(** [MLStripper.get_data]: [''.join(self.fed)] *)
Definition get_data (fed : list string) : string := String.concat "" fed.

Section sanitize.
Context {U : UtilForeign}.

(** [sanitize(string, mode=None)] *)
Definition sanitize (string_ : option string) (mode : option string) : string :=
  match string_ with
  | None => ""
  | Some s =>
    if String.eqb s "" then ""
    else if bool_decide (mode = Some "node") then str_strip (re_sub_node s)
    else if bool_decide (mode = Some "text") then str_strip (get_data (html_feed s))
    else keep_alnum s
  end.

End sanitize.

(** A Python [str], as [truncate] handles it: the list of its code
    points, so that [len] and slices count characters. *)
Definition str := list N.

(** The code points of a literal of ASCII characters. *)
Definition literal (s : string) : str :=
  Ascii.N_of_ascii <$> String.list_ascii_of_string s.

(** Python's [string[:length]]; a negative [length] counts from the end. *)
Definition slice_to (s : str) (length : Z) : str :=
  if 0 <=? length then take (Z.to_nat length) s
  else take (Z.to_nat (Z.of_nat (Datatypes.length s) + length)) s.

(** The code point of the double quote. *)
Definition double_quote : N := 34%N.

(** [truncate(string='', length=40, span=True)] *)
Definition truncate (string_ : option str) (length : Z) (span : bool) : str :=
  match string_ with
  | None => []
  | Some s =>
    if Z.of_nat (Datatypes.length s) <? length + 1 then s
    else if negb span then slice_to s length ++ literal ".."
    else literal "<span title=" ++ [double_quote]
         ++ filter (λ c, c ≠ double_quote) s
         ++ [double_quote] ++ literal ">" ++ slice_to s length ++ literal ".."
         ++ literal "</span>"
  end.

End Util.

(** ** openatlas/models/entity.py: [get_name_directed], which calls
       [sanitize] *)

Module EntityName.
Section defs.
Context {U : UtilForeign}.

(** Python's [s.split(' (')]: the parts between the occurrences of the
    separator, found from the left; an occurrence takes its two
    characters. *)
Fixpoint split_open (s : string) : list string :=
  match s with
  | EmptyString => [EmptyString]
  | String c rest =>
    if String.prefix " (" s
    then EmptyString :: match rest with
                        | String _ rest' => split_open rest'
                        | EmptyString => [EmptyString]
                        end
    else match split_open rest with
         | part :: parts => String c part :: parts
         | [] => [String c EmptyString]
         end
  end.

(** [Entity.get_name_directed(self, inverse=False)].  [sanitize] is
    imported from openatlas.util.display, which is not among the
    sources; it is taken to be the function of that name in
    util/util.py. *)
Definition get_name_directed (self : Entity) (inverse : bool) : string :=
  let name_parts := split_open (name self) in
  if inverse && (1 <? length name_parts)%nat
  then Util.sanitize (Some (default "" (name_parts !! 1%nat))) (Some "node")
  else default "" (name_parts !! 0%nat).

End defs.
End EntityName.

(** ** openatlas/views/place.py *)

(** The entity attributes [save] reads. *)
Record PlaceEntity := { entity_id : Z; system_type : string; view_name : string }.

(** The place form: [form.name.data], whether the form has a field
    [geonames_id], and [form.continue_.data]. *)
Record PlaceForm := { form_name : string; has_geonames_id : bool; continue_ : string }.

(** A keyword argument of [url_for]. *)
Inductive UrlArg :=
| UNone
| UInt (z : Z)
| UStr (s : string).

(** What the cursor was asked to do, in order: the three transaction
    statements, and each call of a function that works on the database. *)
Inductive Stmt :=
| BEGIN
| COMMIT
| ROLLBACK
| Call (function : string).

Global Instance Stmt_eq_dec : EqDecision Stmt.
Proof. solve_decision. Defined.

(** The connection ([autocommit = True]): [stable] is the committed
    database, [work] the state inside an open transaction, [executed]
    the statements so far, [flashed] the flashed messages. *)
Record Conn (DB : Type) := {
  stable : DB;
  work : option DB;
  executed : list Stmt;
  flashed : list (string * string)
}.
Arguments stable {DB} c.
Arguments work {DB} c.
Arguments executed {DB} c.
Arguments flashed {DB} c.

(** The functions [save] calls, as transformers of the database that
    may raise: [save] is studied for its own statements, not for what
    its callees do.  [Gis], [Geonames] and [logger] are not among the
    sources; [Entity.insert], [Entity.update] and [Entity.link] are
    methods of models/entity.py, which go on to further functions
    ([Entity.update] reaches [Entity.insert] through [update_aliases])
    and are not unfolded here.  [url_for] builds a string and
    [current_user.settings] is read. *)
Class PlaceOps (DB : Type) := {
  Gis_delete_by_entity : PlaceEntity → DB → Res unit * DB;
  Entity_insert : string → string → string → DB → Res PlaceEntity * DB;
  Entity_link : PlaceEntity → string → PlaceEntity → DB → Res (list Z) * DB;
  Entity_update : PlaceEntity → PlaceForm → DB → Res unit * DB;
  Geonames_update_geonames : PlaceForm → PlaceEntity → DB → Res unit * DB;
  Gis_insert : PlaceEntity → PlaceForm → DB → Res unit * DB;
  logger_log_user : Z → string → DB → Res unit * DB;
  logger_log : string → string → string → Exn → DB → Res unit * DB;
  url_for : string → list (string * UrlArg) → string;
  module_geonames : bool
}.

Module Place.
Section defs.
Context {DB : Type} {O : PlaceOps DB}.

Definition log_stmt (st : Stmt) (c : Conn DB) : Conn DB :=
  {| stable := stable c; work := work c; executed := executed c ++ [st];
     flashed := flashed c |}.

(** [g.cursor.execute('BEGIN')]: opens a transaction on the committed
    state (inside a transaction the statement changes nothing). *)
Definition begin (c : Conn DB) : Conn DB :=
  log_stmt BEGIN
    {| stable := stable c;
       work := match work c with Some db => Some db | None => Some (stable c) end;
       executed := executed c; flashed := flashed c |}.

(** [g.cursor.execute('COMMIT')]: the transaction's state becomes the
    committed one. *)
Definition commit (c : Conn DB) : Conn DB :=
  log_stmt COMMIT
    {| stable := match work c with Some db => db | None => stable c end;
       work := None; executed := executed c; flashed := flashed c |}.

(** [g.cursor.execute('ROLLBACK')]: the transaction's state is dropped. *)
Definition rollback (c : Conn DB) : Conn DB :=
  log_stmt ROLLBACK
    {| stable := stable c; work := None; executed := executed c;
       flashed := flashed c |}.

(** A call that works on the database: inside a transaction it works
    on the transaction's state, outside every statement is committed
    at once. *)
Definition call {A} (function : string) (op : DB → Res A * DB) : M (Conn DB) A :=
  λ c, match work c with
       | Some db =>
         let '(r, db') := op db in
         (r, log_stmt (Call function)
               {| stable := stable c; work := Some db'; executed := executed c;
                  flashed := flashed c |})
       | None =>
         let '(r, db') := op (stable c) in
         (r, log_stmt (Call function)
               {| stable := db'; work := None; executed := executed c;
                  flashed := flashed c |})
       end.

Definition flash (message category : string) : M (Conn DB) unit :=
  modify (λ c, {| stable := stable c; work := work c; executed := executed c;
                  flashed := flashed c ++ [(message, category)] |}).

(** The [if object__ and location_: ... else: ...] head of the [try]
    block: the object, its location, [log_action] and [system_type]. *)
Definition save_objects (form : PlaceForm) (object__ location_ origin : option PlaceEntity)
    (system_type_ : option string)
    : M (Conn DB) (PlaceEntity * PlaceEntity * string * option string) :=
  match object__, location_ with
  | Some object_, Some location =>
    (call "Gis.delete_by_entity" (Gis_delete_by_entity location) ;;;
     ret (object_, location, "update", system_type_))%py
  | _, _ =>
    (let log_action := "insert" in
     inserted <-
       (if bool_decide (system_type_ = Some "human_remains") then
          object_ <- call "Entity.insert" (Entity_insert "E20" (form_name form) "human remains") ;;
          ret (object_, system_type_)
        else if bool_decide (system_type <$> origin = Some "stratigraphic unit") then
          object_ <- call "Entity.insert" (Entity_insert "E22" (form_name form) "find") ;;
          ret (object_, system_type_)
        else
          let system_type_ := "place" in
          let system_type_ :=
            if bool_decide (system_type <$> origin = Some "place") then "feature"
            else if bool_decide (system_type <$> origin = Some "feature")
            then "stratigraphic unit"
            else system_type_ in
          object_ <- call "Entity.insert" (Entity_insert "E18" (form_name form) system_type_) ;;
          ret (object_, Some system_type_)) ;;
     let '(object_, system_type_) := inserted in
     location <- call "Entity.insert"
                   (Entity_insert "E53" ("Location of " +:+ form_name form) "place location") ;;
     call "Entity.link" (Entity_link object_ "P53" location) ;;;
     ret (object_, location, log_action, system_type_))%py
  end.

(** The [if origin:] part of the [try] block: the links to the origin
    and the url to go to. *)
Definition save_origin (object_ : PlaceEntity) (origin : option PlaceEntity) (url : string)
    : M (Conn DB) string :=
  match origin with
  | None => ret url
  | Some origin =>
    (let url := url_for "entity_view" [("id_", UInt (entity_id origin))] +:+ "#tab-place" in
     if bool_decide (view_name origin = "reference") then
       ids <- call "Entity.link" (Entity_link origin "P67" object_) ;;
       match ids with
       | link_id :: _ =>
         ret (url_for "reference_link_update"
                [("link_id", UInt link_id); ("origin_id", UInt (entity_id origin))])
       | [] => raise IndexError
       end
     else if bool_decide (system_type origin ∈ ["place"; "feature"; "stratigraphic unit"]) then
       let url := url_for "entity_view" [("id_", UInt (entity_id object_))] in
       call "Entity.link" (Entity_link origin "P46" object_) ;;;
       ret url
     else
       call "Entity.link" (Entity_link origin "P67" object_) ;;;
       ret url)%py
  end.

(** The [try] block of [save] up to [COMMIT]: everything that writes
    the place.  It returns the variables the rest of the block reads:
    [object_], [log_action], [system_type] and [url]. *)
Definition save_changes (form : PlaceForm) (object__ location_ origin : option PlaceEntity)
    (system_type_ : option string)
    : M (Conn DB) (PlaceEntity * string * option string * string) :=
  (objects <- save_objects form object__ location_ origin system_type_ ;;
   let '(object_, location, log_action, system_type_) := objects in
   call "Entity.update" (Entity_update object_ form) ;;;
   call "Entity.update" (Entity_update location form) ;;;
   (if has_geonames_id form && module_geonames
    then call "Geonames.update_geonames" (Geonames_update_geonames form object_)
    else ret tt) ;;;
   let url := url_for "entity_view" [("id_", UInt (entity_id object_))] in
   url <- save_origin object_ origin url ;;
   call "Gis.insert" (Gis_insert location form) ;;;
   ret (object_, log_action, system_type_, url))%py.

(** The [try] block of [save]: the changes, [COMMIT], then the log
    entry and the flashed message. *)
Definition save_try (form : PlaceForm) (object__ location_ origin : option PlaceEntity)
    (system_type_ : option string) : M (Conn DB) string :=
  (changed <- save_changes form object__ location_ origin system_type_ ;;
   let '(object_, log_action, system_type_, url) := changed in
   modify commit ;;;
   let url :=
     if bool_decide (continue_ form = "yes") then
       url_for "place_insert"
         [("origin_id", match origin with Some o => UInt (entity_id o) | None => UNone end);
          ("system_type", match system_type_ with Some t => UStr t | None => UNone end)]
     else url in
   call "logger.log_user" (logger_log_user (entity_id object_) log_action) ;;;
   flash (if bool_decide (log_action = "insert") then "entity created" else "info update")
         "info" ;;;
   ret url)%py.

(** The two [except] clauses of [save]. *)
Definition save_except (e : Exn) : M (Conn DB) string :=
  match e with
  | InvalidGeomException =>
    (modify rollback ;;;
     call "logger.log"
       (logger_log "error" "database" "transaction failed because of invalid geom" e) ;;;
     flash "Invalid geom entered" "error" ;;;
     ret (url_for "place_index" []))%py
  | _ =>
    (modify rollback ;;;
     call "logger.log" (logger_log "error" "database" "transaction failed" e) ;;;
     flash "error transaction" "error" ;;;
     ret (url_for "place_index" []))%py
  end.

(** [save(form, object__, location_, origin, system_type)] *)
Definition save (form : PlaceForm) (object__ location_ origin : option PlaceEntity)
    (system_type_ : option string) : M (Conn DB) string :=
  λ c, match save_try form object__ location_ origin system_type_ (begin c) with
       | (Ok url, c') => (Ok url, c')
       | (Raise e, c') => save_except e c'
       end.

End defs.
End Place.

(** ** Definitions used to state the theorems on [save] *)

(** A run of statements that holds calls only, no transaction statement. *)
Definition calls_only (t : list Stmt) : Prop := Forall (λ s, ∃ f, s = Call f) t.

(** A computation that, started inside a transaction, stays inside it:
    the committed state is not touched and the cursor sees calls only. *)
Definition in_transaction {DB A} (m : M (Conn DB) A) : Prop :=
  ∀ c, is_Some (work c) →
       is_Some (work (m c).2) ∧ stable (m c).2 = stable c
       ∧ flashed (m c).2 = flashed c
       ∧ ∃ t, executed (m c).2 = executed c ++ t ∧ calls_only t.

(** How often a statement occurs in a run. *)
Definition occurrences (st : Stmt) (t : list Stmt) : nat :=
  length (filter (λ s, s = st) t).

(** ** The authorization model in the specification's words *)

(** In the specification's words, a static hierarchy of tiers: the list
    of its group names from the highest to the lowest, and the position
    of a group name in it. *)
Fixpoint tier_index (tiers : list string) (group_ : string) : option nat :=
  match tiers with
  | [] => None
  | t :: rest => if bool_decide (group_ = t) then Some 0%nat
                 else S <$> tier_index rest group_
  end.

(** In the specification's words, the comparison of the user's group
    string against the hierarchy: each tier is authorized for itself and
    all lower tiers, and a name outside the hierarchy for nothing. *)
Definition tier_authorized (tiers : list string) (user_group group_ : string) : bool :=
  match tier_index tiers user_group, tier_index tiers group_ with
  | Some i, Some j => bool_decide (i ≤ j)%nat
  | _, _ => false
  end.

(** The hierarchy [is_authorized] spells out below the group admin. *)
Definition four_tiers : list string :=
  ["manager"; "editor"; "contributor"; "readonly"].

(** An authenticated user of the given group. *)
Definition user_of_group (user_group : string) : User :=
  {| is_authenticated := true; group := Some user_group |}.

(** ** Definitions used to state the theorems *)

(** The columns of a link row apart from its id. *)
Definition link_key (r : LinkRow) : string * Z * Z * option string :=
  (property_code r, domain_id r, range_id r, link_description r).

(** The rows a run of inserts appends: one per range id, numbered from
    the sequence's next value. *)
Definition new_links (seq : Z) (property_code : string) (domain_id : Z)
    (description : option string) (range_ids : list Z) : list LinkRow :=
  imap (λ i range_id, {| link_id := seq + Z.of_nat i; property_code := property_code;
                         domain_id := domain_id; range_id := range_id;
                         link_description := description |}) range_ids.

(** The ids of the truthy elements of a range list. *)
Definition remaining_ids {F : LinkForeign} (range_ : list PyVal) : list Z :=
  omap (λ r, if truthy r
             then match LinkMapper.id_of r with Ok z => Some z | Raise _ => None end
             else None) range_.

(** The whitelist lookup of the CIDOC check: the property's domain
    classes contain the domain's class code (or the code is one of
    [WHITELISTED_DOMAINS]) and its range classes contain the range's. *)
Definition cidoc_valid {F : LinkForeign} (env : Env) (property_ : Property)
    (domain_code range_code : string) : bool :=
  (find_object property_ "domain_class_code" domain_code
   || bool_decide (domain_code ∈ WHITELISTED_DOMAINS env))
  && find_object property_ "range_class_code" range_code.

(** [openatlas.classes] is keyed by the class code. *)
Definition classes_keyed_by_code (env : Env) : Prop :=
  map_Forall (λ k c, code c = k) (classes env).

Definition class_of (env : Env) (e : Entity) : ClassObj :=
  default {| code := ""; class_name := "" |} (classes env !! class_code e).

(** The message flashed for a pair that fails the check. *)
Definition error_link_flash {F : LinkForeign} (env : Env) (domain : Entity)
    (property_code : string) (range_ : Entity) : string * string :=
  (LinkMapper.error_link_text (class_of env domain) property_code (class_of env range_),
   "error").

(** The entity table's primary key: no two rows share an id. *)
Definition primary_key (w : World) : Prop := NoDup (id <$> entity_table w).

(** Two stores with the same tables. *)
Definition same_tables (w1 w2 : World) : Prop :=
  entity_table w1 = entity_table w2 ∧ link_table w1 = link_table w2.

(** A fetched row of one of the two alias classes. *)
Definition alias_row (row : Entity) : Prop :=
  system_class row = "actor_appellation" ∨ system_class row = "appellation".

Global Instance alias_row_dec row : Decision (alias_row row).
Proof. unfold alias_row. apply _. Defined.

(** A search form that asks for no alias class. *)
Definition no_alias_class (form : SearchForm.t) : Prop :=
  ("actor_appellation" ∉ SearchForm.classes form)
  ∧ ("appellation" ∉ SearchForm.classes form).

(** The rows the search statement fetches (read off the code's own
    function); a search without a term fetches none. *)
Definition search_rows {F : EntityForeign} (form : SearchForm.t) (user_id : Z)
    (w : World) : list Entity :=
  match (EntityModel.sql_search form user_id w).1 with
  | Ok rows => rows
  | Raise _ => []
  end.

Definition search_candidates {F : EntityForeign} (form : SearchForm.t) (user_id : Z)
    (w : World) : list Entity :=
  if String.eqb (SearchForm.term form) "" then []
  else search_rows form user_id w.

(** The two date criteria of a search form. *)
Definition from_date_of {F : EntityForeign} (form : SearchForm.t) : option datetime64 :=
  form_to_datetime64 (SearchForm.begin_year form) (SearchForm.begin_month form)
    (SearchForm.begin_day form) false.

Definition to_date_of {F : EntityForeign} (form : SearchForm.t) : option datetime64 :=
  form_to_datetime64 (SearchForm.end_year form) (SearchForm.end_month form)
    (SearchForm.end_day form) true.

(** A date as the code's tests see it: a falsy date is no date. *)
Definition in_force (d : option datetime64) : option datetime64 :=
  if EntityModel.date_truthy d then d else None.

(** The dates of an entity that the code's tests take for dates. *)
Definition dates_in_force (e : Entity) : list datetime64 :=
  omap in_force [begin_from e; begin_to e; end_from e; end_to e].

(** What the loop of [Entity.search] decides for one entity. *)
Definition date_filter (include_dateless : bool) (from_date to_date : option datetime64)
    (entity : Entity) : bool :=
  if negb (EntityModel.date_truthy from_date) && negb (EntityModel.date_truthy to_date)
  then true
  else if EntityModel.dateless entity then include_dateless
  else
    let dates := [begin_from entity; begin_to entity; end_from entity; end_to entity] in
    match from_date with
    | Some from_date' =>
      if negb (EntityModel.date_truthy from_date) then true
      else EntityModel.check_from from_date' dates false
    | None => true
    end
    && match to_date with
       | Some to_date' =>
         if negb (EntityModel.date_truthy to_date) then true
         else EntityModel.check_to to_date' dates false
       | None => true
       end.

(** The list [get_linked_entities] computes, as a function of the two
    tables. *)
Definition linked_ids (links : list LinkRow) (entity_id : Z) (codes : list string)
    (inverse : bool) : list Z :=
  if inverse
  then domain_id <$> filter (λ r, range_id r = entity_id ∧ property_code r ∈ codes) links
  else range_id <$> filter (λ r, domain_id r = entity_id ∧ property_code r ∈ codes) links.

Definition linked_rows (entities : list Entity) (links : list LinkRow) (entity_id : Z)
    (codes : list string) (inverse : bool) : list Entity :=
  match linked_ids links entity_id codes inverse with
  | [] => []
  | ids => order_by_name (filter (λ e, id e ∈ ids) entities)
  end.

(** The entities of a list whose name is similar to the sample's: not
    the sample itself, and a ratio of at least the threshold. *)
Definition similar_to {F : EntityForeign} (ratio_data : Z) (entities : list Entity)
    (sample : Entity) : list Entity :=
  filter (λ e, id sample ≠ id e ∧ ratio_data ≤ fuzz_ratio (name sample) (name e)) entities.

(** [a] stands before [b] in the list. *)
Definition earlier (l : list Entity) (a b : Entity) : Prop :=
  ∃ l1 l2 l3, l = l1 ++ a :: l2 ++ b :: l3.

(** The invariant of the outer loop of [get_similar_named] once the
    samples [pre] are done: every entry belongs to a sample of [pre] and
    holds all entities similar to it; [already_added] holds the ids of
    the non-empty groups and of their samples; a sample has an entry iff
    no earlier sample's group holds it. *)
Definition similar_inv {F : EntityForeign} (ratio_data : Z) (entities pre : list Entity)
    (similar : gmap Z (Entity * list Entity)) (already_added : gset Z) : Prop :=
  (∀ k data, similar !! k = Some data →
             data.1 ∈ pre ∧ id data.1 = k ∧ data.2 = similar_to ratio_data entities data.1)
  ∧ (∀ x, x ∈ already_added ↔
          ∃ k data, similar !! k = Some data ∧ data.2 ≠ []
                    ∧ (x = id data.1 ∨ x ∈ id <$> data.2))
  ∧ (∀ p1 s p2, pre = p1 ++ s :: p2 →
                is_Some (similar !! id s) ↔
                ¬ ∃ t g, t ∈ p1 ∧ similar !! id t = Some (t, g) ∧ s ∈ g).

(** ** Definitions used to state further theorems on the link model *)

(** The sequence behind [RETURNING id] is ahead of every id in use. *)
Definition link_ids_fresh (w : World) : Prop :=
  Forall (λ r, link_id r < link_id_seq w) (link_table w).

(** Two arguments of [insert] that stand for the same entity: equally
    truthy, and the same id (or the same exception) from
    [x.id if type(x) is openatlas.Entity else int(x)]. *)
Definition same_ref {F : LinkForeign} (a b : PyVal) : Prop :=
  truthy a = truthy b ∧ LinkMapper.id_of a = LinkMapper.id_of b.

(** ** Definitions used to state further theorems on the entity model *)

(** A from-date criterion that lets through at least what another one
    does: no criterion, or an earlier date. *)
Definition from_wider (wide narrow : option datetime64) : Prop :=
  match wide, narrow with
  | None, _ => True
  | Some a, Some b => a ≤ b
  | Some _, None => False
  end.

(** The same for a to-date criterion: no criterion, or a later date. *)
Definition to_wider (wide narrow : option datetime64) : Prop :=
  match wide, narrow with
  | None, _ => True
  | Some a, Some b => b ≤ a
  | Some _, None => False
  end.

(** Two search forms that differ in their date fields at most. *)
Definition same_query (form form' : SearchForm.t) : Prop :=
  SearchForm.term form = SearchForm.term form'
  ∧ SearchForm.own form = SearchForm.own form'
  ∧ SearchForm.desc form = SearchForm.desc form'
  ∧ SearchForm.classes form = SearchForm.classes form'
  ∧ SearchForm.include_dateless form = SearchForm.include_dateless form'.

(** The six date attributes of an entity. *)
Definition date_attributes (e : Entity)
    : option datetime64 * option datetime64 * option string
      * (option datetime64 * option datetime64 * option string) :=
  (begin_from e, begin_to e, begin_comment e, (end_from e, end_to e, end_comment e)).

(** An id [Entity.get_by_id] finds: cached, or the id of a row. *)
Definition known_id (g : G) (w : World) (id_ : Z) : Prop :=
  is_Some (nodes g !! id_) ∨ is_Some (reference_systems g !! id_)
  ∨ id_ ∈ id <$> entity_table w.

Global Instance known_id_dec g w id_ : Decision (known_id g w id_).
Proof. unfold known_id. apply _. Defined.

(** The caches of [g] are keyed by the id of the entity they hold. *)
Definition caches_keyed_by_id (g : G) : Prop :=
  map_Forall (λ k e, id e = k) (nodes g)
  ∧ map_Forall (λ k e, id e = k) (reference_systems g).

(** The exception of [Entity.get_by_id] for an id it does not find. *)
Definition not_found (g : G) : Exn :=
  if str_in "activity" (request_path g) then AttributeError else HTTPException 418.

(** The self-links of the link table, as [get_circular] selects them. *)
Definition circular_ids (w : World) : list Z :=
  domain_id <$> filter (λ r, domain_id r = range_id r) (link_table w).

(** ** Definitions used to state further theorems on [save] *)

(** [log_action] as the head of the [try] block sets it. *)
Definition log_action_of (object__ location_ : option PlaceEntity) : string :=
  match object__, location_ with
  | Some _, Some _ => "update"
  | _, _ => "insert"
  end.

(** The message [save] flashes after an exception. *)
Definition error_message (e : Exn) : string :=
  match e with
  | InvalidGeomException => "Invalid geom entered"
  | _ => "error transaction"
  end.

(** ** Definitions used to state further theorems on [is_authorized] *)

(** The comparison of group names [is_authorized] spells out. *)
Definition group_covers (user_group group_ : string) : Prop :=
  user_group = "admin"
  ∨ (user_group = "manager" ∧ group_ ∈ ["manager"; "editor"; "contributor"; "readonly"])
  ∨ (user_group = "editor" ∧ group_ ∈ ["editor"; "contributor"; "readonly"])
  ∨ (user_group = "contributor" ∧ group_ ∈ ["contributor"; "readonly"])
  ∨ (user_group = "readonly" ∧ group_ = "readonly").


(* ===================================================================== *)
(** * Part II.  Example data for the closed lemmas                        *)
(* ===================================================================== *)

Module Examples.

Definition link_foreign : LinkForeign :=
  {| int_of_str := λ s, if String.eqb s "2" then Some 2 else None;
     find_object := λ _ attr c,
       if String.eqb attr "domain_class_code" then bool_decide (c ∈ ["E21"; "E74"])
       else bool_decide (c ∈ ["E53"]);
     gettext := λ s, s |}.

Definition entity (i : Z) (n class_ system : string) : Entity :=
  {| id := i; name := n; description := ""; class_code := class_;
     system_class := system;
     begin_from := None; begin_to := None; begin_comment := None;
     end_from := None; end_to := None; end_comment := None |}.

Definition alice : Entity := entity 1 "Alice" "E21" "person".
Definition vienna : Entity := entity 2 "Vienna" "E53" "place".
Definition battle : Entity := entity 3 "Battle" "E7" "activity".

Definition world0 : World :=
  {| entity_table := [alice; vienna; battle]; link_table := []; link_id_seq := 1;
     user_log := []; flashes := []; div_sql := 0 |}.

(** No settings in the session: the CIDOC check does not run. *)
Definition env_plain : Env :=
  {| session_settings := None; classes := ∅; properties := ∅;
     WHITELISTED_DOMAINS := [] |}.

(** Debug mode: the CIDOC check runs. *)
Definition env_debug : Env :=
  {| session_settings := Some {| debug_mode := true |};
     classes := {[ "E21" := {| code := "E21"; class_name := "Person" |};
                   "E53" := {| code := "E53"; class_name := "Place" |};
                   "E7" := {| code := "E7"; class_name := "Activity" |} ]};
     properties := {[ "P74" := {| prop_code := "P74"; prop_name := "has residence" |} ]};
     WHITELISTED_DOMAINS := ["E61"] |}.

Definition entity_foreign : EntityForeign :=
  {| form_to_datetime64 := λ year month day to_date,
       match year with
       | Some y => Some (y * 10000
                         + default (if to_date : bool then 12 else 1) month * 100
                         + default (if to_date : bool then 31 else 1) day)
       | None => None
       end;
     sql_like := λ value pattern, String.eqb pattern ("%" +:+ value +:+ "%");
     fuzz_ratio := λ a b,
       if String.eqb a b then 100
       else if String.prefix a b || String.prefix b a then 90 else 0 |}.

(** A form with a begin year and no end year. *)
Definition begin_only : DateForm.t :=
  {| DateForm.begin_year_from := Some 1500; DateForm.begin_month_from := Some 3;
     DateForm.begin_day_from := None;
     DateForm.begin_year_to := None; DateForm.begin_month_to := None;
     DateForm.begin_day_to := None; DateForm.begin_comment := Some "around";
     DateForm.end_year_from := None; DateForm.end_month_from := Some 5;
     DateForm.end_day_from := Some 7;
     DateForm.end_year_to := Some 1600; DateForm.end_month_to := None;
     DateForm.end_day_to := None; DateForm.end_comment := Some "lost" |}.

Definition dated (e : Entity) (from to : option datetime64) : Entity :=
  {| id := id e; name := name e; description := description e;
     class_code := class_code e; system_class := system_class e;
     begin_from := from; begin_to := None; begin_comment := None;
     end_from := None; end_to := to; end_comment := None |}.

Definition vienna_dated : Entity := dated vienna (Some 14500101) (Some 15291231).
Definition vienna_alias : Entity := entity 4 "Vienna" "E41" "appellation".
Definition linz : Entity := entity 5 "Vienna" "E53" "place".
Definition wien : Entity := entity 6 "Vienna (Wien)" "E53" "place".
Definition graz : Entity := entity 7 "Graz" "E53" "place".

(** Places, one of them dated, and an alias that belongs to it. *)
Definition world_places : World :=
  {| entity_table := [vienna_dated; vienna_alias; linz; wien; graz];
     link_table := [{| link_id := 1; property_code := "P1"; domain_id := 2;
                       range_id := 4; link_description := None |}];
     link_id_seq := 2; user_log := []; flashes := []; div_sql := 0 |}.

(** A search for "Vienna" among places, from 1500 on. *)
Definition search_from_1500 : SearchForm.t :=
  {| SearchForm.term := "Vienna"; SearchForm.own := false; SearchForm.desc := false;
     SearchForm.classes := ["place"];
     SearchForm.begin_year := Some 1500; SearchForm.begin_month := None;
     SearchForm.begin_day := None;
     SearchForm.end_year := None; SearchForm.end_month := None;
     SearchForm.end_day := None; SearchForm.include_dateless := false |}.

Definition similar_places : SimilarForm.t :=
  {| SimilarForm.classes := CodeStr "place"; SimilarForm.ratio := 90 |}.

(** Operations for [save] in which every write succeeds and the user
    log fails; the database is the list of what was written. *)
Definition place_ops_log_fails : PlaceOps (list string) :=
  {| Gis_delete_by_entity := λ _ db, (Ok tt, db);
     Entity_insert := λ _ n st db,
       (Ok {| entity_id := Z.of_nat (length db) + 1; system_type := st;
              view_name := "place" |}, db ++ [n]);
     Entity_link := λ _ p _ db, (Ok [1], db ++ [p]);
     Entity_update := λ _ _ db, (Ok tt, db);
     Geonames_update_geonames := λ _ _ db, (Ok tt, db);
     Gis_insert := λ _ _ db, (Ok tt, db);
     logger_log_user := λ _ _ db, (Raise OtherException, db);
     logger_log := λ _ _ _ _ db, (Ok tt, db);
     url_for := λ endpoint _, endpoint;
     module_geonames := false |}.

Definition place_form : PlaceForm :=
  {| form_name := "Vienna"; has_geonames_id := false; continue_ := "" |}.

Definition conn0 : Conn (list string) :=
  {| stable := []; work := None; executed := []; flashed := [] |}.

(** The same search without a date, and from 1400 on. *)
Definition search_no_dates : SearchForm.t :=
  {| SearchForm.term := "Vienna"; SearchForm.own := false; SearchForm.desc := false;
     SearchForm.classes := ["place"];
     SearchForm.begin_year := None; SearchForm.begin_month := None;
     SearchForm.begin_day := None;
     SearchForm.end_year := None; SearchForm.end_month := None;
     SearchForm.end_day := None; SearchForm.include_dateless := false |}.

Definition search_from_1400 : SearchForm.t :=
  {| SearchForm.term := "Vienna"; SearchForm.own := false; SearchForm.desc := false;
     SearchForm.classes := ["place"];
     SearchForm.begin_year := Some 1400; SearchForm.begin_month := None;
     SearchForm.begin_day := None;
     SearchForm.end_year := None; SearchForm.end_month := None;
     SearchForm.end_day := None; SearchForm.include_dateless := false |}.

(** A request off the activity view, with empty caches. *)
Definition g_plain : G :=
  {| nodes := ∅; reference_systems := ∅; request_path := "/admin/orphans" |}.

(** The store after Alice was linked to Vienna. *)
Definition world_linked : World :=
  {| entity_table := [alice; vienna; battle];
     link_table := [{| link_id := 1; property_code := "P74"; domain_id := 1;
                       range_id := 2; link_description := None |}];
     link_id_seq := 2; user_log := []; flashes := []; div_sql := 1 |}.

(** The count of days from 1970-01-01 to a day of the Gregorian
    calendar. *)
Definition days_from_civil (year month day : Z) : Z :=
  let y := if month <=? 2 then year - 1 else year in
  let era := y / 400 in
  let yoe := y mod 400 in
  let doy := (153 * (if 2 <? month then month - 3 else month + 9) + 2) / 5 + day - 1 in
  let doe := yoe * 365 + yoe / 4 - yoe / 100 + doy in
  era * 146097 + doe - 719468.

(** Dates as numpy counts them, in days from 1970-01-01; a missing month
    or day is the first for a from-date, December or the 31st for a
    to-date. *)
Definition entity_foreign_epoch : EntityForeign :=
  {| form_to_datetime64 := λ year month day to_date,
       match year with
       | Some y => Some (days_from_civil y
                           (default (if to_date : bool then 12 else 1) month)
                           (default (if to_date : bool then 31 else 1) day))
       | None => None
       end;
     sql_like := λ value pattern, String.eqb pattern ("%" +:+ value +:+ "%");
     fuzz_ratio := λ a b, if String.eqb a b then 100 else 0 |}.

(** A place whose only date is the begin date 1970-01-01. *)
Definition museum : Entity := dated (entity 8 "Museum" "E18" "place") (Some 0) None.

Definition world_museum : World :=
  {| entity_table := [museum]; link_table := []; link_id_seq := 1;
     user_log := []; flashes := []; div_sql := 0 |}.

(** A search for the museum from 1960 on, dateless entities left out,
    and one up to 1960, dateless entities included. *)
Definition search_from_1960 : SearchForm.t :=
  {| SearchForm.term := "Museum"; SearchForm.own := false; SearchForm.desc := false;
     SearchForm.classes := ["place"];
     SearchForm.begin_year := Some 1960; SearchForm.begin_month := None;
     SearchForm.begin_day := None;
     SearchForm.end_year := None; SearchForm.end_month := None;
     SearchForm.end_day := None; SearchForm.include_dateless := false |}.

Definition search_until_1960 : SearchForm.t :=
  {| SearchForm.term := "Museum"; SearchForm.own := false; SearchForm.desc := false;
     SearchForm.classes := ["place"];
     SearchForm.begin_year := None; SearchForm.begin_month := None;
     SearchForm.begin_day := None;
     SearchForm.end_year := Some 1960; SearchForm.end_month := None;
     SearchForm.end_day := None; SearchForm.include_dateless := true |}.

(** Library functions for [sanitize] that leave a string as it is. *)
Definition util_foreign : UtilForeign :=
  {| re_sub_node := λ s, s; html_feed := λ s, [s]; str_strip := λ s, s |}.

End Examples.

(** ** Proof tactics *)

(** Case split of a group name: one of the five groups, or none of them. *)
Ltac split_group x :=
  destruct (decide (x = "admin")) as [->|?];
  [|destruct (decide (x = "manager")) as [->|?];
    [|destruct (decide (x = "editor")) as [->|?];
      [|destruct (decide (x = "contributor")) as [->|?];
        [|destruct (decide (x = "readonly")) as [->|?]]]]].

Ltac decide_groups :=
  repeat match goal with
         | H : ?x ≠ ?s |- context [bool_decide (?x = ?s)] =>
           rewrite (bool_decide_eq_false_2 (x = s) H)
         end.

(** Closes a decidable statement about concrete data by evaluation. *)
Ltac by_evaluation := apply (bool_decide_unpack _); vm_compute; exact I.

(* ===================================================================== *)
(** * Part III.  Theorems                                                 *)
(* ===================================================================== *)

(** ** util/util.py: [is_authorized] *)

Lemma tier_index_elem_of tiers g i : tier_index tiers g = Some i → g ∈ tiers.
Proof.
  revert i. induction tiers as [|t tiers IH]; intros i; simpl; [done|].
  case_bool_decide as Hg.
  - intros _. subst. apply elem_of_cons; by left.
  - destruct (tier_index tiers g) eqn:E; [|done].
    intros _. apply elem_of_cons; right; by eapply IH.
Qed.

(** A tier comparison authorizes for names of the hierarchy only. *)
Lemma tier_authorized_elem_of tiers user_group g :
  tier_authorized tiers user_group g = true → g ∈ tiers.
Proof.
  unfold tier_authorized. destruct (tier_index tiers user_group); [|done].
  destruct (tier_index tiers g) eqn:E; [|done].
  intros _. by eapply tier_index_elem_of.
Qed.

(** No hierarchy, whatever its length, decides what [is_authorized]
    decides: a user of the group admin is authorized for every requested
    name, also for one that is no tier of the hierarchy. *)
Lemma admin_passes_outside_the_hierarchy (tiers : list string) :
  Util.is_authorized (user_of_group "admin") (fresh tiers) = true
  ∧ tier_authorized tiers "admin" (fresh tiers) = false.
Proof.
  split; [done|]. apply not_true_iff_false. intros Hin%tier_authorized_elem_of.
  by apply infinite_is_fresh in Hin.
Qed.

(** C5, as stated, fails: no hierarchy of four tiers decides what
    [is_authorized] decides, since admin is authorized for every
    requested name, whether or not it is a tier. *)
Lemma C5_no_four_tier_hierarchy :
  ¬ ∃ tiers : list string, length tiers = 4%nat ∧
      ∀ user_group group_ : string,
        Util.is_authorized (user_of_group user_group) group_
        = tier_authorized tiers user_group group_.
Proof.
  intros (tiers & _ & Heq).
  destruct (admin_passes_outside_the_hierarchy tiers) as [Hcode Htier].
  rewrite Heq, Htier in Hcode. discriminate Hcode.
Qed.

Lemma bool_decide_elem_of_cons (x a : string) (l : list string) :
  bool_decide (x ∈ a :: l) = bool_decide (x = a) || bool_decide (x ∈ l).
Proof.
  destruct (decide (x = a)) as [->|Hne].
  - rewrite (bool_decide_eq_true_2 (a = a)) by done.
    apply bool_decide_eq_true_2, elem_of_cons. by left.
  - rewrite (bool_decide_eq_false_2 (x = a)) by done. simpl.
    apply bool_decide_ext. rewrite elem_of_cons. tauto.
Qed.

Lemma bool_decide_elem_of_nil (x : string) : bool_decide (x ∈ @nil string) = false.
Proof. apply bool_decide_eq_false_2, not_elem_of_nil. Qed.

(** C5, amended: [is_authorized] grants a user of the group admin every
    request, and for every other user compares the user's group string
    against the fixed four-tier hierarchy manager, editor, contributor,
    readonly, each tier being authorized for itself and all lower
    tiers. *)
Theorem C5_four_tiers_below_admin (current_user : User) (group_ : string) :
  Util.is_authorized current_user group_
  = is_authenticated current_user
    && match group current_user with
       | Some user_group =>
         bool_decide (user_group = "admin")
         || tier_authorized four_tiers user_group group_
       | None => false
       end.
Proof.
  unfold Util.is_authorized.
  destruct (is_authenticated current_user); simpl; [|done].
  destruct (group current_user) as [ug|]; [|done].
  unfold tier_authorized, four_tiers. cbn [tier_index].
  rewrite !bool_decide_elem_of_cons, !bool_decide_elem_of_nil.
  split_group ug; split_group group_; decide_groups; reflexivity.
Qed.

(** ** models/link.py *)

Section link_theorems.
Context {F : LinkForeign}.

Lemma elem_of_order_by_name (l : list Entity) (e : Entity) :
  e ∈ order_by_name l ↔ e ∈ l.
Proof. unfold order_by_name. by rewrite merge_sort_Permutation. Qed.

(** What [get_by_ids] returns: the rows of the entity table whose id is
    among the given ones. *)
Lemma get_by_ids_spec (ids : list Z) (w : World) :
  ∃ l, LinkMapper.get_by_ids ids w = (Ok l, w) ∧
       ∀ e, e ∈ l ↔ e ∈ entity_table w ∧ id e ∈ ids.
Proof.
  destruct ids as [|i ids].
  - exists []. split; [done|]. intros e. rewrite !elem_of_nil. tauto.
  - eexists. split; [reflexivity|]. intros e.
    rewrite elem_of_order_by_name, list_elem_of_filter. tauto.
Qed.

Lemma get_linked_entities_spec (entity : Entity) (codes : Codes) (inverse : bool) (w : World) :
  codes_list codes ≠ [] →
  ∃ l, LinkMapper.get_linked_entities entity codes inverse w
       = (Ok l, set_div_sql (λ n, n + 1) w) ∧
       ∀ e, e ∈ l ↔
            e ∈ entity_table w ∧
            ∃ r, r ∈ link_table w ∧ property_code r ∈ codes_list codes ∧
                 if inverse then range_id r = id entity ∧ domain_id r = id e
                 else domain_id r = id entity ∧ range_id r = id e.
Proof.
  intros Hne. unfold LinkMapper.get_linked_entities, LinkMapper.sql_select_linked, bind.
  destruct (codes_list codes) as [|c cs] eqn:Hc; [done|].
  destruct inverse; simpl.
  - match goal with |- context [LinkMapper.get_by_ids ?ids ?w'] =>
      destruct (get_by_ids_spec ids w') as (l & -> & Hl) end.
    exists l. split; [done|]. intros e. rewrite Hl. simpl.
    apply and_iff_compat_l. rewrite list_elem_of_fmap. split.
    + intros (r & Hid & Hr). apply list_elem_of_filter in Hr as [[Hrange Hcode] Hr].
      exists r. eauto.
    + intros (r & Hr & Hcode & Hrange & Hdom). exists r. split; [done|].
      apply list_elem_of_filter. eauto.
  - match goal with |- context [LinkMapper.get_by_ids ?ids ?w'] =>
      destruct (get_by_ids_spec ids w') as (l & -> & Hl) end.
    exists l. split; [done|]. intros e. rewrite Hl. simpl.
    apply and_iff_compat_l. rewrite list_elem_of_fmap. split.
    + intros (r & Hid & Hr). apply list_elem_of_filter in Hr as [[Hdom Hcode] Hr].
      exists r. eauto.
    + intros (r & Hr & Hcode & Hdom & Hrange). exists r. split; [done|].
      apply list_elem_of_filter. eauto.
Qed.

(** C9: [get_linked_entity] does not raise on ambiguity.  For every
    entity and property code the lookup of the linked entities returns a
    list; with more than one match the first is returned and the alert
    is flashed, with exactly one it is returned, with none the result
    is [None]. *)
Theorem C9_get_linked_entity_never_raises_on_ambiguity
    (entity : Entity) (code : string) (inverse : bool) (w : World) :
  ∃ (result : list Entity) (w1 : World),
    LinkMapper.get_linked_entities entity (CodeStr code) inverse w = (Ok result, w1) ∧
    LinkMapper.get_linked_entity entity (CodeStr code) inverse w
    = match result with
      | [] => (Ok None, w1)
      | [e] => (Ok (Some e), w1)
      | e :: _ :: _ =>
        (Ok (Some e),
         set_flashes (λ fl, fl ++ [("alert multiple linked entities found", "error")]) w1)
      end.
Proof.
  destruct (get_linked_entities_spec entity (CodeStr code) inverse w) as (l & Hl & _); [done|].
  exists l, (set_div_sql (λ n, n + 1) w). split; [done|].
  unfold LinkMapper.get_linked_entity, bind. rewrite Hl.
  destruct l as [|e [|e' l]]; reflexivity.
Qed.

End link_theorems.

Section insert_theorems.
Context {F : LinkForeign} (env : Env).

(** The store after one inserted link. *)
Lemma insert_body_plain domain p descr r result d z w :
  LinkMapper.debug_active env = false →
  LinkMapper.id_of domain = Ok d → LinkMapper.id_of r = Ok z →
  LinkMapper.insert_body env domain p descr r result w
  = (Ok (domain, Some (link_id_seq w)),
     set_div_sql (λ n, n + 1)
       (set_link_id_seq (λ n, n + 1)
          (set_link_table (λ t, t ++ new_links (link_id_seq w) p d descr [z]) w))).
Proof.
  intros Hdebug Hd Hz. unfold LinkMapper.insert_body, bind, lift_res.
  rewrite Hd, Hz, Hdebug. simpl. unfold new_links. simpl.
  by rewrite Z.add_0_r.
Qed.

Lemma insert_loop_filter domain p descr rs result w :
  LinkMapper.insert_loop env domain p descr rs result w
  = LinkMapper.insert_loop env domain p descr (filter (λ r, truthy r = true) rs) result w.
Proof.
  revert domain result w. induction rs as [|r rs IH]; intros domain result w; [done|].
  rewrite filter_cons. destruct (truthy r) eqn:Ht.
  - rewrite decide_True by done. simpl. rewrite Ht. simpl. unfold bind.
    destruct (LinkMapper.insert_body env domain p descr r result w) as [[vars|e] w']; [|done].
    apply IH.
  - rewrite decide_False by (by intros ?). simpl. rewrite Ht. simpl. apply IH.
Qed.

Lemma new_links_cons seq p d descr z ids :
  new_links seq p d descr (z :: ids)
  = new_links seq p d descr [z] ++ new_links (seq + 1) p d descr ids.
Proof.
  unfold new_links. simpl. f_equal.
  apply imap_ext. intros i x _. simpl. f_equal. lia.
Qed.

Lemma remaining_ids_cons_truthy r rs z :
  truthy r = true → LinkMapper.id_of r = Ok z →
  remaining_ids (r :: rs) = z :: remaining_ids rs.
Proof.
  intros Ht Hz. unfold remaining_ids. cbn -[truthy LinkMapper.id_of].
  by rewrite Ht, Hz.
Qed.

Lemma remaining_ids_cons_falsy r rs :
  truthy r = false → remaining_ids (r :: rs) = remaining_ids rs.
Proof.
  intros Ht. unfold remaining_ids. cbn -[truthy LinkMapper.id_of]. by rewrite Ht.
Qed.

Lemma insert_loop_plain domain p descr d rs :
  LinkMapper.debug_active env = false →
  LinkMapper.id_of domain = Ok d →
  Forall (λ r, truthy r = true → ∃ z, LinkMapper.id_of r = Ok z) rs →
  ∀ result w, ∃ res w',
    LinkMapper.insert_loop env domain p descr rs result w = (Ok res, w') ∧
    link_table w' = link_table w ++ new_links (link_id_seq w) p d descr (remaining_ids rs) ∧
    link_id_seq w' = link_id_seq w + Z.of_nat (length (remaining_ids rs)) ∧
    entity_table w' = entity_table w ∧ flashes w' = flashes w.
Proof.
  intros Hdebug Hd. induction 1 as [|r rs Hr Hrs IH]; intros result w.
  - exists result, w. simpl. rewrite app_nil_r, Z.add_0_r. done.
  - cbn [LinkMapper.insert_loop]. destruct (truthy r) eqn:Ht; cbn [negb].
    + destruct (Hr eq_refl) as [z Hz]. unfold bind.
      rewrite (insert_body_plain domain p descr r result d z w Hdebug Hd Hz). cbn [fst snd].
      match goal with |- context [LinkMapper.insert_loop _ _ _ _ _ ?res ?w1] =>
        destruct (IH res w1) as (res' & w' & -> & Hl & Hs & He & Hf) end.
      exists res', w'. split; [done|].
      rewrite (remaining_ids_cons_truthy r rs z Ht Hz).
      rewrite Hl, Hs, He, Hf. simpl.
      rewrite (new_links_cons _ _ _ _ z (remaining_ids rs)), app_assoc.
      repeat split; try done. lia.
    + destruct (IH result w) as (res' & w' & -> & Hl & Hs & He & Hf).
      exists res', w'. by rewrite (remaining_ids_cons_falsy r rs Ht).
Qed.

(** C10: [insert] returns [None] and leaves the store as it is when
    [domain] or [range_] is falsy; falsy elements of a range list are
    skipped (the call behaves as on the list without them), and without
    the CIDOC check every remaining element gets its row. *)
Theorem C10_insert_ignores_falsy_arguments
    (domain : PyVal) (property_code : string) (range_ : PyVal)
    (description : option string) (w : World) :
  (truthy domain = false ∨ truthy range_ = false →
   LinkMapper.insert env domain property_code range_ description w = (Ok None, w))
  ∧ (∀ rs : list PyVal,
       truthy domain = true →
       LinkMapper.insert env domain property_code (VList rs) description w
       = LinkMapper.insert env domain property_code
           (VList (filter (λ r, truthy r = true) rs)) description w)
  ∧ (∀ (rs : list PyVal) (d : Z),
       LinkMapper.debug_active env = false →
       truthy domain = true →
       LinkMapper.id_of domain = Ok d →
       Forall (λ r, truthy r = true → ∃ z, LinkMapper.id_of r = Ok z) rs →
       ∃ res w',
         LinkMapper.insert env domain property_code (VList rs) description w = (Ok res, w') ∧
         link_table w'
         = link_table w
           ++ new_links (link_id_seq w) property_code d description (remaining_ids rs)).
Proof.
  split; [|split].
  - unfold LinkMapper.insert. intros [-> | ->]; [done|]. by rewrite orb_true_r.
  - intros rs Hd. unfold LinkMapper.insert. rewrite Hd. cbn [negb orb as_list].
    destruct rs as [|r rs]; [done|]. cbn [truthy negb].
    rewrite (insert_loop_filter domain property_code description (r :: rs)).
    by destruct (filter (λ r0, truthy r0 = true) (r :: rs)).
  - intros rs d Hdebug Ht Hd Hrs. unfold LinkMapper.insert. rewrite Ht.
    cbn [negb orb as_list].
    destruct rs as [|r rs].
    + exists None, w. simpl. by rewrite app_nil_r.
    + destruct (insert_loop_plain domain property_code description d (r :: rs) Hdebug Hd Hrs
                  None w) as (res & w' & Hrun & Hl & _).
      exists res, w'. done.
Qed.

End insert_theorems.

Section cidoc_theorems.
Context {F : LinkForeign} (env : Env).

Lemma check_link_entities d e p pr w :
  classes_keyed_by_code env →
  is_Some (classes env !! class_code d) →
  is_Some (classes env !! class_code e) →
  properties env !! p = Some pr →
  LinkMapper.check_link env (VEntity d) p (VEntity e) w
  = if cidoc_valid env pr (class_code d) (class_code e)
    then (Ok (VEntity d, true), w)
    else (Ok (VEntity d, false), set_flashes (λ fl, fl ++ [error_link_flash env d p e]) w).
Proof.
  intros Hkey [dc Hdc] [rc Hrc] Hpr.
  unfold LinkMapper.check_link, bind, lift_res, LinkMapper.dict_get, LinkMapper.entity_of, ret.
  rewrite Hdc, Hrc, Hpr. rewrite (Hkey _ _ Hdc), (Hkey _ _ Hrc).
  unfold cidoc_valid, error_link_flash, class_of. rewrite Hdc, Hrc. simpl.
  destruct (find_object pr "domain_class_code" (class_code d)),
    (bool_decide (class_code d ∈ WHITELISTED_DOMAINS env)),
    (find_object pr "range_class_code" (class_code e)); reflexivity.
Qed.

Lemma insert_body_debug d e p pr descr result w :
  LinkMapper.debug_active env = true →
  classes_keyed_by_code env →
  is_Some (classes env !! class_code d) →
  is_Some (classes env !! class_code e) →
  properties env !! p = Some pr →
  LinkMapper.insert_body env (VEntity d) p descr (VEntity e) result w
  = if cidoc_valid env pr (class_code d) (class_code e)
    then (Ok (VEntity d, Some (link_id_seq w)),
          set_div_sql (λ n, n + 1)
            (set_link_id_seq (λ n, n + 1)
               (set_link_table (λ t, t ++ new_links (link_id_seq w) p (id d) descr [id e]) w)))
    else (Ok (VEntity d, result),
          set_flashes (λ fl, fl ++ [error_link_flash env d p e]) w).
Proof.
  intros Hdebug Hkey Hdc Hrc Hpr. unfold LinkMapper.insert_body, bind, lift_res.
  cbn [LinkMapper.id_of]. rewrite Hdebug.
  rewrite (check_link_entities d e p pr w Hkey Hdc Hrc Hpr).
  destruct (cidoc_valid env pr (class_code d) (class_code e)); [|done].
  unfold new_links. simpl. by rewrite Z.add_0_r.
Qed.

Lemma insert_loop_debug d p pr descr es :
  LinkMapper.debug_active env = true →
  classes_keyed_by_code env →
  is_Some (classes env !! class_code d) →
  properties env !! p = Some pr →
  Forall (λ e, is_Some (classes env !! class_code e)) es →
  ∀ result w, ∃ res w',
    LinkMapper.insert_loop env (VEntity d) p descr (VEntity <$> es) result w = (Ok res, w') ∧
    link_key <$> link_table w'
    = (link_key <$> link_table w)
      ++ ((λ e, (p, id d, id e, descr))
            <$> filter (λ e, cidoc_valid env pr (class_code d) (class_code e) = true) es) ∧
    flashes w'
    = flashes w
      ++ (error_link_flash env d p
            <$> filter (λ e, cidoc_valid env pr (class_code d) (class_code e) = false) es) ∧
    entity_table w' = entity_table w.
Proof.
  intros Hdebug Hkey Hdc Hpr. induction 1 as [|e es He Hes IH]; intros result w.
  - exists result, w. simpl. by rewrite !app_nil_r.
  - cbn [fmap list_fmap LinkMapper.insert_loop truthy negb]. unfold bind.
    rewrite (insert_body_debug d e p pr descr result w Hdebug Hkey Hdc He Hpr).
    rewrite !filter_cons.
    destruct (cidoc_valid env pr (class_code d) (class_code e)) eqn:Hv; cbn [fst snd].
    + match goal with |- context [LinkMapper.insert_loop _ _ _ _ _ ?res ?w1] =>
        destruct (IH res w1) as (res' & w' & -> & Hl & Hf & He') end.
      exists res', w'. split; [done|].
      rewrite decide_True by done. rewrite decide_False by done.
      rewrite Hl, Hf, He'. simpl. rewrite fmap_app. simpl.
      by rewrite <- app_assoc.
    + match goal with |- context [LinkMapper.insert_loop _ _ _ _ _ ?res ?w1] =>
        destruct (IH res w1) as (res' & w' & -> & Hl & Hf & He') end.
      exists res', w'. split; [done|].
      rewrite decide_False by done. rewrite decide_True by done.
      rewrite Hl, Hf, He'. simpl. by rewrite <- app_assoc.
Qed.

(** C2: with validation active, [insert] writes a link for exactly the
    pairs that pass the whitelist lookup: the property's domain classes
    contain the domain's class code (or the code is whitelisted in the
    configuration) and its range classes contain the range's class code.
    Every other pair gets no row, and one error is flashed for it. *)
Theorem C2_cidoc_validation_is_whitelist_lookup
    (domain : Entity) (property_code : string) (property_ : Property)
    (range_ : PyVal) (ranges : list Entity) (description : option string) (w : World) :
  LinkMapper.debug_active env = true →
  classes_keyed_by_code env →
  is_Some (classes env !! class_code domain) →
  properties env !! property_code = Some property_ →
  as_list range_ = VEntity <$> ranges →
  Forall (λ e, is_Some (classes env !! class_code e)) ranges →
  ∃ res w',
    LinkMapper.insert env (VEntity domain) property_code range_ description w = (Ok res, w') ∧
    link_key <$> link_table w'
    = (link_key <$> link_table w)
      ++ ((λ e, (property_code, id domain, id e, description))
            <$> filter (λ e, cidoc_valid env property_
                               (class_code domain) (class_code e) = true) ranges) ∧
    flashes w'
    = flashes w
      ++ (error_link_flash env domain property_code
            <$> filter (λ e, cidoc_valid env property_
                               (class_code domain) (class_code e) = false) ranges).
Proof.
  intros Hdebug Hkey Hdc Hpr Hrange Hclasses.
  unfold LinkMapper.insert. cbn [truthy negb orb].
  destruct (truthy range_) eqn:Ht; cbn [negb].
  - rewrite Hrange.
    destruct (insert_loop_debug domain property_code property_ description ranges
                Hdebug Hkey Hdc Hpr Hclasses None w) as (res & w' & Hrun & Hl & Hf & _).
    exists res, w'. done.
  - assert (ranges = []) as ->.
    { destruct range_ as [| | | |[|]]; simpl in *; try done;
        by destruct ranges as [|? [|]]. }
    exists None, w. simpl. by rewrite !app_nil_r.
Qed.

(** A successful insert of one entity pair leaves its row in the table. *)
Lemma insert_single_success domain p range_ descr new_id w w1 :
  LinkMapper.insert env (VEntity domain) p (VEntity range_) descr w = (Ok (Some new_id), w1) →
  entity_table w1 = entity_table w ∧
  ∃ r, r ∈ link_table w1 ∧ property_code r = p ∧ domain_id r = id domain
       ∧ range_id r = id range_.
Proof.
  unfold LinkMapper.insert. cbn [truthy negb orb as_list LinkMapper.insert_loop].
  unfold bind, LinkMapper.insert_body, bind, lift_res. cbn [LinkMapper.id_of].
  destruct (LinkMapper.debug_active env).
  - destruct (LinkMapper.check_link env (VEntity domain) p (VEntity range_) w)
      as [[[dom go_on]|ex] w0] eqn:Hcheck; [|done].
    assert (entity_table w0 = entity_table w) as Hent.
    { revert Hcheck.
      unfold LinkMapper.check_link, bind, lift_res, LinkMapper.entity_of, ret, flash, modify.
      repeat case_match; intros; simplify_eq; done. }
    destruct go_on; simpl; [|done].
    intros [= <- <-]. simpl. split; [done|].
    eexists. split; [apply elem_of_app; right; apply list_elem_of_singleton; reflexivity|done].
  - simpl. intros [= <- <-]. simpl. split; [done|].
    eexists. split; [apply elem_of_app; right; apply list_elem_of_singleton; reflexivity|done].
Qed.

End cidoc_theorems.

(** C1: links are rows joined in both directions.  [get_linked_entities]
    returns exactly the entities whose id is the [range_id] of a link row
    with the queried [domain_id] and one of the given codes, and with
    [inverse] the two columns change roles; so after a successful
    [insert(domain, p, range_)] the range is among the entities linked
    from the domain and the domain among those linked to the range. *)
Theorem C1_links_are_rows_joined_in_both_directions {F : LinkForeign}
    (env : Env) (w : World) (entity : Entity) (codes : Codes) :
  codes_list codes ≠ [] →
  (∃ l w',
      LinkMapper.get_linked_entities entity codes false w = (Ok l, w') ∧
      ∀ e, e ∈ l ↔
           e ∈ entity_table w ∧
           ∃ r, r ∈ link_table w ∧ domain_id r = id entity
                ∧ property_code r ∈ codes_list codes ∧ range_id r = id e)
  ∧ (∃ l w',
        LinkMapper.get_linked_entities entity codes true w = (Ok l, w') ∧
        ∀ e, e ∈ l ↔
             e ∈ entity_table w ∧
             ∃ r, r ∈ link_table w ∧ range_id r = id entity
                  ∧ property_code r ∈ codes_list codes ∧ domain_id r = id e)
  ∧ (∀ (domain range_ : Entity) (p : string) (description : option string)
       (new_id : Z) (w1 : World),
        domain ∈ entity_table w → range_ ∈ entity_table w →
        LinkMapper.insert env (VEntity domain) p (VEntity range_) description w
        = (Ok (Some new_id), w1) →
        (∃ l w2, LinkMapper.get_linked_entities domain (CodeStr p) false w1 = (Ok l, w2)
                 ∧ range_ ∈ l)
        ∧ (∃ l w2, LinkMapper.get_linked_entities range_ (CodeStr p) true w1 = (Ok l, w2)
                   ∧ domain ∈ l)).
Proof.
  intros Hcodes. split; [|split].
  - destruct (get_linked_entities_spec entity codes false w Hcodes) as (l & Hrun & Hl).
    exists l, (set_div_sql (λ n, n + 1) w). split; [done|].
    intros e. rewrite Hl. apply and_iff_compat_l.
    split; intros (r & ? & ? & ? & ?); exists r; auto.
  - destruct (get_linked_entities_spec entity codes true w Hcodes) as (l & Hrun & Hl).
    exists l, (set_div_sql (λ n, n + 1) w). split; [done|].
    intros e. rewrite Hl. apply and_iff_compat_l.
    split; intros (r & ? & ? & ? & ?); exists r; auto.
  - intros domain range_ p descr new_id w1 Hd Hr Hins.
    destruct (insert_single_success env domain p range_ descr new_id w w1 Hins)
      as (Hent & r & Hr1 & Hp & Hdom & Hran).
    split.
    + destruct (get_linked_entities_spec domain (CodeStr p) false w1) as (l & Hrun & Hl);
        [done|].
      exists l, (set_div_sql (λ n, n + 1) w1). split; [done|].
      apply Hl. rewrite Hent. split; [done|]. exists r. simpl.
      rewrite list_elem_of_singleton. done.
    + destruct (get_linked_entities_spec range_ (CodeStr p) true w1) as (l & Hrun & Hl);
        [done|].
      exists l, (set_div_sql (λ n, n + 1) w1). split; [done|].
      apply Hl. rewrite Hent. split; [done|]. exists r. simpl.
      rewrite list_elem_of_singleton. done.
Qed.

(** ** models/entity.py: [set_dates] *)

(** C4: date ranges are optional.  On a form with date fields, an empty
    (falsy) [begin_year_from] leaves [begin_from], [begin_to] and
    [begin_comment] at [None], and likewise for the end; the fields are
    built from the form's year, month and day values exactly when the
    respective year is present. *)
Theorem C4_set_dates_optional_ranges {F : EntityForeign}
    (self : Entity) (form : FlaskForm) (f : DateForm.t) :
  date_fields form = Some f →
  let e := EntityModel.set_dates self form in
  (EntityModel.int_truthy (DateForm.begin_year_from f) = false →
   begin_from e = None ∧ begin_to e = None ∧ begin_comment e = None)
  ∧ (EntityModel.int_truthy (DateForm.end_year_from f) = false →
     end_from e = None ∧ end_to e = None ∧ end_comment e = None)
  ∧ (EntityModel.int_truthy (DateForm.begin_year_from f) = true →
     begin_from e = form_to_datetime64 (DateForm.begin_year_from f)
                      (DateForm.begin_month_from f) (DateForm.begin_day_from f) false
     ∧ begin_to e = form_to_datetime64 (DateForm.begin_year_to f)
                      (DateForm.begin_month_to f) (DateForm.begin_day_to f) true
     ∧ begin_comment e = DateForm.begin_comment f)
  ∧ (EntityModel.int_truthy (DateForm.end_year_from f) = true →
     end_from e = form_to_datetime64 (DateForm.end_year_from f)
                    (DateForm.end_month_from f) (DateForm.end_day_from f) false
     ∧ end_to e = form_to_datetime64 (DateForm.end_year_to f)
                    (DateForm.end_month_to f) (DateForm.end_day_to f) true
     ∧ end_comment e = DateForm.end_comment f).
Proof.
  intros Hf e. subst e. unfold EntityModel.set_dates. rewrite Hf.
  destruct (EntityModel.int_truthy (DateForm.begin_year_from f)),
    (EntityModel.int_truthy (DateForm.end_year_from f)); simpl;
    repeat split; intros; done.
Qed.

(** ** models/entity.py: [search] *)

Section dict_lemmas.

Lemma elem_of_dict_set {V} (k : Z) (v : V) (d : list (Z * V)) (kv : Z * V) :
  NoDup (d.*1) →
  kv ∈ dict_set k v d ↔ kv = (k, v) ∨ (kv.1 ≠ k ∧ kv ∈ d).
Proof.
  induction d as [|[k' v'] d IH]; intros Hnd; cbn [dict_set].
  - rewrite list_elem_of_singleton, elem_of_nil. tauto.
  - rewrite fmap_cons in Hnd. cbn [fst] in Hnd.
    apply NoDup_cons in Hnd as [Hk' Hnd]. case_bool_decide as Hk.
    + subst k'. rewrite !elem_of_cons. split.
      * intros [->|Hin]; [by left|]. right. split; [|by right].
        intros Heq. apply Hk'. rewrite <- Heq. by apply (list_elem_of_fmap_2 fst).
      * intros [->|[Hne [->|Hin]]]; [by left|done|by right].
    + rewrite !elem_of_cons, IH by done. split.
      * intros [->|[->|[Hne Hin]]]; [right; split; [simpl; congruence|by left] |by left|].
        right. split; [done|by right].
      * intros [->|[Hne [->|Hin]]]; [right; by left|by left|].
        right. right. done.
Qed.

Lemma dict_set_keys {V} (k : Z) (v : V) (d : list (Z * V)) :
  NoDup (d.*1) → NoDup ((dict_set k v d).*1).
Proof.
  induction d as [|[k' v'] d IH]; intros Hnd; cbn [dict_set].
  - apply NoDup_singleton.
  - rewrite fmap_cons in Hnd. cbn [fst] in Hnd.
    apply NoDup_cons in Hnd as [Hk' Hnd]. case_bool_decide as Hk.
    + subst k'. rewrite fmap_cons. cbn [fst]. by apply NoDup_cons.
    + rewrite fmap_cons. cbn [fst]. apply NoDup_cons. split; [|by apply IH].
      intros Hin. apply list_elem_of_fmap in Hin as ([k2 v2] & Hk2 & Hin).
      simpl in Hk2. subst k2. apply elem_of_dict_set in Hin; [|done].
      destruct Hin as [[= ? ?]|[_ Hin]]; [congruence|].
      apply Hk'. by apply (list_elem_of_fmap_2 fst) in Hin.
Qed.

(** The keys of the comprehension are the ids of its values, each once. *)
Lemma dict_by_id_fold (es : list Entity) (d : list (Z * Entity)) :
  NoDup (d.*1) → Forall (λ kv, kv.1 = id kv.2) d →
  let d' := fold_left (λ d e, dict_set (id e) e d) es d in
  NoDup (d'.*1) ∧ Forall (λ kv, kv.1 = id kv.2) d'.
Proof.
  revert d. induction es as [|e es IH]; intros d Hnd Hid; csimpl; [done|].
  apply IH; [by apply dict_set_keys|].
  apply Forall_forall. intros kv Hkv.
  apply elem_of_dict_set in Hkv; [|done].
  destruct Hkv as [->|[_ Hkv]]; [done|].
  by eapply Forall_forall in Hid.
Qed.

Lemma dict_by_id_elem_of (es : list Entity) (d : list (Z * Entity)) :
  NoDup (d.*1) → Forall (λ kv, kv.1 = id kv.2) d →
  (∀ a b, a ∈ d.*2 ++ es → b ∈ d.*2 ++ es → id a = id b → a = b) →
  ∀ e, e ∈ (fold_left (λ d e, dict_set (id e) e d) es d).*2 ↔ e ∈ d.*2 ++ es.
Proof.
  revert d. induction es as [|e es IH]; intros d Hnd Hid Hfun x; csimpl.
  - by rewrite app_nil_r.
  - assert (∀ y, y ∈ (dict_set (id e) e d).*2 ↔ y ∈ d.*2 ∨ y = e) as Hset.
    { intros y. rewrite !list_elem_of_fmap. split.
      - intros ([k v] & -> & Hkv). apply elem_of_dict_set in Hkv; [|done].
        destruct Hkv as [[= -> ->]|[_ Hkv]]; [by right|]. left. by exists (k, v).
      - intros [([k v] & -> & Hkv)| ->].
        + destruct (decide (k = id e)) as [->|Hne].
          * exists (id e, e). split; [|apply elem_of_dict_set; [done|by left]].
            csimpl. apply Hfun; [| |].
            -- apply elem_of_app. left. by apply (list_elem_of_fmap_2 snd) in Hkv.
            -- apply elem_of_app. right. apply elem_of_cons. by left.
            -- eapply Forall_forall in Hid; [|done]. by csimpl in Hid.
          * exists (k, v). split; [done|]. apply elem_of_dict_set; [done|]. right. done.
        + exists (id e, e). split; [done|]. apply elem_of_dict_set; [done|by left]. }
    rewrite IH.
    + rewrite !elem_of_app, Hset, elem_of_cons. tauto.
    + by apply dict_set_keys.
    + apply Forall_forall. intros kv Hkv.
      apply elem_of_dict_set in Hkv; [|done].
      destruct Hkv as [->|[_ Hkv]]; [done|].
      by eapply Forall_forall in Hid.
    + intros a b Ha Hb. apply Hfun.
      * revert Ha. rewrite !elem_of_app, Hset, elem_of_cons. tauto.
      * revert Hb. rewrite !elem_of_app, Hset, elem_of_cons. tauto.
Qed.

Lemma dict_values_by_id_ids (es : list Entity) :
  NoDup (id <$> dict_values (EntityModel.dict_by_id es)).
Proof.
  unfold dict_values, EntityModel.dict_by_id.
  destruct (dict_by_id_fold es []) as [Hnd Hid]; [apply NoDup_nil_2|done|].
  csimpl in *. revert Hnd Hid.
  generalize (fold_left (λ d e, dict_set (id e) e d) es []). intros d Hnd Hid.
  replace (id <$> d.*2) with (d.*1); [done|].
  induction Hid as [|[k v] d Hk Hd IH]; [done|]. csimpl in *.
  apply NoDup_cons in Hnd as [_ Hnd]. by rewrite Hk, IH.
Qed.

End dict_lemmas.

(** C8: the collection returned by [Entity.search] holds at most one
    entity per entity id. *)
Theorem C8_search_returns_one_entity_per_id {F : EntityForeign}
    (form : SearchForm.t) (user_id : Z) (w w' : World) (result : list Entity) :
  EntityModel.search form user_id w = (Ok result, w') →
  NoDup (id <$> result).
Proof.
  unfold EntityModel.search. destruct (String.eqb (SearchForm.term form) "").
  - intros [= <- <-]. apply NoDup_nil_2.
  - unfold bind.
    destruct (EntityModel.sql_search form user_id w) as [[rows|ex] w1]; [|done].
    destruct (EntityModel.search_loop _ _ _ _ _ _) as [[entities|ex] w2]; [|done].
    intros [= <- <-]. apply dict_values_by_id_ids.
Qed.
Section search_theorems.
Context {F : EntityForeign}.

Lemma get_linked_entities_eq entity codes inverse w :
  codes_list codes ≠ [] →
  LinkMapper.get_linked_entities entity codes inverse w
  = (Ok (linked_rows (entity_table w) (link_table w) (id entity) (codes_list codes) inverse),
     set_div_sql (λ n, n + 1) w).
Proof.
  intros Hne.
  unfold LinkMapper.get_linked_entities, LinkMapper.sql_select_linked, bind,
    linked_rows, linked_ids.
  destruct (codes_list codes) as [|c cs]; [done|].
  destruct inverse; simpl.
  - destruct (domain_id <$> filter _ (link_table w)); reflexivity.
  - destruct (range_id <$> filter _ (link_table w)); reflexivity.
Qed.

Lemma primary_key_inj (l : list Entity) (a b : Entity) :
  NoDup (id <$> l) → a ∈ l → b ∈ l → id a = id b → a = b.
Proof.
  induction l as [|x l IH]; intros Hnd Ha Hb Hid; [by apply elem_of_nil in Ha|].
  rewrite fmap_cons in Hnd. apply NoDup_cons in Hnd as [Hx Hnd].
  apply elem_of_cons in Ha as [->|Ha]; apply elem_of_cons in Hb as [->|Hb].
  - done.
  - exfalso. apply Hx. rewrite Hid. by apply list_elem_of_fmap_2.
  - exfalso. apply Hx. rewrite <- Hid. by apply list_elem_of_fmap_2.
  - by apply IH.
Qed.

(** A row of an alias class stops the search: the lookup of
    [Link.get_linked_entity] raises. *)
Lemma row_entity_alias form row w :
  alias_row row → EntityModel.row_entity form row w = (Raise AttributeError, w).
Proof.
  intros [Hrow|Hrow]; unfold EntityModel.row_entity; rewrite Hrow.
  - done.
  - by rewrite bool_decide_eq_false_2, bool_decide_eq_true_2.
Qed.

Lemma row_entity_other form row w :
  ¬ alias_row row →
  EntityModel.row_entity form row w
  = (Ok (if decide (system_class row ∈ SearchForm.classes form) then Some row else None), w).
Proof.
  intros Hrow. unfold EntityModel.row_entity, alias_row in *.
  rewrite !bool_decide_eq_false_2 by tauto.
  destruct (decide (system_class row ∈ SearchForm.classes form)).
  - by rewrite bool_decide_eq_false_2 by tauto.
  - by rewrite bool_decide_eq_true_2.
Qed.

(** The loop of [Entity.search] over rows without an alias: it keeps the
    rows of the classes asked for that pass the date test, and leaves
    the store alone. *)
Lemma search_loop_rows form from_date to_date rows :
  Forall (λ row, ¬ alias_row row) rows →
  ∀ entities w,
    EntityModel.search_loop form from_date to_date rows entities w
    = (Ok (entities
           ++ filter (λ e, date_filter (SearchForm.include_dateless form)
                             from_date to_date e = true)
                (filter (λ row, system_class row ∈ SearchForm.classes form) rows)), w).
Proof.
  induction 1 as [|row rows Hrow _ IH]; intros entities w.
  - cbn. by rewrite app_nil_r.
  - cbn [EntityModel.search_loop]. unfold bind.
    rewrite row_entity_other by done. rewrite (filter_cons _ row).
    destruct (decide (system_class row ∈ SearchForm.classes form)); [|by apply IH].
    rewrite filter_cons.
    destruct (date_filter (SearchForm.include_dateless form) from_date to_date row)
      eqn:Hdf.
    + rewrite decide_True by done.
      transitivity (EntityModel.search_loop form from_date to_date rows
                      (entities ++ [row]) w);
        [|rewrite IH; by rewrite <- app_assoc].
      unfold date_filter in Hdf.
      destruct (negb (EntityModel.date_truthy from_date)
                && negb (EntityModel.date_truthy to_date)); [done|].
      destruct (EntityModel.dateless row); [by rewrite Hdf|].
      cbv zeta. by rewrite Hdf.
    + rewrite decide_False by (by intros ?).
      rewrite <- IH.
      unfold date_filter in Hdf.
      destruct (negb (EntityModel.date_truthy from_date)
                && negb (EntityModel.date_truthy to_date)); [done|].
      destruct (EntityModel.dateless row); [by rewrite Hdf|].
      cbv zeta. by rewrite Hdf.
Qed.

(** With an alias among the rows the loop raises, and leaves the store
    alone. *)
Lemma search_loop_alias form from_date to_date rows :
  Exists alias_row rows →
  ∀ entities w,
    EntityModel.search_loop form from_date to_date rows entities w
    = (Raise AttributeError, w).
Proof.
  induction rows as [|row rows IH]; intros Hex entities w.
  - by apply Exists_nil in Hex.
  - cbn [EntityModel.search_loop]. unfold bind.
    destruct (decide (alias_row row)) as [Hrow|Hrow].
    + by rewrite row_entity_alias.
    + apply Exists_cons in Hex as [?|Hex]; [done|].
      rewrite row_entity_other by done.
      destruct (decide (system_class row ∈ SearchForm.classes form)); [|by apply IH].
      destruct (negb (EntityModel.date_truthy from_date)
                && negb (EntityModel.date_truthy to_date)); [by apply IH|].
      destruct (EntityModel.dateless row).
      { destruct (SearchForm.include_dateless form); by apply IH. }
      cbv zeta. destruct (_ && _); by apply IH.
Qed.

Lemma check_from_true from_date dates acc :
  EntityModel.check_from from_date dates acc = true
  ↔ acc = true ∨ ∃ d, Some d ∈ dates ∧ d ≠ 0 ∧ from_date ≤ d.
Proof.
  revert acc. induction dates as [|[d|] dates IH]; intros acc; simpl.
  - split; [by left|]. intros [?|(d & Hd & _)]; [done|]. by apply elem_of_nil in Hd.
  - destruct (negb (d =? 0) && (from_date <=? d)) eqn:Hle.
    + rewrite IH. apply andb_true_iff in Hle as [Hd Hle].
      apply negb_true_iff, Z.eqb_neq in Hd. apply Z.leb_le in Hle. split; [|by left].
      intros _. right. exists d. split; [apply elem_of_cons; by left|done].
    + rewrite IH. split.
      * intros [?|(d' & Hd' & ?)]; [by left|]. right. exists d'.
        split; [apply elem_of_cons; by right|done].
      * intros [?|(d' & Hd' & Hne & Hle')]; [by left|].
        apply elem_of_cons in Hd' as [[= ->]|Hd'].
        -- exfalso. apply not_true_iff_false in Hle. apply Hle.
           apply andb_true_iff. split; [by apply negb_true_iff, Z.eqb_neq|by apply Z.leb_le].
        -- right. by exists d'.
  - rewrite IH. split.
    + intros [?|(d' & Hd' & ?)]; [by left|]. right. exists d'.
      split; [apply elem_of_cons; by right|done].
    + intros [?|(d' & Hd' & ?)]; [by left|]. apply elem_of_cons in Hd' as [[=]|Hd'].
      right. by exists d'.
Qed.

Lemma check_to_true to_date dates acc :
  EntityModel.check_to to_date dates acc = true
  ↔ acc = true ∨ ∃ d, Some d ∈ dates ∧ d ≠ 0 ∧ d ≤ to_date.
Proof.
  revert acc. induction dates as [|[d|] dates IH]; intros acc; simpl.
  - split; [by left|]. intros [?|(d & Hd & _)]; [done|]. by apply elem_of_nil in Hd.
  - destruct (negb (d =? 0) && (d <=? to_date)) eqn:Hle.
    + rewrite IH. apply andb_true_iff in Hle as [Hd Hle].
      apply negb_true_iff, Z.eqb_neq in Hd. apply Z.leb_le in Hle. split; [|by left].
      intros _. right. exists d. split; [apply elem_of_cons; by left|done].
    + rewrite IH. split.
      * intros [?|(d' & Hd' & ?)]; [by left|]. right. exists d'.
        split; [apply elem_of_cons; by right|done].
      * intros [?|(d' & Hd' & Hne & Hle')]; [by left|].
        apply elem_of_cons in Hd' as [[= ->]|Hd'].
        -- exfalso. apply not_true_iff_false in Hle. apply Hle.
           apply andb_true_iff. split; [by apply negb_true_iff, Z.eqb_neq|by apply Z.leb_le].
        -- right. by exists d'.
  - rewrite IH. split.
    + intros [?|(d' & Hd' & ?)]; [by left|]. right. exists d'.
      split; [apply elem_of_cons; by right|done].
    + intros [?|(d' & Hd' & ?)]; [by left|]. apply elem_of_cons in Hd' as [[=]|Hd'].
      right. by exists d'.
Qed.

Lemma search_rows_subseteq form user_id w row :
  row ∈ search_rows form user_id w → row ∈ entity_table w.
Proof.
  unfold search_rows, EntityModel.sql_search.
  destruct (SearchForm.classes form); simpl.
  - intros H. by apply elem_of_nil in H.
  - rewrite elem_of_order_by_name, list_elem_of_filter. tauto.
Qed.

(** The statement fetches rows of the classes asked for only. *)
Lemma search_rows_classes form user_id w row :
  row ∈ search_rows form user_id w → system_class row ∈ SearchForm.classes form.
Proof.
  unfold search_rows, EntityModel.sql_search.
  destruct (SearchForm.classes form) eqn:Hc; simpl.
  - intros H. by apply elem_of_nil in H.
  - rewrite elem_of_order_by_name, list_elem_of_filter. tauto.
Qed.

Lemma search_rows_no_alias form user_id w :
  no_alias_class form → Forall (λ row, ¬ alias_row row) (search_rows form user_id w).
Proof.
  intros [Hactor Hplace]. apply Forall_forall. intros row Hrow%search_rows_classes.
  intros [Ha|Ha]; rewrite Ha in Hrow; tauto.
Qed.

Lemma search_candidates_subseteq form user_id w e :
  e ∈ search_candidates form user_id w → e ∈ entity_table w.
Proof.
  unfold search_candidates. destruct (String.eqb (SearchForm.term form) "").
  - intros H. by apply elem_of_nil in H.
  - apply search_rows_subseteq.
Qed.

End search_theorems.

(** C3 fails on the code where the date 1970-01-01 comes in: the tests
    [not entity.begin_from ...] and [if date and ...] take that date for
    no date.  On a store whose one place has the begin date 1970-01-01
    and no other date: a search from 1960 on that leaves dateless
    entities out does not return the place, though its date is not
    before the from-date; a search up to 1960 that includes dateless
    entities returns it, though none of its dates is that early. *)
Lemma C3_date_1970_01_01_counts_as_no_date :
  begin_from Examples.museum = Some 0
  ∧ Examples.museum
    ∈ search_candidates (F:=Examples.entity_foreign_epoch) Examples.search_from_1960 1
        Examples.world_museum
  ∧ from_date_of (F:=Examples.entity_foreign_epoch) Examples.search_from_1960
    = Some (-3653)
  ∧ EntityModel.search (F:=Examples.entity_foreign_epoch) Examples.search_from_1960 1
      Examples.world_museum
    = (Ok [], Examples.world_museum)
  ∧ to_date_of (F:=Examples.entity_foreign_epoch) Examples.search_until_1960
    = Some (-3288)
  ∧ EntityModel.search (F:=Examples.entity_foreign_epoch) Examples.search_until_1960 1
      Examples.world_museum
    = (Ok [Examples.museum], Examples.world_museum).
Proof.
  split; [done|]. split; [by_evaluation|]. split; [done|]. split; [by vm_compute|].
  split; [done|]. by vm_compute.
Qed.

(** ** models/entity.py: [get_similar_named] *)

Section similar_theorems.
Context {F : EntityForeign}.

Lemma similar_inner_spec ratio_data sample entities :
  ∀ (similar : gmap Z (Entity * list Entity)) already_added g0,
    similar !! id sample = Some (sample, g0) →
    ∃ already_added',
      EntityModel.similar_inner ratio_data sample entities similar already_added
      = (<[id sample := (sample, g0 ++ similar_to ratio_data entities sample)]> similar,
         already_added') ∧
      ∀ x, x ∈ already_added' ↔
           x ∈ already_added
           ∨ (similar_to ratio_data entities sample ≠ []
              ∧ (x = id sample ∨ x ∈ id <$> similar_to ratio_data entities sample)).
Proof.
  induction entities as [|e entities IH]; intros similar already_added g0 Hs.
  - exists already_added. cbn [EntityModel.similar_inner].
    assert (similar_to ratio_data [] sample = []) as -> by done.
    rewrite app_nil_r, insert_id by done.
    split; [done|]. intros x. split; [auto|]. by intros [?|[? _]].
  - cbn [EntityModel.similar_inner]. unfold similar_to. rewrite filter_cons.
    fold (similar_to ratio_data entities sample).
    case_bool_decide as Hid.
    { rewrite decide_False by tauto. by apply IH. }
    destruct (ratio_data <=? fuzz_ratio (name sample) (name e)) eqn:Hr.
    + apply Z.leb_le in Hr. rewrite decide_True by done. cbv zeta.
      destruct (IH (alter (λ data, (data.1, data.2 ++ [e])) (id sample) similar)
                  (already_added ∪ {[id sample]} ∪ {[id e]}) (g0 ++ [e]))
        as (already' & -> & Hal).
      { by rewrite lookup_alter_eq, Hs. }
      exists already'. split.
      * f_equal. rewrite <- app_assoc. cbn [app]. apply map_eq. intros k.
        destruct (decide (k = id sample)) as [->|Hk].
        -- by rewrite !lookup_insert_eq.
        -- by rewrite !lookup_insert_ne, lookup_alter_ne by done.
      * intros x. rewrite Hal, !elem_of_union, !elem_of_singleton, fmap_cons, elem_of_cons.
        split.
        -- intros [[[?|?]|?]|[? [?|?]]]; auto.
        -- intros [?|[_ [?|[?|?]]]]; auto.
           destruct (decide (similar_to ratio_data entities sample = [])) as [He|He]; auto.
           rewrite He in *. by apply elem_of_nil in H.
    + apply Z.leb_gt in Hr. rewrite decide_False by lia. by apply IH.
Qed.

Lemma snoc_split (pre p1 p2 : list Entity) (x s : Entity) :
  pre ++ [x] = p1 ++ s :: p2 →
  (p1 = pre ∧ s = x ∧ p2 = []) ∨ (∃ p2', p2 = p2' ++ [x] ∧ pre = p1 ++ s :: p2').
Proof.
  destruct p2 as [|y p2 _] using rev_ind; intros Heq.
  - apply app_inj_tail in Heq as [-> ->]. by left.
  - right. exists p2. change (pre ++ [x] = p1 ++ (s :: p2) ++ [y]) in Heq.
    rewrite app_assoc in Heq. apply app_inj_tail in Heq as [-> ->]. done.
Qed.

Lemma NoDup_id_app_cons (pre post : list Entity) (x s : Entity) :
  NoDup (id <$> pre ++ x :: post) → s ∈ pre → id s ≠ id x.
Proof.
  rewrite fmap_app, fmap_cons. intros Hnd Hs Hid.
  apply NoDup_app in Hnd as (_ & Hnd & _).
  apply (Hnd (id s)); [by apply list_elem_of_fmap_2|].
  rewrite Hid. apply elem_of_cons. by left.
Qed.

(** One pass of the outer loop keeps the invariant. *)
Lemma similar_outer_step ratio_data (entities pre post : list Entity) (x : Entity)
    (similar : gmap Z (Entity * list Entity)) (already_added : gset Z) :
  NoDup (id <$> entities) → entities = pre ++ x :: post →
  similar_inv ratio_data entities pre similar already_added →
  (id x ∈ already_added →
   similar_inv ratio_data entities (pre ++ [x]) similar already_added)
  ∧ (id x ∉ already_added →
     ∀ already_added',
       (∀ y, y ∈ already_added' ↔
             y ∈ already_added
             ∨ (similar_to ratio_data entities x ≠ []
                ∧ (y = id x ∨ y ∈ id <$> similar_to ratio_data entities x))) →
       similar_inv ratio_data entities (pre ++ [x])
         (<[id x := (x, similar_to ratio_data entities x)]> similar) already_added').
Proof.
  intros Hnd Hall (Hval & Hal & Hhist).
  assert (∀ s, s ∈ pre → id s ≠ id x) as Hfresh.
  { intros s Hs. apply (NoDup_id_app_cons pre post). by rewrite <- Hall. done. }
  assert (similar !! id x = None) as Hnone.
  { destruct (similar !! id x) as [data|] eqn:Hx; [|done].
    destruct (Hval _ _ Hx) as (Hpre & Hid & _). by apply Hfresh in Hpre. }
  assert (∀ e, e ∈ entities → id e = id x → e = x) as Hinj.
  { intros e He Hid. apply (primary_key_inj entities); [done..| |done].
    rewrite Hall. apply elem_of_app. right. apply elem_of_cons. by left. }
  split.
  - intros Hx. split; [|split].
    + intros k data Hk. destruct (Hval _ _ Hk) as (? & ? & ?).
      split; [apply elem_of_app; by left|done].
    + done.
    + intros p1 s p2 Hsplit. apply snoc_split in Hsplit as [(-> & -> & ->)|(p2' & -> & ->)].
      * rewrite Hnone. split; [by intros [? ?]|]. intros Hno. exfalso. apply Hno.
        apply Hal in Hx as (k & [t g] & Hk & Hg & Hx). simpl in *.
        destruct (Hval _ _ Hk) as (Ht & Hid & Hgroup). simpl in *. subst k.
        destruct Hx as [Hx|Hx]; [by apply Hfresh in Ht|].
        apply list_elem_of_fmap in Hx as (e & He & Hin).
        exists t, g. split; [done|]. split; [done|].
        rewrite (Hinj e) in Hin; [done| |done].
        rewrite Hgroup in Hin. apply list_elem_of_filter in Hin. tauto.
      * exact (Hhist p1 s p2' eq_refl).
  - intros Hx already' Hal'. split; [|split].
    + intros k data Hk. destruct (decide (k = id x)) as [->|Hne].
      * rewrite lookup_insert_eq in Hk. injection Hk as <-. simpl.
        split; [|done]. apply elem_of_app. right. by apply list_elem_of_singleton.
      * rewrite lookup_insert_ne in Hk by done. destruct (Hval _ _ Hk) as (? & ? & ?).
        split; [apply elem_of_app; by left|done].
    + intros y. rewrite Hal'. split.
      * intros [Hy|[Hne Hy]].
        -- apply Hal in Hy as (k & data & Hk & ? & ?). exists k, data.
           rewrite lookup_insert_ne; [done|]. intros <-. congruence.
        -- exists (id x), (x, similar_to ratio_data entities x).
           by rewrite lookup_insert_eq.
      * intros (k & data & Hk & Hne & Hy). destruct (decide (k = id x)) as [->|Hk'].
        -- rewrite lookup_insert_eq in Hk. injection Hk as <-. right. done.
        -- rewrite lookup_insert_ne in Hk by done. left. apply Hal. by exists k, data.
    + intros p1 s p2 Hsplit. apply snoc_split in Hsplit as [(-> & -> & ->)|(p2' & -> & ->)].
      * rewrite lookup_insert_eq. split; [|by eexists]. intros _ (t & g & Ht & Hk & Hin).
        rewrite lookup_insert_ne in Hk by (apply not_eq_sym; by apply Hfresh).
        apply Hx, Hal. exists (id t), (t, g). split; [done|]. simpl. split.
        -- intros ->. by apply elem_of_nil in Hin.
        -- right. by apply list_elem_of_fmap_2.
      * assert (id s ≠ id x) as Hs.
        { apply Hfresh. apply elem_of_app. right. apply elem_of_cons. by left. }
        rewrite lookup_insert_ne by done. rewrite (Hhist p1 s p2' eq_refl).
        split; intros Hno (t & g & Ht & Hk & Hin); apply Hno; exists t, g.
        -- split; [done|]. split; [|done]. rewrite lookup_insert_ne in Hk; [done|].
           apply not_eq_sym, Hfresh. apply elem_of_app. by left.
        -- split; [done|]. split; [|done]. rewrite lookup_insert_ne; [done|].
           apply not_eq_sym, Hfresh. apply elem_of_app. by left.
Qed.

Lemma similar_outer_inv ratio_data (entities : list Entity) :
  NoDup (id <$> entities) →
  ∀ post pre (similar : gmap Z (Entity * list Entity)) already_added,
    entities = pre ++ post →
    similar_inv ratio_data entities pre similar already_added →
    similar_inv ratio_data entities entities
      (EntityModel.similar_outer ratio_data entities post similar already_added).1
      (EntityModel.similar_outer ratio_data entities post similar already_added).2.
Proof.
  intros Hnd. induction post as [|x post IH]; intros pre similar already_added Hall Hinv.
  - rewrite app_nil_r in Hall. by subst pre.
  - cbn [EntityModel.similar_outer].
    destruct (similar_outer_step ratio_data entities pre post x similar already_added
                Hnd Hall Hinv) as [Hskip Hadd].
    assert (entities = (pre ++ [x]) ++ post) as Hall' by (by rewrite <- app_assoc).
    case_bool_decide as Hx.
    + by apply (IH (pre ++ [x])), Hskip.
    + cbv zeta.
      destruct (similar_inner_spec ratio_data x entities
                  (<[id x := (x, [])]> similar) already_added [])
        as (already' & -> & Hal'); [by rewrite lookup_insert_eq|].
      cbn [app]. rewrite insert_insert_eq.
      by apply (IH (pre ++ [x])), Hadd.
Qed.

Lemma get_by_class_spec classes w :
  codes_list classes ≠ [] →
  ∃ entities, EntityModel.get_by_class classes w = (Ok entities, w)
              ∧ (primary_key w → NoDup (id <$> entities))
              ∧ ∀ e, e ∈ entities ↔ e ∈ entity_table w ∧ system_class e ∈ codes_list classes.
Proof.
  intros Hne. unfold EntityModel.get_by_class.
  destruct (codes_list classes) as [|c cs] eqn:Hc; [done|].
  eexists. split; [reflexivity|]. split.
  - intros Hpk. eapply sublist_NoDup; [exact Hpk|].
    apply fmap_sublist, sublist_filter.
  - intros e. rewrite list_elem_of_filter. tauto.
Qed.

(** C7: fuzzy-name matching.  Over the entities of the form's class,
    entity [b] is in the group of sample [a] in the returned dictionary
    exactly when [a] and [b] are distinct, the ratio of their names is at
    least the form's threshold, and [a] is not itself in the group of an
    earlier sample; and every group of the dictionary is non-empty. *)
Theorem C7_similar_named_groups (form : SimilarForm.t) (w : World) :
  primary_key w →
  codes_list (SimilarForm.classes form) ≠ [] →
  ∃ (entities : list Entity) (similar : gmap Z (Entity * list Entity)) (w' : World),
    EntityModel.get_by_class (SimilarForm.classes form) w = (Ok entities, w) ∧
    EntityModel.get_similar_named form w = (Ok similar, w') ∧
    (∀ a b, a ∈ entities → b ∈ entities →
       (∃ group, similar !! id a = Some (a, group) ∧ b ∈ group)
       ↔ a ≠ b
         ∧ SimilarForm.ratio form ≤ fuzz_ratio (name a) (name b)
         ∧ ¬ ∃ s group, earlier entities s a
                        ∧ similar !! id s = Some (s, group) ∧ a ∈ group)
    ∧ (∀ k data, similar !! k = Some data → data.2 ≠ []).
Proof.
  intros Hpk Hclasses.
  destruct (get_by_class_spec (SimilarForm.classes form) w Hclasses)
    as (entities & Hrun & Hnd & _).
  specialize (Hnd Hpk).
  pose proof (similar_outer_inv (SimilarForm.ratio form) entities Hnd entities [] ∅ ∅
                eq_refl) as Hinv.
  destruct (EntityModel.similar_outer (SimilarForm.ratio form) entities entities ∅ ∅)
    as [similar already] eqn:Hloop.
  cbn [fst snd] in Hinv.
  destruct Hinv as (Hval & _ & Hhist).
  { split; [|split].
    - intros k data Hk. by rewrite lookup_empty in Hk.
    - intros x. split; [by intros ?%not_elem_of_empty|].
      intros (k & data & Hk & _). by rewrite lookup_empty in Hk.
    - intros p1 s p2 Hnil. by destruct p1. }
  exists entities, (filter (λ kv : Z * (Entity * list Entity), kv.2.2 ≠ []) similar), w.
  split; [done|]. split.
  { unfold EntityModel.get_similar_named, bind. rewrite Hrun. cbv zeta. by rewrite Hloop. }
  split.
  - intros a b Ha Hb. split.
    + intros (group & Hlook & Hin).
      apply map_lookup_filter_Some in Hlook as [Hlook _].
      destruct (Hval _ _ Hlook) as (_ & _ & Hgroup). simpl in Hgroup. subst group.
      apply list_elem_of_filter in Hin as [[Hid Hratio] _].
      split; [by intros ->|]. split; [done|].
      intros (s & g & (l1 & l2 & l3 & Hsplit) & Hs & Hag).
      apply map_lookup_filter_Some in Hs as [Hs _].
      change (entities = l1 ++ (s :: l2) ++ a :: l3) in Hsplit.
      rewrite (app_assoc l1 (s :: l2) (a :: l3)) in Hsplit.
      apply (Hhist _ _ _ Hsplit); [by eexists|].
      exists s, g. split; [|done]. apply elem_of_app. right. apply elem_of_cons. by left.
    + intros (Hab & Hratio & Hearlier).
      assert (id a ≠ id b) as Hid.
      { intros Hid. apply Hab. by apply (primary_key_inj entities). }
      destruct (list_elem_of_split _ _ Ha) as (p1 & p2 & Hsplit).
      destruct (proj2 (Hhist p1 a p2 Hsplit)) as [[a' group] Hlook].
      { intros (t & g & Ht & Hlook & Hag). apply Hearlier. exists t, g.
        split; [|split; [|done]].
        - destruct (list_elem_of_split _ _ Ht) as (l1 & l2 & ->).
          exists l1, l2, p2. by rewrite Hsplit, <- app_assoc.
        - apply map_lookup_filter_Some. split; [done|]. simpl.
          intros ->. by apply elem_of_nil in Hag. }
      destruct (Hval _ _ Hlook) as (Ha' & Hida & Hgroup). simpl in *.
      assert (a' = a) as -> by (by apply (primary_key_inj entities)).
      assert (b ∈ group) as Hin.
      { rewrite Hgroup. apply list_elem_of_filter. done. }
      exists group. split; [|done].
      apply map_lookup_filter_Some. split; [done|]. simpl.
      intros ->. by apply elem_of_nil in Hin.
  - intros k data Hlook. apply map_lookup_filter_Some in Hlook as [_ Hne]. done.
Qed.

End similar_theorems.

(** ** views/place.py: [save] *)

Section place_theorems.
Context {DB : Type} {O : PlaceOps DB}.

Lemma in_transaction_ret {A} (a : A) : in_transaction (ret (S:=Conn DB) a).
Proof.
  intros c Hc. simpl. repeat split; [done|]. exists []. split; [by rewrite app_nil_r|].
  apply Forall_nil_2.
Qed.

Lemma in_transaction_raise {A} (e : Exn) : in_transaction (raise (S:=Conn DB) (A:=A) e).
Proof.
  intros c Hc. simpl. repeat split; [done|]. exists []. split; [by rewrite app_nil_r|].
  apply Forall_nil_2.
Qed.

Lemma in_transaction_call {A} (f : string) (op : DB → Res A * DB) :
  in_transaction (Place.call f op).
Proof.
  intros c [db Hdb]. unfold Place.call. rewrite Hdb. destruct (op db) as [r db']. simpl.
  repeat split; [by eexists|]. exists [Call f]. split; [done|].
  apply Forall_singleton. by eexists.
Qed.

Lemma in_transaction_bind {A B} (m : M (Conn DB) A) (k : A → M (Conn DB) B) :
  in_transaction m → (∀ a, in_transaction (k a)) → in_transaction (bind m k).
Proof.
  intros Hm Hk c Hc. unfold bind. destruct (Hm c Hc) as (Hw & Hs & Hf & t1 & Ht1 & Hc1).
  destruct (m c) as [[a|e] c1]; simpl in *.
  - destruct (Hk a c1 Hw) as (Hw2 & Hs2 & Hf2 & t2 & Ht2 & Hc2).
    split; [done|]. split; [congruence|]. split; [congruence|].
    exists (t1 ++ t2). split; [by rewrite Ht2, Ht1, app_assoc|]. by apply Forall_app.
  - split; [done|]. split; [done|]. split; [done|]. by exists t1.
Qed.

Lemma save_changes_in_transaction form object__ location_ origin system_type_ :
  in_transaction (Place.save_changes form object__ location_ origin system_type_).
Proof.
  unfold Place.save_changes, Place.save_objects, Place.save_origin.
  repeat first
    [ apply in_transaction_ret
    | apply in_transaction_raise
    | apply in_transaction_call
    | apply in_transaction_bind; [|intros ?]
    | match goal with
      | |- in_transaction (let '(_, _) := ?x in _) => destruct x
      | |- in_transaction (if ?b then _ else _) => destruct b
      | |- in_transaction (match ?x with _ => _ end) => destruct x
      end ].
Qed.

Lemma calls_only_not_elem_of (t : list Stmt) (st : Stmt) :
  calls_only t → (∀ f, st ≠ Call f) → st ∉ t.
Proof.
  intros Ht Hst Hin. unfold calls_only in Ht. rewrite Forall_forall in Ht.
  destruct (Ht st Hin) as [f Hf]. by eapply Hst.
Qed.

Lemma calls_only_occurrences (t : list Stmt) (st : Stmt) :
  calls_only t → (∀ f, st ≠ Call f) → occurrences st t = 0%nat.
Proof.
  intros Ht Hst. unfold occurrences. induction Ht as [|s t [f ->] _ IH]; [done|].
  rewrite filter_cons, decide_False; [done|]. intros Heq. by eapply Hst.
Qed.

Lemma occurrences_app (st : Stmt) (t1 t2 : list Stmt) :
  occurrences st (t1 ++ t2) = (occurrences st t1 + occurrences st t2)%nat.
Proof. unfold occurrences. by rewrite filter_app, length_app. Qed.

(** Both [except] clauses: [ROLLBACK], then the error is logged. *)
Lemma save_except_spec (e : Exn) (c1 : Conn DB) :
  ∃ message,
    executed (Place.save_except e c1).2 = executed c1 ++ [ROLLBACK; Call "logger.log"]
    ∧ stable (Place.save_except e c1).2
      = (logger_log "error" "database" message e (stable c1)).2.
Proof.
  destruct e;
    unfold Place.save_except, bind, modify, Place.rollback, Place.call, Place.log_stmt,
      Place.flash; simpl;
    match goal with |- context [logger_log ?a ?b ?m ?e ?db] =>
      exists m; destruct (logger_log a b m e db) as [[[]|?] ?] end;
    simpl; by rewrite <- app_assoc.
Qed.


End place_theorems.

(** ** Instances on the example data *)


(** C1 on the example store: Alice is linked to Vienna by P74, after
    which each is found from the other. *)
Lemma C1_witness :
  codes_list (CodeStr "P74") ≠ []
  ∧ Examples.alice ∈ entity_table Examples.world0
  ∧ Examples.vienna ∈ entity_table Examples.world0
  ∧ (LinkMapper.insert (F:=Examples.link_foreign) Examples.env_plain
       (VEntity Examples.alice) "P74" (VEntity Examples.vienna) None Examples.world0).1
    = Ok (Some 1)
  ∧ (∃ l w2,
       LinkMapper.get_linked_entities Examples.alice (CodeStr "P74") false
         (LinkMapper.insert (F:=Examples.link_foreign) Examples.env_plain
            (VEntity Examples.alice) "P74" (VEntity Examples.vienna) None
            Examples.world0).2
       = (Ok l, w2) ∧ Examples.vienna ∈ l)
  ∧ (∃ l w2,
       LinkMapper.get_linked_entities Examples.vienna (CodeStr "P74") true
         (LinkMapper.insert (F:=Examples.link_foreign) Examples.env_plain
            (VEntity Examples.alice) "P74" (VEntity Examples.vienna) None
            Examples.world0).2
       = (Ok l, w2) ∧ Examples.alice ∈ l).
Proof.
  assert (codes_list (CodeStr "P74") ≠ []) as Hcodes by done.
  assert (Examples.alice ∈ entity_table Examples.world0) as Ha by by_evaluation.
  assert (Examples.vienna ∈ entity_table Examples.world0) as Hv by by_evaluation.
  destruct (C1_links_are_rows_joined_in_both_directions (F:=Examples.link_foreign)
              Examples.env_plain Examples.world0 Examples.alice (CodeStr "P74") Hcodes)
    as (_ & _ & Hinsert).
  destruct (Hinsert Examples.alice Examples.vienna "P74" None 1 _ Ha Hv eq_refl)
    as [Hforth Hback].
  repeat split; done.
Defined.

(** C2 on the example store: with the check on, linking Alice by P74 to
    Vienna (a place) writes a row, to a battle (no range class of P74)
    flashes an error and writes none. *)
Lemma C2_witness :
  LinkMapper.debug_active Examples.env_debug = true
  ∧ classes_keyed_by_code Examples.env_debug
  ∧ ∃ res w',
      LinkMapper.insert (F:=Examples.link_foreign) Examples.env_debug
        (VEntity Examples.alice) "P74"
        (VList [VEntity Examples.vienna; VEntity Examples.battle]) None Examples.world0
      = (Ok res, w')
      ∧ link_key <$> link_table w' = [("P74", 1, 2, None)]
      ∧ flashes w' = [("error link: Person > P74 > Activity", "error")].
Proof.
  assert (LinkMapper.debug_active Examples.env_debug = true) as Hdebug by done.
  assert (classes_keyed_by_code Examples.env_debug) as Hkey by by_evaluation.
  assert (is_Some (classes Examples.env_debug !! class_code Examples.alice)) as Hdc
    by by_evaluation.
  assert (Forall (λ e, is_Some (classes Examples.env_debug !! class_code e))
            [Examples.vienna; Examples.battle]) as Hrc by by_evaluation.
  destruct (C2_cidoc_validation_is_whitelist_lookup (F:=Examples.link_foreign)
              Examples.env_debug Examples.alice "P74"
              {| prop_code := "P74"; prop_name := "has residence" |}
              (VList [VEntity Examples.vienna; VEntity Examples.battle])
              [Examples.vienna; Examples.battle] None Examples.world0
              Hdebug Hkey Hdc eq_refl eq_refl Hrc) as (res & w' & Hrun & Hl & Hf).
  split; [done|]. split; [done|]. exists res, w'. split; [done|]. split.
  - rewrite Hl. vm_compute. reflexivity.
  - rewrite Hf. vm_compute. reflexivity.
Defined.

(** C4 on an example form with a begin year and no end year. *)
Lemma C4_witness :
  date_fields {| date_fields := Some Examples.begin_only |} = Some Examples.begin_only
  ∧ begin_from (EntityModel.set_dates (F:=Examples.entity_foreign) Examples.vienna_dated
                  {| date_fields := Some Examples.begin_only |}) = Some 15000301
  ∧ begin_comment (EntityModel.set_dates (F:=Examples.entity_foreign) Examples.vienna_dated
                     {| date_fields := Some Examples.begin_only |}) = Some "around"
  ∧ end_from (EntityModel.set_dates (F:=Examples.entity_foreign) Examples.vienna_dated
                {| date_fields := Some Examples.begin_only |}) = None
  ∧ end_to (EntityModel.set_dates (F:=Examples.entity_foreign) Examples.vienna_dated
              {| date_fields := Some Examples.begin_only |}) = None
  ∧ end_comment (EntityModel.set_dates (F:=Examples.entity_foreign) Examples.vienna_dated
                   {| date_fields := Some Examples.begin_only |}) = None.
Proof.
  destruct (C4_set_dates_optional_ranges (F:=Examples.entity_foreign) Examples.vienna_dated
              {| date_fields := Some Examples.begin_only |} Examples.begin_only eq_refl)
    as (_ & Hend & Hbegin & _).
  destruct (Hend eq_refl) as (He1 & He2 & He3).
  destruct (Hbegin eq_refl) as (Hb1 & _ & Hb3).
  split; [done|]. split; [by rewrite Hb1|]. split; [by rewrite Hb3|]. done.
Defined.

(** C7 on the example store: among the places, the first Vienna gets
    the second place of that name into its group. *)
Lemma C7_witness :
  primary_key Examples.world_places
  ∧ codes_list (SimilarForm.classes Examples.similar_places) ≠ []
  ∧ ∃ similar w',
      EntityModel.get_similar_named (F:=Examples.entity_foreign) Examples.similar_places
        Examples.world_places = (Ok similar, w')
      ∧ ∃ group, similar !! 2 = Some (Examples.vienna_dated, group)
                 ∧ Examples.linz ∈ group.
Proof.
  assert (primary_key Examples.world_places) as Hpk by by_evaluation.
  assert (codes_list (SimilarForm.classes Examples.similar_places) ≠ []) as Hclasses by done.
  destruct (C7_similar_named_groups (F:=Examples.entity_foreign) Examples.similar_places
              Examples.world_places Hpk Hclasses)
    as (entities & similar & w' & Hclass & Hrun & Hgroups & _).
  assert (entities = [Examples.vienna_dated; Examples.linz; Examples.wien; Examples.graz])
    as -> by (vm_compute in Hclass; injection Hclass as <-; reflexivity).
  split; [done|]. split; [done|]. exists similar, w'. split; [done|].
  apply (Hgroups Examples.vienna_dated Examples.linz); [by_evaluation..|].
  split; [done|]. split; [done|].
  intros (s & group & (l1 & l2 & l3 & Hsplit) & _).
  destruct l1 as [|x l1]; injection Hsplit as Hs Htail.
  - assert (Examples.vienna_dated ∈ [Examples.linz; Examples.wien; Examples.graz]) as Hin.
    { rewrite Htail. apply elem_of_app. right. apply elem_of_cons. by left. }
    revert Hin. by_evaluation.
  - assert (Examples.vienna_dated ∈ [Examples.linz; Examples.wien; Examples.graz]) as Hin.
    { rewrite Htail. apply elem_of_app. right. apply elem_of_cons. right.
      apply elem_of_app. right. apply elem_of_cons. by left. }
    revert Hin. by_evaluation.
Defined.

(** C8 on the example store: the two places named Vienna are returned,
    each once. *)
Lemma C8_witness :
  EntityModel.search (F:=Examples.entity_foreign) Examples.search_no_dates 1
    Examples.world_places
  = (Ok [Examples.vienna_dated; Examples.linz], Examples.world_places)
  ∧ NoDup (id <$> [Examples.vienna_dated; Examples.linz]).
Proof.
  assert (EntityModel.search (F:=Examples.entity_foreign) Examples.search_no_dates 1
            Examples.world_places
          = (Ok [Examples.vienna_dated; Examples.linz], Examples.world_places)) as Hrun
    by (vm_compute; reflexivity).
  split; [exact Hrun|].
  exact (C8_search_returns_one_entity_per_id (F:=Examples.entity_foreign) _ _ _ _ _ Hrun).
Defined.

(** C10 on the example store: a falsy domain inserts nothing, and of a
    range list with [None], an entity, an empty string and an id only
    the entity and the id get a row. *)
Lemma C10_witness :
  LinkMapper.insert (F:=Examples.link_foreign) Examples.env_plain VNone "P74"
    (VEntity Examples.vienna) None Examples.world0 = (Ok None, Examples.world0)
  ∧ LinkMapper.insert (F:=Examples.link_foreign) Examples.env_plain
      (VEntity Examples.alice) "P74" (VList []) None Examples.world0
    = (Ok None, Examples.world0)
  ∧ ∃ res w',
      LinkMapper.insert (F:=Examples.link_foreign) Examples.env_plain
        (VEntity Examples.alice) "P74"
        (VList [VNone; VEntity Examples.vienna; VStr ""; VInt 3]) None Examples.world0
      = (Ok res, w')
      ∧ link_table w'
        = [{| link_id := 1; property_code := "P74"; domain_id := 1; range_id := 2;
              link_description := None |};
           {| link_id := 2; property_code := "P74"; domain_id := 1; range_id := 3;
              link_description := None |}].
Proof.
  split; [|split].
  - destruct (C10_insert_ignores_falsy_arguments (F:=Examples.link_foreign)
                Examples.env_plain VNone "P74" (VEntity Examples.vienna) None
                Examples.world0) as (Hfalsy & _ & _).
    apply Hfalsy. by left.
  - destruct (C10_insert_ignores_falsy_arguments (F:=Examples.link_foreign)
                Examples.env_plain (VEntity Examples.alice) "P74" (VList []) None
                Examples.world0) as (Hfalsy & _ & _).
    apply Hfalsy. by right.
  - destruct (C10_insert_ignores_falsy_arguments (F:=Examples.link_foreign)
                Examples.env_plain (VEntity Examples.alice) "P74" VNone None
                Examples.world0) as (_ & _ & Hrest).
    assert (Forall (λ r, truthy r = true
                         → ∃ z, LinkMapper.id_of (F:=Examples.link_foreign) r = Ok z)
              [VNone; VEntity Examples.vienna; VStr ""; VInt 3]) as Hids.
    { repeat apply Forall_cons_2; [done|by exists 2|done|by exists 3|apply Forall_nil_2]. }
    destruct (Hrest [VNone; VEntity Examples.vienna; VStr ""; VInt 3] 1
                eq_refl eq_refl eq_refl Hids) as (res & w' & Hrun & Hl).
    exists res, w'. split; [done|]. rewrite Hl. vm_compute. reflexivity.
Defined.

(** ** models/link.py: what [insert] leaves alone, [delete_by_id],
       [delete_by_codes] and [update] *)

Section link_frame_theorems.
Context {F : LinkForeign} (env : Env).

Lemma get_by_id_found id_ w e w' :
  LinkMapper.get_by_id id_ w = (Ok e, w') → w' = w ∧ id e = id_.
Proof.
  unfold LinkMapper.get_by_id.
  destruct (List.find _ _) as [x|] eqn:Hf; [|done].
  intros [= <- <-]. split; [done|].
  apply find_some in Hf as [_ Hx]. by apply bool_decide_eq_true in Hx.
Qed.

Lemma get_by_id_world id_ w : (LinkMapper.get_by_id id_ w).2 = w.
Proof. unfold LinkMapper.get_by_id. by destruct (List.find _ _). Qed.

Lemma entity_of_spec v w :
  (LinkMapper.entity_of v w).2 = w
  ∧ ∀ e, (LinkMapper.entity_of v w).1 = Ok e →
         ∀ d, LinkMapper.id_of v = Ok d → id e = d.
Proof.
  destruct v as [|z|s|e0|l]; cbn [LinkMapper.entity_of LinkMapper.id_of LinkMapper.py_int].
  - by split.
  - unfold bind, lift_res. cbn. rewrite get_by_id_world. split; [done|].
    intros e He d [= <-].
    destruct (LinkMapper.get_by_id z w) as [r w'] eqn:Hg. cbn in He. subst r.
    by apply get_by_id_found in Hg as [_ ?].
  - unfold bind, lift_res. cbn. destruct (int_of_str s) as [z|]; [|by split].
    rewrite get_by_id_world. split; [done|].
    intros e He d [= <-].
    destruct (LinkMapper.get_by_id z w) as [r w'] eqn:Hg. cbn in He. subst r.
    by apply get_by_id_found in Hg as [_ ?].
  - split; [done|]. by intros e [= <-] d [= <-].
  - by split.
Qed.

(** What the CIDOC check can change: the flashed messages only; the
    domain it hands back has the id of the one it was given. *)
Lemma check_link_frame domain p r w :
  let out := LinkMapper.check_link env domain p r w in
  entity_table out.2 = entity_table w ∧ link_table out.2 = link_table w
  ∧ link_id_seq out.2 = link_id_seq w ∧ user_log out.2 = user_log w
  ∧ ∀ v, out.1 = Ok v → ∀ d, LinkMapper.id_of domain = Ok d → LinkMapper.id_of v.1 = Ok d.
Proof.
  cbv zeta. unfold LinkMapper.check_link, bind, lift_res.
  destruct (entity_of_spec domain w) as [Hw He].
  destruct (LinkMapper.entity_of domain w) as [[de|ex] w1]; cbn in Hw, He; subst w1;
    [|by repeat split].
  destruct (entity_of_spec r w) as [Hw' _].
  destruct (LinkMapper.entity_of r w) as [[re|ex] w1]; cbn in Hw'; subst w1;
    [|by repeat split].
  destruct (LinkMapper.dict_get (classes env) (class_code de)); [|by repeat split].
  destruct (LinkMapper.dict_get (classes env) (class_code re)); [|by repeat split].
  destruct (LinkMapper.dict_get (properties env) p); [|by repeat split].
  destruct (_ || _); cbn.
  - repeat split; try done. intros v [= <-] d Hd. cbn. f_equal. by apply He.
  - repeat split; try done. intros v [= <-] d Hd. cbn. f_equal. by apply He.
Qed.

(** One pass of the loop body: it appends one row under the next id, or
    leaves both the table and the sequence alone. *)
Lemma insert_body_effect domain p descr r result w :
  let out := LinkMapper.insert_body env domain p descr r result w in
  entity_table out.2 = entity_table w
  ∧ ((link_table out.2 = link_table w ∧ link_id_seq out.2 = link_id_seq w
      ∧ ∀ v, out.1 = Ok v → v.2 = result ∧ LinkMapper.id_of v.1 = LinkMapper.id_of domain)
     ∨ (∃ d z dom',
          LinkMapper.id_of domain = Ok d
          ∧ link_table out.2 = link_table w ++ new_links (link_id_seq w) p d descr [z]
          ∧ link_id_seq out.2 = link_id_seq w + 1
          ∧ out.1 = Ok (dom', Some (link_id_seq w))
          ∧ LinkMapper.id_of dom' = Ok d)).
Proof.
  cbv zeta. unfold LinkMapper.insert_body, bind, lift_res.
  destruct (LinkMapper.id_of domain) as [d|ex] eqn:Hd; [|split; [done|left; by repeat split]].
  destruct (LinkMapper.id_of r) as [z|ex] eqn:Hz; [|split; [done|left; by repeat split]].
  destruct (LinkMapper.debug_active env).
  - destruct (check_link_frame domain p r w) as (He & Hl & Hs & _ & Hv).
    destruct (LinkMapper.check_link env domain p r w) as [[[dom' go]|ex] w1];
      cbn in He, Hl, Hs, Hv; [|split; [done|left; by repeat split]].
    specialize (Hv _ eq_refl d Hd). cbn in Hv.
    destruct go; cbn.
    + split; [done|]. right. exists d, z, dom'. rewrite Hl, Hs, Z.add_0_r. by repeat split.
    + split; [done|]. left. split; [done|]. split; [done|]. by intros v [= <-].
  - cbn. split; [done|]. right. exists d, z, domain. rewrite Z.add_0_r. by repeat split.
Qed.

(** The rows a run of the loop appends. *)
Lemma insert_loop_appends p descr rs :
  ∀ domain result w,
    let out := LinkMapper.insert_loop env domain p descr rs result w in
    entity_table out.2 = entity_table w
    ∧ ∃ rows,
        link_table out.2 = link_table w ++ rows
        ∧ link_id <$> rows = seqZ (link_id_seq w) (Z.of_nat (length rows))
        ∧ link_id_seq out.2 = link_id_seq w + Z.of_nat (length rows)
        ∧ (length rows ≤ length rs)%nat
        ∧ Forall (λ r, property_code r = p ∧ link_description r = descr
                       ∧ LinkMapper.id_of domain = Ok (domain_id r)) rows
        ∧ ∀ res, out.1 = Ok res →
                 res = match last (link_id <$> rows) with
                       | Some new_id => Some new_id
                       | None => result
                       end.
Proof.
  induction rs as [|r rs IH]; intros domain result w; cbv zeta.
  - cbn. split; [done|]. exists []. rewrite app_nil_r, Z.add_0_r.
    repeat split; try done. by intros res [= <-].
  - cbn [LinkMapper.insert_loop].
    destruct (truthy r); cbn [negb].
    2:{ destruct (IH domain result w) as (He & rows & Hl & Hids & Hs & Hlen & Hrows & Hres).
        split; [done|]. exists rows. repeat split; try done. cbn [length]. lia. }
    unfold bind.
    destruct (insert_body_effect domain p descr r result w) as [He Hcase].
    destruct (LinkMapper.insert_body env domain p descr r result w) as [[v|ex] w1];
      cbn in He, Hcase.
    + destruct Hcase as [(Hl & Hs & Hv)|(d & z & dom' & Hd & Hl & Hs & [= ->] & Hd')].
      * destruct (Hv v eq_refl) as [-> Hdom].
        destruct (IH v.1 result w1) as (He' & rows & Hl' & Hids & Hs' & Hlen & Hrows & Hres).
        rewrite Hs in Hids, Hs'. rewrite Hl in Hl'. rewrite Hdom in Hrows.
        split; [congruence|]. exists rows. repeat split; try done.
        cbn [length]. lia.
      * cbn [fst snd].
        destruct (IH dom' (Some (link_id_seq w)) w1)
          as (He' & rows & Hl' & Hids & Hs' & Hlen & Hrows & Hres).
        split; [congruence|].
        exists (new_links (link_id_seq w) p d descr [z] ++ rows).
        rewrite Hl', Hs', Hl, Hs, <- app_assoc. cbn [new_links imap app length].
        repeat split.
        -- rewrite fmap_cons, Hids. cbn [link_id]. rewrite Z.add_0_r.
           rewrite (seqZ_cons _ (Z.of_nat (S _))) by lia.
           do 2 f_equal; lia.
        -- lia.
        -- lia.
        -- apply Forall_cons_2; [by rewrite Z.add_0_r|].
           eapply Forall_impl; [exact Hrows|]. cbn. intros x (? & ? & Hx).
           repeat split; try done. congruence.
        -- intros res Hout. rewrite (Hres res Hout), fmap_cons. cbn [link_id].
           destruct rows as [|r' rows']; [by rewrite Z.add_0_r|].
           rewrite fmap_cons. cbn [last].
           destruct (proj2 (last_is_Some (link_id r' :: (link_id <$> rows'))))
             as [x ->]; done.
    + destruct Hcase as [(Hl & Hs & _)|(? & ? & ? & _ & _ & _ & ? & _)]; [|done].
      split; [done|]. exists []. rewrite app_nil_r, Z.add_0_r.
      repeat split; try done. cbn. lia.
Qed.

(** X1: when [insert] returns, it has left the entity table alone and
    has only appended to the link table: the rows that were there stay as
    they are, every new row carries the given property code and
    description, the domain's id and the next ids of the sequence, and
    the value returned is the id of the last new row, [None] when there
    is none. *)
Theorem insert_only_appends (domain : PyVal) (property_code_ : string) (range_ : PyVal)
    (description_ : option string) (w w1 : World) (res : option Z) :
  LinkMapper.insert env domain property_code_ range_ description_ w = (Ok res, w1) →
  entity_table w1 = entity_table w
  ∧ ∃ rows,
      link_table w1 = link_table w ++ rows
      ∧ link_id <$> rows = seqZ (link_id_seq w) (Z.of_nat (length rows))
      ∧ link_id_seq w1 = link_id_seq w + Z.of_nat (length rows)
      ∧ Forall (λ r, property_code r = property_code_ ∧ link_description r = description_
                     ∧ LinkMapper.id_of domain = Ok (domain_id r)) rows
      ∧ res = last (link_id <$> rows).
Proof.
  unfold LinkMapper.insert.
  destruct (negb (truthy domain) || negb (truthy range_)).
  - intros [= <- <-]. split; [done|]. exists []. rewrite app_nil_r, Z.add_0_r.
    by repeat split.
  - intros Hrun.
    destruct (insert_loop_appends property_code_ description_ (as_list range_) domain None w)
      as (He & rows & Hl & Hids & Hs & _ & Hrows & Hres).
    rewrite Hrun in He, Hl, Hs, Hres. cbn [fst snd] in He, Hl, Hs, Hres.
    split; [done|]. exists rows. repeat split; try done.
    rewrite (Hres res eq_refl). by destruct (last _).
Qed.

Lemma filter_all {A} (P : A → Prop) `{∀ x, Decision (P x)} (l : list A) :
  Forall P l → filter P l = l.
Proof.
  induction 1 as [|x l Hx _ IH]; [done|]. by rewrite filter_cons_True, IH.
Qed.

Lemma filter_none {A} (P : A → Prop) `{∀ x, Decision (P x)} (l : list A) :
  Forall (λ x, ¬ P x) l → filter P l = [].
Proof.
  induction 1 as [|x l Hx _ IH]; [done|]. by rewrite filter_cons_False.
Qed.

(** X2: with the sequence ahead of the ids in use, deleting the id that
    [insert] returned removes the last row it appended and nothing else;
    after an insert for a single range the link table is the one before. *)
Theorem insert_then_delete_by_id (domain : PyVal) (property_code_ : string)
    (range_ : PyVal) (description_ : option string) (w w1 : World) (new_id : Z) :
  link_ids_fresh w →
  LinkMapper.insert env domain property_code_ range_ description_ w
  = (Ok (Some new_id), w1) →
  ∃ rows last_row,
    link_table w1 = link_table w ++ rows ++ [last_row]
    ∧ link_id last_row = new_id
    ∧ link_table (LinkMapper.delete_by_id new_id w1).2 = link_table w ++ rows
    ∧ (length (as_list range_) = 1%nat →
       link_table (LinkMapper.delete_by_id new_id w1).2 = link_table w).
Proof.
  intros Hfresh Hrun. unfold LinkMapper.insert in Hrun.
  destruct (negb (truthy domain) || negb (truthy range_)); [done|].
  destruct (insert_loop_appends property_code_ description_ (as_list range_) domain None w)
    as (_ & rows & Hl & Hids & _ & Hlen & _ & Hres).
  rewrite Hrun in Hl, Hres. cbn [fst snd] in Hl, Hres.
  specialize (Hres _ eq_refl).
  destruct (last (link_id <$> rows)) as [i|] eqn:Hlast; [|done].
  injection Hres as ->.
  rewrite fmap_last in Hlast.
  destruct (last rows) as [last_row|] eqn:Hlr; [|done].
  injection Hlast as Hlast.
  apply last_Some in Hlr as [rows0 ->].
  exists rows0, last_row.
  assert (link_table (LinkMapper.delete_by_id i w1).2 = link_table w ++ rows0) as Hdel.
  { cbn. rewrite Hl, !filter_app.
    rewrite fmap_app, length_app, Nat2Z.inj_add in Hids. cbn in Hids.
    rewrite seqZ_app in Hids by lia.
    apply app_inj_1 in Hids as [Hids0 Hidl];
      [|by rewrite length_fmap, length_seqZ, Nat2Z.id].
    rewrite (seqZ_cons _ 1), seqZ_nil in Hidl by lia.
    injection Hidl as Hidl.
    rewrite filter_cons_False, filter_nil, app_nil_r by (intros Hne; by apply Hne).
    rewrite !filter_all; [done| |].
    - apply Forall_forall. intros r Hr.
      assert (link_id r ∈ seqZ (link_id_seq w) (Z.of_nat (length rows0))) as Hin.
      { rewrite <- Hids0. by apply list_elem_of_fmap_2. }
      apply elem_of_seqZ in Hin. lia.
    - eapply Forall_impl; [exact Hfresh|]. cbn. intros r Hr. lia. }
  repeat split; try done.
  intros Hone. rewrite Hdel. rewrite length_app in Hlen. cbn in Hlen.
  destruct rows0; [by rewrite app_nil_r|cbn in Hlen; lia].
Qed.

Lemma linked_ids_filter (keep : LinkRow → Prop) `{∀ r, Decision (keep r)}
    (links : list LinkRow) entity_id codes :
  linked_ids (filter keep links) entity_id codes false
  = range_id <$> filter (λ r, (domain_id r = entity_id ∧ property_code r ∈ codes) ∧ keep r)
                   links.
Proof. unfold linked_ids. by rewrite list_filter_filter. Qed.

(** X3: [delete_by_codes] with at least one code leaves the entity table
    alone; afterwards the entity has no linked entity under these codes,
    every row it removed had the entity as domain and one of the codes,
    and the lookups from another entity, or from this one under other
    codes, answer what they answered before. *)
Theorem delete_by_codes_lookups (entity : Entity) (codes : Codes) (w : World) :
  codes_list codes ≠ [] →
  ∃ w',
    LinkMapper.delete_by_codes entity codes w = (Ok tt, w')
    ∧ entity_table w' = entity_table w
    ∧ (LinkMapper.get_linked_entities entity codes false w').1 = Ok []
    ∧ (∀ r, r ∈ link_table w →
            r ∈ link_table w'
            ∨ (domain_id r = id entity ∧ property_code r ∈ codes_list codes))
    ∧ (∀ (other : Entity) (codes' : Codes),
         codes_list codes' ≠ [] →
         id other ≠ id entity
         ∨ (∀ c, c ∈ codes_list codes' → c ∉ codes_list codes) →
         (LinkMapper.get_linked_entities other codes' false w').1
         = (LinkMapper.get_linked_entities other codes' false w).1).
Proof.
  intros Hcodes. unfold LinkMapper.delete_by_codes.
  destruct (codes_list codes) as [|c cs] eqn:Hcs; [done|]. rewrite <- Hcs.
  eexists. split; [reflexivity|]. split; [done|]. split; [|split].
  - rewrite get_linked_entities_eq by congruence. cbn [fst]. f_equal.
    unfold linked_rows. cbn [link_table entity_table set_link_table].
    rewrite linked_ids_filter, filter_none; [done|].
    apply Forall_forall. tauto.
  - intros r Hr. cbn [link_table set_link_table]. rewrite list_elem_of_filter.
    destruct (decide (domain_id r = id entity ∧ property_code r ∈ codes_list codes)); tauto.
  - intros other codes' Hcodes' Hother.
    rewrite !get_linked_entities_eq by done. cbn [fst]. f_equal.
    unfold linked_rows. cbn [link_table entity_table set_link_table].
    rewrite linked_ids_filter. unfold linked_ids.
    rewrite (list_filter_iff _ (λ r, domain_id r = id other ∧ property_code r ∈ codes_list codes'));
      [done|].
    intros r. split; [tauto|]. intros [Hd Hp]. split; [done|].
    intros [Hd' Hp']. destruct Hother as [Hne|Hdisj]; [congruence|].
    by apply (Hdisj _ Hp).
Qed.

(** X4: [update] keeps the entity table, the number of link rows and
    their ids; a row with another id is left as it is, a row with the
    link's id gets the link's property code, domain, range and
    description, and once such a row exists the link's range is found
    from its domain under its property code. *)
Theorem update_repoints_one_row (link : Link.t) (w : World) :
  ∃ w',
    LinkMapper.update link w = (Ok tt, w')
    ∧ entity_table w' = entity_table w
    ∧ link_id <$> link_table w' = link_id <$> link_table w
    ∧ (∀ r, r ∈ link_table w → link_id r ≠ Link.id link → r ∈ link_table w')
    ∧ (∀ r, r ∈ link_table w' → link_id r = Link.id link →
            link_key r = (prop_code (Link.property link), id (Link.domain link),
                          id (Link.range link), Link.description link))
    ∧ ((∃ r, r ∈ link_table w ∧ link_id r = Link.id link) →
       Link.range link ∈ entity_table w →
       ∃ l w2,
         LinkMapper.get_linked_entities (Link.domain link)
           (CodeStr (prop_code (Link.property link))) false w' = (Ok l, w2)
         ∧ Link.range link ∈ l).
Proof.
  eexists. split; [reflexivity|]. cbn [entity_table link_table set_link_table set_div_sql].
  split; [done|]. split; [|split; [|split]].
  - rewrite <- list_fmap_compose. apply list_fmap_ext. intros i r _. cbn.
    by case_bool_decide.
  - intros r Hr Hne. apply list_elem_of_fmap. exists r. split; [|done].
    by rewrite bool_decide_eq_false_2.
  - intros r Hr Hid. apply list_elem_of_fmap in Hr as (r0 & -> & Hr0).
    case_bool_decide as Hb; [done|]. by cbn in Hid.
  - intros (r & Hr & Hid) Hrange.
    destruct (get_linked_entities_spec (Link.domain link)
                (CodeStr (prop_code (Link.property link))) false
                (set_div_sql (λ n, n + 1)
                   (set_link_table
                      (fmap (λ r, if bool_decide (link_id r = Link.id link)
                                  then {| link_id := link_id r;
                                          property_code := prop_code (Link.property link);
                                          domain_id := id (Link.domain link);
                                          range_id := id (Link.range link);
                                          link_description := Link.description link |}
                                  else r)) w)))
      as (l & Hrun & Hspec); [done|].
    exists l. eexists. split; [exact Hrun|]. apply Hspec.
    cbn [entity_table link_table set_link_table set_div_sql codes_list].
    split; [done|].
    eexists. split.
    + apply list_elem_of_fmap. exists r. split; [reflexivity|done].
    + rewrite bool_decide_eq_true_2 by done. cbn. split; [apply list_elem_of_singleton; reflexivity|done].
Qed.

Lemma insert_body_same_ref domain domain' p descr r r' result w :
  LinkMapper.debug_active env = false →
  LinkMapper.id_of domain = LinkMapper.id_of domain' →
  LinkMapper.id_of r = LinkMapper.id_of r' →
  (LinkMapper.insert_body env domain p descr r result w).2
  = (LinkMapper.insert_body env domain' p descr r' result w).2
  ∧ match (LinkMapper.insert_body env domain p descr r result w).1,
          (LinkMapper.insert_body env domain' p descr r' result w).1 with
    | Ok v, Ok v' => v.1 = domain ∧ v'.1 = domain' ∧ v.2 = v'.2
    | Raise e, Raise e' => e = e'
    | _, _ => False
    end.
Proof.
  intros Hdebug Hd Hr. unfold LinkMapper.insert_body, bind, lift_res.
  rewrite Hdebug, <- Hd, <- Hr.
  destruct (LinkMapper.id_of domain); [|done].
  destruct (LinkMapper.id_of r); [|done]. by cbn.
Qed.

Lemma insert_loop_same_ref p descr rs rs' :
  LinkMapper.debug_active env = false →
  Forall2 same_ref rs rs' →
  ∀ domain domain' result w,
    LinkMapper.id_of domain = LinkMapper.id_of domain' →
    LinkMapper.insert_loop env domain p descr rs result w
    = LinkMapper.insert_loop env domain' p descr rs' result w.
Proof.
  intros Hdebug. induction 1 as [|r r' rs rs' [Ht Hr] _ IH]; intros domain domain' result w Hd.
  - done.
  - cbn [LinkMapper.insert_loop]. rewrite <- Ht.
    destruct (truthy r); cbn [negb]; [|by apply IH].
    unfold bind.
    destruct (insert_body_same_ref domain domain' p descr r r' result w Hdebug Hd Hr)
      as [Hw Hres].
    destruct (LinkMapper.insert_body env domain p descr r result w) as [[v|ex] w1],
             (LinkMapper.insert_body env domain' p descr r' result w) as [[v'|ex'] w1'];
      cbn in Hw, Hres; subst; try done.
    destruct Hres as (-> & -> & ->). by apply IH.
Qed.

(** X5: without the CIDOC check [insert] reads of its arguments only
    whether they are truthy and their ids: an id given as [int] or [str]
    and the [Entity] with that id insert the same rows and return the
    same value. *)
Theorem insert_id_or_entity (domain domain' : PyVal) (property_code_ : string)
    (range_ range_' : PyVal) (description_ : option string) (w : World) :
  LinkMapper.debug_active env = false →
  same_ref domain domain' →
  truthy range_ = truthy range_' →
  Forall2 same_ref (as_list range_) (as_list range_') →
  LinkMapper.insert env domain property_code_ range_ description_ w
  = LinkMapper.insert env domain' property_code_ range_' description_ w.
Proof.
  intros Hdebug [Ht Hd] Htr Hrs. unfold LinkMapper.insert. rewrite <- Ht, <- Htr.
  destruct (negb (truthy domain) || negb (truthy range_)); [done|].
  by apply insert_loop_same_ref.
Qed.

End link_frame_theorems.

Section lookup_more_theorems.
Context {F : LinkForeign}.

Lemma name_le_total : Total name_le.
Proof. intros a b. unfold name_le. apply String.leb_total. Qed.

(** X21: [get_by_ids] reads only; it returns the rows whose id is among
    the ids, each row once however often its id is given, in the order
    of their names; for no ids that is the empty list; under the primary
    key no two of the returned entities share an id. *)
Theorem get_by_ids_rows (entity_ids : list Z) (w : World) :
  ∃ l,
    LinkMapper.get_by_ids entity_ids w = (Ok l, w)
    ∧ l ≡ₚ filter (λ e, id e ∈ entity_ids) (entity_table w)
    ∧ Sorted name_le l
    ∧ (entity_ids = [] → l = [])
    ∧ (primary_key w → NoDup (id <$> l)).
Proof.
  destruct entity_ids as [|i ids].
  - exists []. split; [done|]. split.
    { rewrite filter_none; [done|]. apply Forall_forall. intros e _ He.
      by apply elem_of_nil in He. }
    split; [constructor|]. split; [done|]. intros _. apply NoDup_nil_2.
  - eexists. split; [reflexivity|]. unfold order_by_name.
    pose proof name_le_total as Htotal.
    split; [apply merge_sort_Permutation|]. split; [apply Sorted_merge_sort, _|].
    split; [done|]. intros Hpk. rewrite merge_sort_Permutation.
    eapply sublist_NoDup; [exact Hpk|]. apply fmap_sublist, sublist_filter.
Qed.

(** X22: the inverse lookup is the converse of the lookup: for two rows
    of the entity table and at least one code, the second is among the
    entities linked from the first exactly when the first is among the
    entities linked to the second. *)
Theorem inverse_lookup_is_converse (a b : Entity) (codes : Codes) (w : World) :
  codes_list codes ≠ [] →
  a ∈ entity_table w →
  b ∈ entity_table w →
  ∃ l l',
    (LinkMapper.get_linked_entities a codes false w).1 = Ok l
    ∧ (LinkMapper.get_linked_entities b codes true w).1 = Ok l'
    ∧ (b ∈ l ↔ a ∈ l').
Proof.
  intros Hcodes Ha Hb.
  destruct (get_linked_entities_spec a codes false w Hcodes) as (l & -> & Hl).
  destruct (get_linked_entities_spec b codes true w Hcodes) as (l' & -> & Hl').
  exists l, l'. split; [done|]. split; [done|].
  rewrite Hl, Hl'. split.
  - intros (_ & r & Hr & Hp & Hd & Hrg). split; [done|]. by exists r.
  - intros (_ & r & Hr & Hp & Hrg & Hd). split; [done|]. by exists r.
Qed.

End lookup_more_theorems.

(** ** models/entity.py: further properties of [set_dates] and [search] *)

Section entity_more_theorems.
Context {F : EntityForeign}.

(** X6: [set_dates] leaves an entity as it is when the form has no date
    fields; it never changes the id, name, description or classes; on a
    form with date fields the six date attributes depend on the form
    only, so no earlier date survives, and setting the dates twice is
    setting them once. *)
Theorem set_dates_overwrites (self other : Entity) (form : FlaskForm) :
  (date_fields form = None → EntityModel.set_dates self form = self)
  ∧ (let e := EntityModel.set_dates self form in
     id e = id self ∧ name e = name self ∧ description e = description self
     ∧ class_code e = class_code self ∧ system_class e = system_class self)
  ∧ (is_Some (date_fields form) →
     date_attributes (EntityModel.set_dates self form)
     = date_attributes (EntityModel.set_dates other form))
  ∧ EntityModel.set_dates (EntityModel.set_dates self form) form
    = EntityModel.set_dates self form.
Proof.
  unfold EntityModel.set_dates, date_attributes.
  destruct (date_fields form) as [f|]; [|by repeat split].
  split; [done|].
  destruct (EntityModel.int_truthy (DateForm.begin_year_from f)),
           (EntityModel.int_truthy (DateForm.end_year_from f));
    by repeat split.
Qed.

Lemma sql_search_rows form user_id w :
  SearchForm.classes form ≠ [] →
  EntityModel.sql_search form user_id w = (Ok (search_rows form user_id w), w).
Proof.
  intros Hc. unfold search_rows, EntityModel.sql_search.
  by destruct (SearchForm.classes form).
Qed.

Lemma dict_set_values_subseteq {V} (k : Z) (v : V) (d : list (Z * V)) (x : V) :
  x ∈ (dict_set k v d).*2 → x = v ∨ x ∈ d.*2.
Proof.
  induction d as [|[k' v'] d IH]; cbn [dict_set].
  - rewrite list_fmap_singleton, list_elem_of_singleton. auto.
  - case_bool_decide.
    + rewrite !fmap_cons, !elem_of_cons. cbn. tauto.
    + rewrite !fmap_cons, !elem_of_cons. cbn. intros [->|Hx]; [auto|].
      destruct (IH Hx); auto.
Qed.

Lemma dict_by_id_values_subseteq (es : list Entity) :
  ∀ (d : list (Z * Entity)) (e : Entity),
    e ∈ (fold_left (λ d e, dict_set (id e) e d) es d).*2 → e ∈ d.*2 ∨ e ∈ es.
Proof.
  induction es as [|x es IH]; intros d e; cbn [fold_left]; [auto|].
  intros He. destruct (IH _ _ He) as [Hd|Hes].
  - apply dict_set_values_subseteq in Hd as [->|Hd]; [right; apply elem_of_cons|]; auto.
  - right. apply elem_of_cons. auto.
Qed.

(** The rows of the classes asked for are all the fetched rows. *)
Lemma filter_search_rows form user_id w :
  filter (λ row, system_class row ∈ SearchForm.classes form) (search_rows form user_id w)
  = search_rows form user_id w.
Proof.
  apply filter_all, Forall_forall. intros row. apply search_rows_classes.
Qed.

(** X7: [search] never changes the store.  It raises in two cases only:
    [ProgrammingError] for a term searched in an empty list of classes,
    which the database rejects, and [AttributeError] when the statement
    fetched a row of an alias class, for which the code looks up
    [Link.get_linked_entity].  When it returns, no fetched row is an
    alias and every entity returned is a fetched row that passes the
    date test of the loop. *)
Theorem search_outcome (form : SearchForm.t) (user_id : Z) (w : World) :
  (EntityModel.search form user_id w).2 = w
  ∧ match (EntityModel.search form user_id w).1 with
    | Ok result =>
      Forall (λ row, ¬ alias_row row) (search_candidates form user_id w)
      ∧ ∀ e, e ∈ result →
             e ∈ search_candidates form user_id w
             ∧ date_filter (SearchForm.include_dateless form)
                 (from_date_of form) (to_date_of form) e = true
    | Raise ex =>
      SearchForm.term form ≠ ""
      ∧ ((ex = ProgrammingError ∧ SearchForm.classes form = [])
         ∨ (ex = AttributeError
            ∧ Exists alias_row (search_candidates form user_id w)))
    end.
Proof.
  unfold EntityModel.search, search_candidates.
  destruct (String.eqb (SearchForm.term form) "") eqn:Hterm.
  { cbn. split; [done|]. split; [apply Forall_nil_2|].
    intros e He. by apply elem_of_nil in He. }
  apply String.eqb_neq in Hterm.
  destruct (decide (SearchForm.classes form = [])) as [Hc|Hc].
  { unfold bind, EntityModel.sql_search. rewrite Hc. cbn. split; [done|]. split; [done|].
    by left. }
  unfold bind. rewrite sql_search_rows by done.
  fold (from_date_of form) (to_date_of form).
  destruct (decide (Forall (λ row, ¬ alias_row row) (search_rows form user_id w)))
    as [Hrows|Hrows].
  - rewrite search_loop_rows by done. cbn [fst snd app]. split; [done|]. split; [done|].
    intros e He. unfold dict_values, EntityModel.dict_by_id in He.
    apply dict_by_id_values_subseteq in He as [He|He]; [by apply elem_of_nil in He|].
    rewrite filter_search_rows in He. apply list_elem_of_filter in He. tauto.
  - apply not_Forall_Exists in Hrows; [|apply _].
    assert (Exists alias_row (search_rows form user_id w)) as Halias.
    { eapply Exists_impl; [exact Hrows|]. cbn. intros row Hrow.
      by destruct (decide (alias_row row)). }
    rewrite search_loop_alias by done. cbn. split; [done|]. split; [done|]. by right.
Qed.

(** What [search] returns, under the primary key, when no fetched row is
    an alias: the fetched rows that pass the date test. *)
Lemma search_elem_of form user_id w :
  primary_key w →
  SearchForm.classes form ≠ [] →
  Forall (λ row, ¬ alias_row row) (search_rows form user_id w) →
  ∃ result,
    EntityModel.search form user_id w = (Ok result, w) ∧
    ∀ e, e ∈ result ↔
         e ∈ search_candidates form user_id w
         ∧ date_filter (SearchForm.include_dateless form)
             (from_date_of form) (to_date_of form) e = true.
Proof.
  intros Hpk Hclasses Hrows.
  unfold EntityModel.search, search_candidates.
  destruct (String.eqb (SearchForm.term form) "") eqn:Hterm.
  { exists []. split; [done|]. intros e. rewrite elem_of_nil. tauto. }
  unfold bind. rewrite sql_search_rows by done.
  fold (from_date_of form) (to_date_of form).
  rewrite search_loop_rows by done. cbn [app]. rewrite filter_search_rows.
  eexists. split; [reflexivity|].
  intros e.
  set (found := filter _ _).
  assert (e ∈ dict_values (EntityModel.dict_by_id found) ↔ e ∈ found) as ->.
  { unfold dict_values, EntityModel.dict_by_id.
    rewrite dict_by_id_elem_of; [done|apply NoDup_nil_2|apply Forall_nil_2|].
    intros a b Ha Hb. cbn [fmap list_fmap app] in Ha, Hb.
    apply (primary_key_inj (entity_table w)); [done| |].
    - apply list_elem_of_filter in Ha as [_ Ha]. by eapply search_rows_subseteq.
    - apply list_elem_of_filter in Hb as [_ Hb]. by eapply search_rows_subseteq. }
  unfold found. rewrite list_elem_of_filter. tauto.
Qed.

(** X8: a search that asks for no alias class and has neither a
    from-date nor a to-date in force (none given, or the date
    1970-01-01, which the code takes for none) returns every row the
    statement fetched, dated or not, whatever [include_dateless] says. *)
Theorem search_without_date_criteria (form : SearchForm.t) (user_id : Z) (w : World) :
  primary_key w →
  SearchForm.classes form ≠ [] →
  no_alias_class form →
  in_force (from_date_of form) = None →
  in_force (to_date_of form) = None →
  ∃ result,
    EntityModel.search form user_id w = (Ok result, w) ∧
    ∀ e, e ∈ result ↔ e ∈ search_candidates form user_id w.
Proof.
  intros Hpk Hclasses Halias Hfrom Hto.
  destruct (search_elem_of form user_id w Hpk Hclasses) as (result & Hrun & Hres).
  { by apply search_rows_no_alias. }
  exists result. split; [done|]. intros e. rewrite Hres.
  assert (EntityModel.date_truthy (from_date_of form) = false) as Hf.
  { unfold in_force in Hfrom.
    destruct (EntityModel.date_truthy _) eqn:E; [by rewrite Hfrom in E|done]. }
  assert (EntityModel.date_truthy (to_date_of form) = false) as Ht.
  { unfold in_force in Hto.
    destruct (EntityModel.date_truthy _) eqn:E; [by rewrite Hto in E|done]. }
  unfold date_filter. rewrite Hf, Ht. cbn. tauto.
Qed.

Lemma check_from_wider a' a dates :
  a' ≤ a → EntityModel.check_from a dates false = true →
  EntityModel.check_from a' dates false = true.
Proof.
  intros Hle. rewrite !check_from_true. intros [?|(d & Hd & ? & ?)]; [done|].
  right. exists d. split; [done|]. split; [done|lia].
Qed.

Lemma check_to_wider b' b dates :
  b ≤ b' → EntityModel.check_to b dates false = true →
  EntityModel.check_to b' dates false = true.
Proof.
  intros Hle. rewrite !check_to_true. intros [?|(d & Hd & ? & ?)]; [done|].
  right. exists d. split; [done|]. split; [done|lia].
Qed.

Lemma date_filter_wider include_dateless from_date to_date from_date' to_date' e :
  from_wider (in_force from_date') (in_force from_date) →
  to_wider (in_force to_date') (in_force to_date) →
  date_filter include_dateless from_date to_date e = true →
  date_filter include_dateless from_date' to_date' e = true.
Proof.
  unfold date_filter, in_force. intros Hf Ht.
  destruct (EntityModel.date_truthy from_date') eqn:Hf',
           (EntityModel.date_truthy to_date') eqn:Ht'; cbn [negb andb]; [..|done].
  - destruct from_date' as [a'|]; [|done]. destruct to_date' as [b'|]; [|done].
    destruct (EntityModel.date_truthy from_date) eqn:Hfn; [|done].
    destruct (EntityModel.date_truthy to_date) eqn:Htn; [|done].
    destruct from_date as [a|]; [|done]. destruct to_date as [b|]; [|done].
    cbn [negb andb]. destruct (EntityModel.dateless e); [done|].
    rewrite !andb_true_iff. intros [Hb He].
    split; [by apply (check_from_wider a' a)|by apply (check_to_wider b' b)].
  - destruct from_date' as [a'|]; [|done].
    destruct (EntityModel.date_truthy from_date) eqn:Hfn; [|done].
    destruct from_date as [a|]; [|done].
    cbn [negb andb]. destruct (EntityModel.dateless e); [done|].
    rewrite !andb_true_iff. intros [Hb He]. split.
    + by apply (check_from_wider a' a).
    + by destruct to_date'.
  - destruct to_date' as [b'|]; [|done].
    destruct (EntityModel.date_truthy to_date) eqn:Htn; [|done].
    destruct to_date as [b|]; [|done].
    rewrite andb_false_r.
    destruct (EntityModel.dateless e); [done|].
    rewrite !andb_true_iff. intros [Hb He]. split.
    + by destruct from_date'.
    + by apply (check_to_wider b' b).
Qed.

Lemma search_candidates_same_query form form' user_id w :
  same_query form form' →
  search_candidates form user_id w = search_candidates form' user_id w.
Proof.
  intros (Hterm & Hown & Hdesc & Hclasses & _).
  unfold search_candidates, search_rows, EntityModel.sql_search.
  by rewrite <- Hterm, <- Hown, <- Hdesc, <- Hclasses.
Qed.

(** X9: widening the date range never loses a result: of two searches
    that differ in their dates only, when the narrower one returns, the
    one whose from-date in force is earlier (or absent) and whose
    to-date in force is later (or absent) returns every entity the
    narrower one returns.  A date is in force when the code takes it for
    a date: it is given and is not 1970-01-01. *)
Theorem search_wider_dates (narrow wide : SearchForm.t) (user_id : Z) (w w1 : World)
    (result : list Entity) :
  primary_key w →
  same_query narrow wide →
  from_wider (in_force (from_date_of wide)) (in_force (from_date_of narrow)) →
  to_wider (in_force (to_date_of wide)) (in_force (to_date_of narrow)) →
  EntityModel.search narrow user_id w = (Ok result, w1) →
  ∃ result',
    EntityModel.search wide user_id w = (Ok result', w)
    ∧ ∀ e, e ∈ result → e ∈ result'.
Proof.
  intros Hpk Hsame Hfrom Hto Hrun.
  destruct (decide (SearchForm.term narrow = "")) as [Hterm|Hterm].
  { unfold EntityModel.search in *. destruct Hsame as (<- & _).
    rewrite Hterm in *. cbn in *. injection Hrun as <- <-. by exists []. }
  pose proof (search_outcome narrow user_id w) as [_ Hout].
  rewrite Hrun in Hout. cbn [fst] in Hout. destruct Hout as [Hrows _].
  assert (SearchForm.classes narrow ≠ []) as Hclasses.
  { intros Hc. unfold EntityModel.search, bind, EntityModel.sql_search in Hrun.
    rewrite Hc in Hrun. apply String.eqb_neq in Hterm. by rewrite Hterm in Hrun. }
  unfold search_candidates in Hrows.
  rewrite (proj2 (String.eqb_neq _ _) Hterm) in Hrows.
  destruct (search_elem_of narrow user_id w Hpk Hclasses Hrows) as (r & Hrun' & Hres).
  rewrite Hrun in Hrun'. injection Hrun' as <- _.
  assert (search_rows wide user_id w = search_rows narrow user_id w) as Hsame_rows.
  { pose proof (search_candidates_same_query narrow wide user_id w Hsame) as Hc.
    unfold search_candidates in Hc. destruct Hsame as (Ht & _). rewrite <- Ht in Hc.
    by rewrite (proj2 (String.eqb_neq _ _) Hterm) in Hc. }
  destruct (search_elem_of wide user_id w Hpk) as (result' & Hrunw & Hresw).
  { destruct Hsame as (_ & _ & _ & <- & _). done. }
  { by rewrite Hsame_rows. }
  exists result'. split; [done|].
  intros e. rewrite Hres, Hresw. intros [Hc Hd]. split.
  - by rewrite <- (search_candidates_same_query narrow wide).
  - destruct Hsame as (_ & _ & _ & _ & <-). by eapply date_filter_wider.
Qed.

Lemma elem_of_dates_in_force e d :
  d ∈ dates_in_force e
  ↔ Some d ∈ [begin_from e; begin_to e; end_from e; end_to e] ∧ d ≠ 0.
Proof.
  unfold dates_in_force. rewrite list_elem_of_omap. split.
  - intros ([c|] & Hc & Hd); unfold in_force in Hd; cbn in Hd; [|done].
    destruct (c =? 0) eqn:E; cbn in Hd; [done|].
    injection Hd as ->. split; [done|by apply Z.eqb_neq].
  - intros [Hd Hne]. exists (Some d). split; [done|].
    unfold in_force. cbn. apply Z.eqb_neq in Hne. by rewrite Hne.
Qed.

Lemma in_force_None d : in_force d = None ↔ EntityModel.date_truthy d = false.
Proof.
  unfold in_force. destruct d as [c|]; cbn; [|done].
  destruct (c =? 0); cbn; split; done.
Qed.

Lemma dateless_dates_in_force e :
  EntityModel.dateless e = true ↔ dates_in_force e = [].
Proof.
  unfold EntityModel.dateless, dates_in_force.
  rewrite !andb_true_iff, !negb_true_iff, <- !in_force_None.
  cbn [omap list_omap].
  destruct (in_force (begin_from e)), (in_force (begin_to e)),
    (in_force (end_from e)), (in_force (end_to e)); cbn; split;
    (done || (intros (((? & ?) & ?) & ?); done)).
Qed.

(** The date test of the loop when a date criterion is in force. *)
Lemma date_filter_in_force include_dateless from_date to_date e :
  is_Some (in_force from_date) ∨ is_Some (in_force to_date) →
  date_filter include_dateless from_date to_date e
  = if EntityModel.dateless e then include_dateless
    else match in_force from_date with
         | Some a => EntityModel.check_from a
                       [begin_from e; begin_to e; end_from e; end_to e] false
         | None => true
         end
         && match in_force to_date with
            | Some b => EntityModel.check_to b
                          [begin_from e; begin_to e; end_from e; end_to e] false
            | None => true
            end.
Proof.
  intros Hcrit. unfold date_filter, in_force in *.
  destruct from_date as [a|], to_date as [b|]; cbn in *;
    try destruct (a =? 0); try destruct (b =? 0); cbn in *;
    try done; destruct Hcrit as [[? [=]]|[? [=]]].
Qed.

(** X25: a search that asks for no alias class and has a from-date or a
    to-date in force (a date other than 1970-01-01, which the code takes
    for no date; the same holds for the dates of an entity).  Of the
    rows the statement fetched, one with a date is returned exactly when
    one of its dates is not before the from-date, if that is in force,
    and one of its dates is not after the to-date, if that is in force;
    one without a date is returned exactly when [include_dateless] is
    set. *)
Theorem search_date_criteria (form : SearchForm.t) (user_id : Z) (w : World) :
  primary_key w →
  SearchForm.classes form ≠ [] →
  no_alias_class form →
  is_Some (in_force (from_date_of form)) ∨ is_Some (in_force (to_date_of form)) →
  ∃ result,
    EntityModel.search form user_id w = (Ok result, w) ∧
    ∀ e, e ∈ search_candidates form user_id w →
      (dates_in_force e ≠ [] →
       e ∈ result
       ↔ (∀ a, in_force (from_date_of form) = Some a →
               ∃ d, d ∈ dates_in_force e ∧ a ≤ d)
         ∧ (∀ b, in_force (to_date_of form) = Some b →
                 ∃ d, d ∈ dates_in_force e ∧ d ≤ b))
      ∧ (dates_in_force e = [] →
         e ∈ result ↔ SearchForm.include_dateless form = true).
Proof.
  intros Hpk Hclasses Halias Hcrit.
  destruct (search_elem_of form user_id w Hpk Hclasses) as (result & Hrun & Hres).
  { by apply search_rows_no_alias. }
  exists result. split; [done|]. intros e He.
  rewrite Hres, date_filter_in_force by done.
  split.
  - intros Hdates.
    destruct (EntityModel.dateless e) eqn:Hnone.
    { by apply dateless_dates_in_force in Hnone. }
    rewrite andb_true_iff. split.
    + intros [_ [Hfrom Hto]]. split.
      * intros a Ha. rewrite Ha in Hfrom.
        apply check_from_true in Hfrom as [?|(d & Hd & Hne & Hle)]; [done|].
        exists d. by rewrite elem_of_dates_in_force.
      * intros b Hb. rewrite Hb in Hto.
        apply check_to_true in Hto as [?|(d & Hd & Hne & Hle)]; [done|].
        exists d. by rewrite elem_of_dates_in_force.
    + intros [Hfrom Hto]. split; [done|]. split.
      * destruct (in_force (from_date_of form)) as [a|]; [|done].
        destruct (Hfrom a eq_refl) as (d & Hd & Hle).
        apply elem_of_dates_in_force in Hd as [Hd Hne].
        apply check_from_true. right. by exists d.
      * destruct (in_force (to_date_of form)) as [b|]; [|done].
        destruct (Hto b eq_refl) as (d & Hd & Hle).
        apply elem_of_dates_in_force in Hd as [Hd Hne].
        apply check_to_true. right. by exists d.
  - intros Hdates. apply dateless_dates_in_force in Hdates. rewrite Hdates. tauto.
Qed.

End entity_more_theorems.

(** ** models/entity.py: further properties of [get_similar_named] *)

Section similar_more_theorems.
Context {F : EntityForeign}.

(** What [get_similar_named] returns, with the invariant of its loops. *)
Lemma get_similar_named_inv (form : SimilarForm.t) (w : World) :
  primary_key w →
  codes_list (SimilarForm.classes form) ≠ [] →
  ∃ (entities : list Entity) (similar : gmap Z (Entity * list Entity)) already_added,
    EntityModel.get_by_class (SimilarForm.classes form) w = (Ok entities, w)
    ∧ NoDup (id <$> entities)
    ∧ EntityModel.get_similar_named form w
      = (Ok (filter (λ kv : Z * (Entity * list Entity), kv.2.2 ≠ []) similar), w)
    ∧ similar_inv (SimilarForm.ratio form) entities entities similar already_added.
Proof.
  intros Hpk Hclasses.
  destruct (get_by_class_spec (SimilarForm.classes form) w Hclasses)
    as (entities & Hrun & Hnd & _).
  specialize (Hnd Hpk).
  pose proof (similar_outer_inv (SimilarForm.ratio form) entities Hnd entities [] ∅ ∅
                eq_refl) as Hinv.
  destruct (EntityModel.similar_outer (SimilarForm.ratio form) entities entities ∅ ∅)
    as [similar already] eqn:Hloop.
  cbn [fst snd] in Hinv.
  exists entities, similar, already. split; [done|]. split; [done|]. split.
  { unfold EntityModel.get_similar_named, bind. rewrite Hrun. cbv zeta. by rewrite Hloop. }
  apply Hinv. split; [|split].
  - intros k data Hk. by rewrite lookup_empty in Hk.
  - intros x. split; [by intros ?%not_elem_of_empty|].
    intros (k & data & Hk & _). by rewrite lookup_empty in Hk.
  - intros p1 s p2 Hnil. by destruct p1.
Qed.

Lemma similar_to_not_self ratio_data entities sample : sample ∉ similar_to ratio_data entities sample.
Proof. unfold similar_to. rewrite list_elem_of_filter. tauto. Qed.

(** X10: every entry of the dictionary [get_similar_named] returns is
    keyed by the id of its sample, a row of the class; its group is the
    list of all entities of the class with another id and a ratio of at
    least the threshold, in the order of the rows; the group is not empty
    and does not hold the sample. *)
Theorem similar_named_entries (form : SimilarForm.t) (w : World) :
  primary_key w →
  codes_list (SimilarForm.classes form) ≠ [] →
  ∃ (entities : list Entity) (similar : gmap Z (Entity * list Entity)),
    EntityModel.get_by_class (SimilarForm.classes form) w = (Ok entities, w)
    ∧ EntityModel.get_similar_named form w = (Ok similar, w)
    ∧ ∀ k sample group,
        similar !! k = Some (sample, group) →
        sample ∈ entities ∧ id sample = k
        ∧ group = similar_to (SimilarForm.ratio form) entities sample
        ∧ group ≠ [] ∧ sample ∉ group.
Proof.
  intros Hpk Hclasses.
  destruct (get_similar_named_inv form w Hpk Hclasses)
    as (entities & similar & already & Hclass & Hnd & Hrun & Hval & _ & _).
  eexists entities, _. split; [done|]. split; [exact Hrun|].
  intros k sample group Hlook.
  apply map_lookup_filter_Some in Hlook as [Hlook Hne]. cbn in Hne.
  destruct (Hval _ _ Hlook) as (Hin & Hid & Hgroup). cbn in Hin, Hid, Hgroup.
  repeat split; try done. rewrite Hgroup. apply similar_to_not_self.
Qed.

(** X11: no similar pair is left out: an entity of the class that has
    some other entity of the class with a ratio of at least the threshold
    is a sample of the returned dictionary or a member of the group of an
    earlier sample. *)
Theorem similar_named_covers (form : SimilarForm.t) (w : World) :
  primary_key w →
  codes_list (SimilarForm.classes form) ≠ [] →
  ∃ (entities : list Entity) (similar : gmap Z (Entity * list Entity)),
    EntityModel.get_by_class (SimilarForm.classes form) w = (Ok entities, w)
    ∧ EntityModel.get_similar_named form w = (Ok similar, w)
    ∧ ∀ a b,
        a ∈ entities → b ∈ entities → a ≠ b →
        SimilarForm.ratio form ≤ fuzz_ratio (name a) (name b) →
        (∃ group, similar !! id a = Some (a, group) ∧ b ∈ group)
        ∨ (∃ s group, earlier entities s a ∧ similar !! id s = Some (s, group) ∧ a ∈ group).
Proof.
  intros Hpk Hclasses.
  destruct (get_similar_named_inv form w Hpk Hclasses)
    as (entities & similar & already & Hclass & Hnd & Hrun & Hval & _ & Hhist).
  eexists entities, _. split; [done|]. split; [exact Hrun|].
  intros a b Ha Hb Hab Hratio.
  assert (id a ≠ id b) as Hid.
  { intros Hid. apply Hab. by apply (primary_key_inj entities). }
  destruct (list_elem_of_split _ _ Ha) as (p1 & p2 & Hsplit).
  destruct (similar !! id a) as [[a' group]|] eqn:Hlook.
  - left. destruct (Hval _ _ Hlook) as (Ha' & Hida & Hgroup). cbn in Ha', Hida, Hgroup.
    assert (a' = a) as -> by (by apply (primary_key_inj entities)).
    assert (b ∈ group) as Hin.
    { rewrite Hgroup. by apply list_elem_of_filter. }
    exists group. split; [|done].
    apply map_lookup_filter_Some. split; [done|]. cbn.
    intros ->. by apply elem_of_nil in Hin.
  - right.
    assert (Decision (Exists (λ t, ∃ g, similar !! id t = Some (t, g) ∧ a ∈ g) p1)) as Hdec.
    { apply Exists_dec. intros t.
      destruct (similar !! id t) as [[t' g]|].
      - destruct (decide (t' = t ∧ a ∈ g)) as [[-> ?]|Hn].
        + left. by exists g.
        + right. intros (g' & [= -> ->] & ?). by apply Hn.
      - right. by intros (g' & ? & _). }
    destruct Hdec as [Hex|Hnex].
    + apply Exists_exists in Hex as (t & Ht & g & Htg & Hag).
      exists t, g. split; [|split; [|done]].
      * destruct (list_elem_of_split _ _ Ht) as (l1 & l2 & ->).
        exists l1, l2, p2. by rewrite Hsplit, <- app_assoc.
      * apply map_lookup_filter_Some. split; [done|]. cbn.
        intros ->. by apply elem_of_nil in Hag.
    + exfalso.
      assert (is_Some (similar !! id a)) as [? Hsome]; [|by rewrite Hlook in Hsome].
      apply (Hhist p1 a p2 Hsplit).
      intros (t & g & Ht & Htg & Hag). apply Hnex, Exists_exists.
      exists t. split; [done|]. by exists g.
Qed.

(** X12: when the ratio does not depend on the order of the two names,
    no member of a group is itself a sample of the returned dictionary:
    the groups do not chain. *)
Theorem similar_named_members_are_no_samples (form : SimilarForm.t) (w : World) :
  primary_key w →
  codes_list (SimilarForm.classes form) ≠ [] →
  (∀ x y, fuzz_ratio x y = fuzz_ratio y x) →
  ∃ similar : gmap Z (Entity * list Entity),
    EntityModel.get_similar_named form w = (Ok similar, w)
    ∧ ∀ k sample group b,
        similar !! k = Some (sample, group) → b ∈ group → similar !! id b = None.
Proof.
  intros Hpk Hclasses Hsym.
  destruct (get_similar_named_inv form w Hpk Hclasses)
    as (entities & similar & already & Hclass & Hnd & Hrun & Hval & _ & Hhist).
  eexists. split; [exact Hrun|].
  intros k a group b Hlook Hin.
  apply map_lookup_filter_Some in Hlook as [Hlook _].
  destruct (Hval _ _ Hlook) as (Ha & Hida & Hgroup). cbn in Ha, Hida, Hgroup. subst k.
  rewrite Hgroup in Hin.
  pose proof Hin as Hin'.
  apply list_elem_of_filter in Hin' as [[Hid Hratio] Hb].
  apply map_lookup_filter_None.
  destruct (similar !! id b) as [[b' group_b]|] eqn:Hlookb; [|by left].
  exfalso.
  destruct (Hval _ _ Hlookb) as (Hb' & Hidb & Hgroupb). cbn in Hb', Hidb, Hgroupb.
  assert (b' = b) as -> by (by apply (primary_key_inj entities)).
  assert (a ∈ group_b) as Hina.
  { rewrite Hgroupb. apply list_elem_of_filter. rewrite Hsym. split; [|done].
    split; [congruence|done]. }
  destruct (list_elem_of_split _ _ Ha) as (p1 & p2 & Hsplit).
  assert (b ∈ p1 ∨ b ∈ p2) as [Hb1|Hb2].
  { rewrite Hsplit in Hb. apply elem_of_app in Hb as [?|Hb]; [by left|].
    apply elem_of_cons in Hb as [->|?]; [done|by right]. }
  - (* b stands before a: a is in the group of the earlier sample b *)
    apply (Hhist p1 a p2 Hsplit); [by eexists|].
    by exists b, group_b.
  - (* a stands before b: b is in the group of the earlier sample a *)
    destruct (list_elem_of_split _ _ Hb2) as (l1 & l2 & ->).
    assert (entities = (p1 ++ a :: l1) ++ b :: l2) as Hsplit'
      by (by rewrite Hsplit, <- app_assoc).
    apply (Hhist _ b l2 Hsplit'); [by eexists|].
    exists a, group. split; [|split; [done|by rewrite Hgroup]].
    apply elem_of_app. right. apply elem_of_cons. by left.
Qed.

End similar_more_theorems.

(** ** models/entity.py: [get_by_id], [get_circular] and [get_orphans] *)

Section lookup_theorems.

Lemma get_by_id_known g w id_ :
  known_id g w id_ →
  ∃ e, EntityModel.get_by_id g id_ w = (Ok e, w)
       ∧ (caches_keyed_by_id g → id e = id_).
Proof.
  intros Hknown. unfold EntityModel.get_by_id.
  destruct (nodes g !! id_) as [node|] eqn:Hn.
  { exists node. split; [done|]. intros [Hk _]. by apply (Hk _ _ Hn). }
  destruct (reference_systems g !! id_) as [system|] eqn:Hr.
  { exists system. split; [done|]. intros [_ Hk]. by apply (Hk _ _ Hr). }
  destruct Hknown as [[? ?]|[[? ?]|Hin]]; [congruence|congruence|].
  destruct (List.find _ _) as [row|] eqn:Hf.
  - exists row. split; [done|]. intros _.
    apply find_some in Hf as [_ Hrow]. by apply bool_decide_eq_true in Hrow.
  - exfalso. apply list_elem_of_fmap in Hin as (e & -> & He).
    assert (bool_decide (id e = id e) = false) as Hb.
    { apply (find_none _ _ Hf e). by apply list_elem_of_In. }
    by rewrite bool_decide_eq_true_2 in Hb.
Qed.

Lemma get_by_id_unknown g w id_ :
  ¬ known_id g w id_ →
  EntityModel.get_by_id g id_ w = (Raise (not_found g), w).
Proof.
  intros Hknown. unfold EntityModel.get_by_id, not_found, known_id in *.
  destruct (nodes g !! id_) eqn:Hn; [exfalso; apply Hknown; by left|].
  destruct (reference_systems g !! id_) eqn:Hr; [exfalso; apply Hknown; right; by left|].
  destruct (List.find _ _) as [row|] eqn:Hf.
  - exfalso. apply Hknown. right. right.
    apply find_some in Hf as [Hin Hrow]. apply bool_decide_eq_true in Hrow. subst id_.
    apply list_elem_of_fmap_2. by apply list_elem_of_In.
  - by destruct (str_in _ _).
Qed.

Lemma get_each_known g w ids :
  Forall (known_id g w) ids →
  ∃ l, EntityModel.get_each g ids w = (Ok l, w)
       ∧ length l = length ids
       ∧ (caches_keyed_by_id g → id <$> l = ids).
Proof.
  induction 1 as [|id_ ids Hid _ (l & Hrun & Hlen & Hids)].
  - by exists [].
  - destruct (get_by_id_known g w id_ Hid) as (e & Hget & He).
    exists (e :: l). cbn [EntityModel.get_each]. unfold bind. rewrite Hget, Hrun.
    split; [done|]. split; [by cbn; rewrite Hlen|].
    intros Hk. by rewrite fmap_cons, He, Hids.
Qed.

Lemma get_each_unknown g w ids :
  ¬ Forall (known_id g w) ids →
  EntityModel.get_each g ids w = (Raise (not_found g), w).
Proof.
  induction ids as [|id_ ids IH]; intros Hnot.
  - exfalso. apply Hnot, Forall_nil_2.
  - cbn [EntityModel.get_each]. unfold bind.
    destruct (decide (known_id g w id_)) as [Hid|Hid].
    + destruct (get_by_id_known g w id_ Hid) as (e & -> & _).
      rewrite IH; [done|]. intros Hall. apply Hnot. by apply Forall_cons_2.
    + by rewrite get_by_id_unknown.
Qed.

(** X24: [get_by_id] never changes the store; for an id that is cached
    or the id of a row it returns an entity: the cached node first, then
    the cached reference system, and only for an id in neither cache a
    row of the table with that id; for any other id it raises,
    [abort(418)] or, on a path containing 'activity', [AttributeError]. *)
Theorem get_by_id_outcome (g : G) (id_ : Z) (w : World) :
  (known_id g w id_ →
   ∃ e, EntityModel.get_by_id g id_ w = (Ok e, w)
        ∧ (∀ node, nodes g !! id_ = Some node → e = node)
        ∧ (∀ system, nodes g !! id_ = None →
                     reference_systems g !! id_ = Some system → e = system)
        ∧ (nodes g !! id_ = None → reference_systems g !! id_ = None →
           e ∈ entity_table w ∧ id e = id_))
  ∧ (¬ known_id g w id_ →
     EntityModel.get_by_id g id_ w = (Raise (not_found g), w)).
Proof.
  split; [|apply get_by_id_unknown].
  intros Hknown. destruct (get_by_id_known g w id_ Hknown) as (e & Hrun & _).
  exists e. split; [done|].
  unfold EntityModel.get_by_id in Hrun.
  destruct (nodes g !! id_) as [node|].
  { injection Hrun as <-. repeat split; by try intros ? [= <-]. }
  destruct (reference_systems g !! id_) as [system|].
  { injection Hrun as <-. repeat split; by try intros ? ? [= <-]. }
  split; [done|]. split; [done|]. intros _ _.
  destruct (List.find _ _) as [row|] eqn:Hf; [|by destruct (str_in _ _)].
  injection Hrun as <-. apply find_some in Hf as [Hin Hrow].
  split; [by apply list_elem_of_In|]. by apply bool_decide_eq_true in Hrow.
Qed.

(** X13: [get_circular] reads only; it returns one entity for each link
    row whose domain is its range, in the order of the rows (an entity
    with two such rows comes twice), each with the id of its row when the
    caches are keyed by id; when one of these ids is not found it returns
    no list but raises what [get_by_id] raises, [abort(418)] off the
    activity view. *)
Theorem get_circular_one_per_self_link (g : G) (w : World) :
  (Forall (known_id g w) (circular_ids w) →
   ∃ l, EntityModel.get_circular g w = (Ok l, w)
        ∧ length l = length (circular_ids w)
        ∧ (caches_keyed_by_id g → id <$> l = circular_ids w))
  ∧ (¬ Forall (known_id g w) (circular_ids w) →
     EntityModel.get_circular g w = (Raise (not_found g), w)).
Proof.
  unfold EntityModel.get_circular, bind, gets. fold (circular_ids w). split.
  - apply get_each_known.
  - apply get_each_unknown.
Qed.

End lookup_theorems.

Section orphan_theorems.
Context {F : LinkForeign} (env : Env).

(** X14: linking takes entities off the list of orphans: after [insert]
    has linked a domain to a range, [get_orphans] (with caches keyed by
    id) returns neither the range nor, when the range is no type (class
    E55), the domain. *)
Theorem linked_entities_are_no_orphans (g : G) (domain range_ : Entity)
    (property_code_ : string) (description_ : option string) (new_id : Z)
    (w w1 w2 : World) (orphans : list Entity) :
  caches_keyed_by_id g →
  LinkMapper.insert env (VEntity domain) property_code_ (VEntity range_) description_ w
  = (Ok (Some new_id), w1) →
  EntityModel.get_orphans g w1 = (Ok orphans, w2) →
  ∀ e, e ∈ orphans →
       id e ≠ id range_
       ∧ ((∀ t, t ∈ entity_table w → id t = id range_ → class_code t ≠ "E55") →
          id e ≠ id domain).
Proof.
  intros Hkeyed Hins Horph e He.
  destruct (insert_single_success env domain property_code_ range_ description_ new_id w w1 Hins)
    as (Htable & row & Hrow & _ & Hdom & Hran).
  unfold EntityModel.get_orphans, bind, gets in Horph.
  destruct (decide (Forall (known_id g w1) (EntityModel.sql_orphan w1))) as [Hall|Hnot].
  2:{ by rewrite get_each_unknown in Horph. }
  destruct (get_each_known g w1 _ Hall) as (l & Hrun & _ & Hids).
  rewrite Hrun in Horph. injection Horph as -> _.
  assert (id e ∈ EntityModel.sql_orphan w1) as Hin.
  { rewrite <- (Hids Hkeyed). by apply list_elem_of_fmap_2. }
  unfold EntityModel.sql_orphan in Hin.
  apply list_elem_of_fmap in Hin as (x & Hid & Hx).
  apply list_elem_of_filter in Hx as [(Hout & Hinc & _) _].
  rewrite Forall_forall in Hout, Hinc.
  split.
  - rewrite Hid, <- Hran. by apply Hinc.
  - intros Htype Heq. apply (Hout row Hrow). split; [congruence|].
    rewrite Hran. intros Hty.
    apply list_elem_of_fmap in Hty as (t & Hidt & Ht).
    apply list_elem_of_filter in Ht as [Hclass Ht].
    rewrite Htable in Ht. by apply (Htype t Ht).
Qed.

End orphan_theorems.

(** ** util/util.py: [is_authorized] as an order, [required_group],
       [sanitize] and [truncate] *)

(** [is_authorized] spelled out: the user is logged in, has a group, and
    the group covers the requested one. *)
Lemma is_authorized_cases (current_user : User) (group_ : string) :
  Util.is_authorized current_user group_ = true
  ↔ is_authenticated current_user = true
    ∧ ∃ user_group, group current_user = Some user_group ∧ group_covers user_group group_.
Proof.
  unfold Util.is_authorized, group_covers.
  destruct (is_authenticated current_user); cbn [negb]; [|split; [done|by intros [? _]]].
  destruct (group current_user) as [user_group|]; [|split; [done|by intros (_ & ? & ? & _)]].
  destruct (_ || _) eqn:Hb.
  - split; [intros _|done]. split; [done|]. exists user_group. split; [done|].
    rewrite !orb_true_iff, !andb_true_iff, !bool_decide_eq_true in Hb. tauto.
  - split; [done|]. intros (_ & ug & [= <-] & Hcases). exfalso.
    apply not_true_iff_false in Hb. apply Hb.
    rewrite !orb_true_iff, !andb_true_iff, !bool_decide_eq_true. tauto.
Qed.

Lemma group_covers_trans (user_group group_ lower : string) :
  group_covers user_group group_ → group_covers group_ lower →
  group_covers user_group lower.
Proof.
  unfold group_covers. rewrite !elem_of_cons, !elem_of_nil.
  intros Hu Hg.
  destruct Hu as [Hu|Hu]; [by left|]. right.
  repeat match goal with
         | H : _ ∨ _ |- _ => destruct H
         | H : _ ∧ _ |- _ => destruct H
         | H : False |- _ => destruct H
         end; subst; try discriminate; tauto.
Qed.

(** X15: authorization is transitive: a user authorized for a group is
    authorized for everything a user of that group is authorized for. *)
Theorem is_authorized_transitive (current_user : User) (group_ lower : string) :
  Util.is_authorized current_user group_ = true →
  Util.is_authorized (user_of_group group_) lower = true →
  Util.is_authorized current_user lower = true.
Proof.
  rewrite !is_authorized_cases. cbn [is_authenticated group user_of_group].
  intros (Hauth & user_group & Huser & Hcovers) (_ & g & [= <-] & Hlower).
  split; [done|]. exists user_group. split; [done|].
  by apply (group_covers_trans user_group group_ lower).
Qed.

(** X16: a view behind [required_group] runs for authorized users only:
    a request that is not authorized leaves the store untouched and is
    answered with the redirect to the login (not logged in) or with 403;
    an authorized one gets the view's own outcome; and whoever is
    authorized for the group of an admitted user is admitted as well. *)
Theorem required_group_guard {S A} (current_user other : User) (path group_ : string)
    (f : M S A) (s : S) :
  (Util.is_authorized current_user group_ = false →
   Util.required_group current_user path group_ f s
   = (if is_authenticated current_user then Raise (HTTPException 403)
      else Ok (Util.Redirect "login" path), s))
  ∧ (Util.is_authorized current_user group_ = true →
     Util.required_group current_user path group_ f s
     = match f s with
       | (Ok a, s') => (Ok (Util.Returned a), s')
       | (Raise e, s') => (Raise e, s')
       end)
  ∧ (∀ user_group,
       group current_user = Some user_group →
       Util.is_authorized current_user group_ = true →
       Util.is_authorized other user_group = true →
       Util.required_group other path group_ f s
       = Util.required_group current_user path group_ f s).
Proof.
  assert (∀ u, Util.is_authorized u group_ = true →
               Util.required_group u path group_ f s
               = match f s with
                 | (Ok a, s') => (Ok (Util.Returned a), s')
                 | (Raise e, s') => (Raise e, s')
                 end) as Hadmit.
  { intros u Hu. unfold Util.required_group. rewrite Hu.
    apply is_authorized_cases in Hu as [-> _]. cbn. unfold bind.
    by destruct (f s) as [[a|e] s']. }
  split; [|split].
  - intros Hno. unfold Util.required_group. rewrite Hno.
    by destruct (is_authenticated current_user).
  - apply Hadmit.
  - intros user_group Hgroup Hu Hother.
    rewrite (Hadmit _ Hu). apply Hadmit.
    apply is_authorized_cases in Hu as (_ & ug & Hug & Hcovers).
    rewrite Hgroup in Hug. injection Hug as <-.
    apply is_authorized_cases in Hother as (Hauth & og & Hog & Hother).
    apply is_authorized_cases. split; [done|]. exists og. split; [done|].
    by apply (group_covers_trans og user_group group_).
Qed.

Section sanitize_theorems.
Context {U : UtilForeign}.

Lemma keep_alnum_Forall s :
  Forall (λ c, Util.ascii_alnum c = true) (String.list_ascii_of_string (Util.keep_alnum s)).
Proof.
  induction s as [|c s IH]; cbn [Util.keep_alnum]; [apply Forall_nil_2|].
  destruct (Util.ascii_alnum c) eqn:Hc; [|done].
  cbn [String.list_ascii_of_string]. by apply Forall_cons_2.
Qed.

Lemma keep_alnum_id s :
  Forall (λ c, Util.ascii_alnum c = true) (String.list_ascii_of_string s) →
  Util.keep_alnum s = s.
Proof.
  induction s as [|c s IH]; [done|].
  cbn [String.list_ascii_of_string Util.keep_alnum]. intros [Hc Hs]%Forall_cons_1.
  by rewrite Hc, IH.
Qed.

Lemma keep_alnum_length s : (String.length (Util.keep_alnum s) ≤ String.length s)%nat.
Proof.
  induction s as [|c s IH]; [done|]. cbn [Util.keep_alnum].
  destruct (Util.ascii_alnum c); cbn [String.length]; lia.
Qed.

(** X17: in its default mode (neither 'node' nor 'text') [sanitize]
    returns ASCII letters and digits only, never more characters than it
    was given; it leaves a string of letters and digits as it is, and
    sanitizing twice is sanitizing once. *)
Theorem sanitize_default_mode (s : string) (mode : option string) :
  mode ≠ Some "node" →
  mode ≠ Some "text" →
  Forall (λ c, Util.ascii_alnum c = true)
    (String.list_ascii_of_string (Util.sanitize (Some s) mode))
  ∧ (String.length (Util.sanitize (Some s) mode) ≤ String.length s)%nat
  ∧ (Forall (λ c, Util.ascii_alnum c = true) (String.list_ascii_of_string s) →
     Util.sanitize (Some s) mode = s)
  ∧ Util.sanitize (Some (Util.sanitize (Some s) mode)) mode = Util.sanitize (Some s) mode.
Proof.
  intros Hnode Htext.
  assert (∀ x, Util.sanitize (Some x) mode = Util.keep_alnum x) as Hdef.
  { intros x. unfold Util.sanitize.
    rewrite (bool_decide_eq_false_2 _ Hnode), (bool_decide_eq_false_2 _ Htext).
    destruct (String.eqb x "") eqn:Hx; [|done].
    apply String.eqb_eq in Hx. by subst x. }
  rewrite !Hdef. split; [apply keep_alnum_Forall|]. split; [apply keep_alnum_length|].
  split; [apply keep_alnum_id|]. apply keep_alnum_id, keep_alnum_Forall.
Qed.

End sanitize_theorems.

(** X18: [truncate] without the span, for a length that is not negative
    (characters are code points, as Python's [len] and slices count
    them): a string of at most [length] characters is returned as it is;
    the result has at most [length + 2] characters and begins with the
    same [length] characters as the string; truncating the result again
    changes nothing. *)
Theorem truncate_without_span (s : Util.str) (length_ : Z) :
  0 ≤ length_ →
  let result := Util.truncate (Some s) length_ false in
  (Z.of_nat (length s) ≤ length_ → result = s)
  ∧ Z.of_nat (length result) ≤ length_ + 2
  ∧ Util.slice_to result length_ = Util.slice_to s length_
  ∧ Util.truncate (Some result) length_ false = result.
Proof.
  intros Hlen. cbv zeta. unfold Util.truncate, Util.slice_to. cbn [negb].
  rewrite (proj2 (Z.leb_le 0 length_) Hlen).
  destruct (Z.of_nat (length s) <? length_ + 1) eqn:Hshort.
  - rewrite Hshort. apply Z.ltb_lt in Hshort.
    repeat split; try done. lia.
  - apply Z.ltb_ge in Hshort.
    assert (length (take (Z.to_nat length_) s) = Z.to_nat length_) as Htake
      by (rewrite length_take; lia).
    assert (length (take (Z.to_nat length_) s ++ Util.literal "..")
            = (Z.to_nat length_ + 2)%nat) as Hres.
    { by rewrite length_app, Htake. }
    assert (take (Z.to_nat length_) (take (Z.to_nat length_) s ++ Util.literal "..")
            = take (Z.to_nat length_) s) as Hprefix.
    { rewrite take_app_le by lia. apply take_ge. lia. }
    rewrite Hres, Hprefix.
    split; [lia|]. split; [lia|]. split; [done|].
    destruct (_ <? _) eqn:Hagain; [|done].
    apply Z.ltb_lt in Hagain. lia.
Qed.

(** ** models/entity.py: [get_name_directed] *)

Section name_theorems.
Context {U : UtilForeign}.

Lemma prefix_cons a s1 b s2 :
  String.prefix (String a s1) (String b s2)
  = if Ascii.ascii_dec a b then String.prefix s1 s2 else false.
Proof. done. Qed.

Lemma append_nil_l t : "" +:+ t = t.
Proof. done. Qed.

Lemma append_cons c s t : String c s +:+ t = String c (s +:+ t).
Proof. done. Qed.

Lemma prefix_empty s : String.prefix "" s = true.
Proof. by destruct s. Qed.

Lemma str_in_cons sub c rest :
  str_in sub (String c rest) = String.prefix sub (String c rest) || str_in sub rest.
Proof. done. Qed.

Lemma split_open_cons c rest :
  EntityName.split_open (String c rest)
  = if String.prefix " (" (String c rest)
    then EmptyString :: match rest with
                        | String _ rest' => EntityName.split_open rest'
                        | EmptyString => [EmptyString]
                        end
    else match EntityName.split_open rest with
         | part :: parts => String c part :: parts
         | [] => [String c EmptyString]
         end.
Proof. done. Qed.

Lemma split_open_head s : ∃ part parts, EntityName.split_open s = part :: parts.
Proof.
  destruct s as [|c rest]; [by eexists _, _|].
  rewrite split_open_cons. destruct (String.prefix _ _); [by eexists _, _|].
  destruct (EntityName.split_open rest); by eexists _, _.
Qed.

(** The first part of the split: what stands before the first ' ('. *)
Lemma first_part_cons c rest :
  default "" (EntityName.split_open (String c rest) !! 0%nat)
  = if String.prefix " (" (String c rest) then ""
    else String c (default "" (EntityName.split_open rest !! 0%nat)).
Proof.
  rewrite split_open_cons. destruct (String.prefix _ _); [done|].
  by destruct (split_open_head rest) as (part & parts & ->).
Qed.

Lemma prefix_paren_first_part rest :
  String.prefix "(" (default "" (EntityName.split_open rest !! 0%nat))
  = true → String.prefix "(" rest = true.
Proof.
  destruct rest as [|c rest]; [done|].
  rewrite first_part_cons. destruct (String.prefix " (" _); [by cbn|].
  rewrite !prefix_cons. destruct (Ascii.ascii_dec _ _); [|done].
  by rewrite !prefix_empty.
Qed.

Lemma first_part_prefix s :
  ∃ rest, s = default "" (EntityName.split_open s !! 0%nat) +:+ rest.
Proof.
  induction s as [|c s [rest IH]]; [by exists ""|].
  rewrite first_part_cons. destruct (String.prefix " (" _); [by eexists|].
  exists rest. by rewrite append_cons, <- IH.
Qed.

Lemma first_part_no_separator s :
  str_in " (" (default "" (EntityName.split_open s !! 0%nat)) = false.
Proof.
  induction s as [|c s IH]; [done|].
  rewrite first_part_cons. destruct (String.prefix " (" (String c s)) eqn:Hp; [done|].
  rewrite str_in_cons, IH, orb_false_r.
  rewrite prefix_cons in Hp |- *.
  destruct (Ascii.ascii_dec _ c); [|done].
  destruct (String.prefix "(" (default "" _)) eqn:Hq; [|done].
  apply prefix_paren_first_part in Hq. congruence.
Qed.

Lemma split_open_no_separator s :
  str_in " (" s = false → EntityName.split_open s = [s].
Proof.
  induction s as [|c s IH]; [done|].
  rewrite str_in_cons, orb_false_iff. intros [Hp Hs].
  by rewrite split_open_cons, Hp, IH.
Qed.

Lemma first_part_before_separator n rest :
  str_in " (" n = false →
  default "" (EntityName.split_open (n +:+ " (" +:+ rest) !! 0%nat) = n.
Proof.
  induction n as [|c n IH].
  - intros _. rewrite append_nil_l, !append_cons, append_nil_l.
    rewrite first_part_cons, !prefix_cons, prefix_empty.
    by repeat (destruct (Ascii.ascii_dec _ _); [|done]).
  - rewrite str_in_cons, orb_false_iff. intros [Hp Hn].
    rewrite append_cons, first_part_cons, IH by done.
    assert (String.prefix " (" (String c (n +:+ " (" +:+ rest)) = false) as ->; [|done].
    rewrite prefix_cons in Hp |- *. destruct (Ascii.ascii_dec _ c); [|done].
    destruct n as [|c' n].
    + rewrite append_nil_l, !append_cons, prefix_cons.
      by destruct (Ascii.ascii_dec _ _).
    + rewrite append_cons. rewrite prefix_cons in Hp |- *.
      destruct (Ascii.ascii_dec _ c'); [|done]. by rewrite prefix_empty in Hp.
Qed.

(** X23: [get_name_directed] without [inverse] returns the beginning of
    the name up to the first ' (': a prefix of the name that does not
    contain ' ('; a name without ' (' is returned whole, with or without
    [inverse]; and of a name built as a part without ' (' followed by
    ' (' and anything, that part is returned. *)
Theorem get_name_directed_forward (self : Entity) :
  (∃ rest, name self = EntityName.get_name_directed self false +:+ rest)
  ∧ str_in " (" (EntityName.get_name_directed self false) = false
  ∧ (str_in " (" (name self) = false →
     ∀ inverse, EntityName.get_name_directed self inverse = name self)
  ∧ (∀ n rest, name self = n +:+ " (" +:+ rest → str_in " (" n = false →
               EntityName.get_name_directed self false = n).
Proof.
  unfold EntityName.get_name_directed. cbn [andb].
  split; [apply first_part_prefix|]. split; [apply first_part_no_separator|]. split.
  - intros Hno inverse. rewrite split_open_no_separator by done.
    cbn. by rewrite andb_false_r.
  - intros n rest -> Hn. by apply first_part_before_separator.
Qed.

End name_theorems.

(** ** views/place.py: what [save] answers *)

Section place_more_theorems.
Context {DB : Type} {O : PlaceOps DB}.

Lemma save_objects_log_action form object__ location_ origin system_type_ c r c' :
  Place.save_objects form object__ location_ origin system_type_ c = (Ok r, c') →
  r.1.2 = log_action_of object__ location_.
Proof.
  unfold Place.save_objects, log_action_of, bind, ret.
  intros Hrun.
  repeat (case_match; simplify_eq/=; try done).
Qed.

Lemma save_changes_log_action form object__ location_ origin system_type_ c r c' :
  Place.save_changes form object__ location_ origin system_type_ c = (Ok r, c') →
  r.1.1.2 = log_action_of object__ location_.
Proof.
  unfold Place.save_changes, bind at 1.
  destruct (Place.save_objects form object__ location_ origin system_type_ c)
    as [[[[[object_ location] log_action] st]|e] c1] eqn:Hobj; [|done].
  apply save_objects_log_action in Hobj. cbn in Hobj. subst log_action.
  unfold bind, ret. intros Hrun.
  repeat (case_match; simplify_eq/=; try done).
Qed.

(** The [try] block flashes its one message last: nothing when it
    raises. *)
Lemma save_try_flashed form object__ location_ origin system_type_ c :
  is_Some (work c) →
  match Place.save_try form object__ location_ origin system_type_ c with
  | (Ok _, c') =>
    flashed c'
    = flashed c ++ [(if bool_decide (log_action_of object__ location_ = "insert")
                     then "entity created" else "info update", "info")]
  | (Raise _, c') => flashed c' = flashed c
  end.
Proof.
  intros Hw.
  destruct (save_changes_in_transaction form object__ location_ origin system_type_ c Hw)
    as (_ & _ & Hf & _).
  unfold Place.save_try, bind.
  destruct (Place.save_changes form object__ location_ origin system_type_ c)
    as [[[[[object_ log_action] st] url]|e] c1] eqn:Hch; cbn [fst snd] in *; [|done].
  apply save_changes_log_action in Hch. cbn in Hch. subst log_action.
  unfold modify, Place.call, Place.commit, Place.log_stmt, Place.flash, ret.
  cbn [work stable executed flashed].
  destruct (logger_log_user _ _ _) as [[[]|e] db']; cbn; by rewrite Hf.
Qed.

Lemma save_except_flashed e c1 :
  match Place.save_except e c1 with
  | (Ok url, c') =>
    url = url_for "place_index" [] ∧ flashed c' = flashed c1 ++ [(error_message e, "error")]
  | (Raise e', c') =>
    flashed c' = flashed c1
    ∧ ∃ message db, (logger_log "error" "database" message e db).1 = Raise e'
  end.
Proof.
  destruct e;
    unfold Place.save_except, bind, modify, Place.rollback, Place.call, Place.log_stmt,
      Place.flash, ret, error_message; cbn [work stable executed flashed];
    match goal with |- context [logger_log ?a ?b ?m ?e ?db] =>
      destruct (logger_log a b m e db) as [[[]|e'] db'] eqn:Hlog end;
    cbn; (split; [done|]); try done;
    eexists _, _; by rewrite Hlog.
Qed.

(** X19: [save] lets no exception of the [try] block out: when the
    block returns, [save] returns its url and has flashed one message,
    'entity created' for a new place and 'info update' for an existing
    one; when the block raises, [save] flashes one error message
    ('Invalid geom entered' for an invalid geometry) and returns the url
    of the place index, unless [logger.log] raises in the handler, which
    is the only exception [save] can raise, with nothing flashed. *)
Theorem save_swallows_exceptions
    (form : PlaceForm) (object__ location_ origin : option PlaceEntity)
    (system_type_ : option string) (c : Conn DB) :
  let out := Place.save form object__ location_ origin system_type_ c in
  match (Place.save_try form object__ location_ origin system_type_ (Place.begin c)).1 with
  | Ok url =>
    out.1 = Ok url
    ∧ flashed out.2
      = flashed c ++ [(if bool_decide (log_action_of object__ location_ = "insert")
                       then "entity created" else "info update", "info")]
  | Raise e =>
    (out.1 = Ok (url_for "place_index" [])
     ∧ flashed out.2 = flashed c ++ [(error_message e, "error")])
    ∨ (∃ e', out.1 = Raise e' ∧ flashed out.2 = flashed c
             ∧ ∃ message db, (logger_log "error" "database" message e db).1 = Raise e')
  end.
Proof.
  cbv zeta.
  pose proof (save_try_flashed form object__ location_ origin system_type_ (Place.begin c))
    as Htry.
  unfold Place.save.
  destruct (Place.save_try form object__ location_ origin system_type_ (Place.begin c))
    as [[url|e] c1]; cbn [fst snd].
  - split; [done|]. apply Htry. unfold Place.begin. cbn. destruct (work c); by eexists.
  - assert (flashed c1 = flashed c) as Hc1.
    { apply Htry. unfold Place.begin. cbn. destruct (work c); by eexists. }
    pose proof (save_except_flashed e c1) as Hex.
    destruct (Place.save_except e c1) as [[url|e'] c2]; cbn [fst snd].
    + left. destruct Hex as [-> ->]. by rewrite Hc1.
    + right. exists e'. destruct Hex as [-> Hlog]. by rewrite Hc1.
Qed.

End place_more_theorems.

(** ** Further instances on the example data *)

(** X1 on the example store: of a range list with [None], an entity,
    an empty string and an id, two rows are appended and the id of the
    second is returned. *)
Lemma insert_only_appends_witness :
  ∃ w1 rows,
    LinkMapper.insert (F:=Examples.link_foreign) Examples.env_plain
      (VEntity Examples.alice) "P74"
      (VList [VNone; VEntity Examples.vienna; VStr ""; VInt 3]) None Examples.world0
    = (Ok (Some 2), w1)
    ∧ entity_table w1 = entity_table Examples.world0
    ∧ link_table w1 = link_table Examples.world0 ++ rows
    ∧ link_id <$> rows = [1; 2].
Proof.
  eexists _.
  destruct (insert_only_appends (F:=Examples.link_foreign) Examples.env_plain
              (VEntity Examples.alice) "P74"
              (VList [VNone; VEntity Examples.vienna; VStr ""; VInt 3]) None
              Examples.world0 _ (Some 2) eq_refl)
    as (Htable & rows & Hrows & Hids & Hseq & _).
  exists rows. split; [reflexivity|]. split; [done|]. split; [done|].
  assert (length rows = 2%nat) as Hlen by (cbn in Hseq; lia).
  by rewrite Hids, Hlen.
Defined.

(** X2 on the example store: Alice is linked to Vienna and the link is
    deleted again. *)
Lemma insert_then_delete_by_id_witness :
  link_ids_fresh Examples.world0
  ∧ LinkMapper.insert (F:=Examples.link_foreign) Examples.env_plain
      (VEntity Examples.alice) "P74" (VEntity Examples.vienna) None Examples.world0
    = (Ok (Some 1), Examples.world_linked)
  ∧ link_table (LinkMapper.delete_by_id 1 Examples.world_linked).2
    = link_table Examples.world0.
Proof.
  assert (link_ids_fresh Examples.world0) as Hfresh by apply Forall_nil_2.
  assert (LinkMapper.insert (F:=Examples.link_foreign) Examples.env_plain
            (VEntity Examples.alice) "P74" (VEntity Examples.vienna) None Examples.world0
          = (Ok (Some 1), Examples.world_linked)) as Hrun by reflexivity.
  split; [done|]. split; [done|].
  destruct (insert_then_delete_by_id (F:=Examples.link_foreign) Examples.env_plain
              (VEntity Examples.alice) "P74" (VEntity Examples.vienna) None
              Examples.world0 Examples.world_linked 1 Hfresh Hrun)
    as (rows & last_row & _ & _ & _ & Hone).
  by apply Hone.
Defined.

(** X3 on the example store: the alias link of Vienna is deleted. *)
Lemma delete_by_codes_lookups_witness :
  codes_list (CodeStr "P1") ≠ []
  ∧ ∃ w',
      LinkMapper.delete_by_codes Examples.vienna_dated (CodeStr "P1") Examples.world_places
      = (Ok tt, w')
      ∧ (LinkMapper.get_linked_entities Examples.vienna_dated (CodeStr "P1") false w').1
        = Ok [].
Proof.
  assert (codes_list (CodeStr "P1") ≠ []) as Hcodes by done.
  split; [done|].
  destruct (delete_by_codes_lookups Examples.vienna_dated (CodeStr "P1")
              Examples.world_places Hcodes) as (w' & Hrun & _ & Hnone & _).
  by exists w'.
Defined.

(** X5 on the example store: Alice and Vienna given by id and as
    entities. *)
Lemma insert_id_or_entity_witness :
  LinkMapper.debug_active Examples.env_plain = false
  ∧ same_ref (F:=Examples.link_foreign) (VInt 1) (VEntity Examples.alice)
  ∧ same_ref (F:=Examples.link_foreign) (VStr "2") (VEntity Examples.vienna)
  ∧ LinkMapper.insert (F:=Examples.link_foreign) Examples.env_plain
      (VInt 1) "P74" (VStr "2") None Examples.world0
    = LinkMapper.insert (F:=Examples.link_foreign) Examples.env_plain
        (VEntity Examples.alice) "P74" (VEntity Examples.vienna) None Examples.world0.
Proof.
  assert (same_ref (F:=Examples.link_foreign) (VInt 1) (VEntity Examples.alice))
    as Hdomain by done.
  assert (same_ref (F:=Examples.link_foreign) (VStr "2") (VEntity Examples.vienna))
    as Hrange by done.
  split; [done|]. split; [done|]. split; [done|].
  apply (insert_id_or_entity (F:=Examples.link_foreign) Examples.env_plain
           (VInt 1) (VEntity Examples.alice) "P74" (VStr "2") (VEntity Examples.vienna)
           None Examples.world0 eq_refl Hdomain eq_refl).
  apply Forall2_cons_2; [done|apply Forall2_nil_2].
Defined.

(** X8 on the example store: without a date the dateless Vienna is
    returned too. *)
Lemma search_without_date_criteria_witness :
  primary_key Examples.world_places
  ∧ no_alias_class Examples.search_no_dates
  ∧ in_force (from_date_of (F:=Examples.entity_foreign) Examples.search_no_dates) = None
  ∧ in_force (to_date_of (F:=Examples.entity_foreign) Examples.search_no_dates) = None
  ∧ ∃ result,
      EntityModel.search (F:=Examples.entity_foreign) Examples.search_no_dates 1
        Examples.world_places = (Ok result, Examples.world_places)
      ∧ Examples.vienna_dated ∈ result ∧ Examples.linz ∈ result.
Proof.
  assert (primary_key Examples.world_places) as Hpk by by_evaluation.
  assert (SearchForm.classes Examples.search_no_dates ≠ []) as Hclasses by done.
  assert (no_alias_class Examples.search_no_dates) as Halias by (split; by_evaluation).
  destruct (search_without_date_criteria (F:=Examples.entity_foreign)
              Examples.search_no_dates 1 Examples.world_places Hpk Hclasses Halias
              eq_refl eq_refl) as (result & Hrun & Hin).
  split; [done|]. split; [done|]. split; [done|]. split; [done|].
  exists result. split; [done|]. split; apply Hin; by_evaluation.
Defined.

(** X9 on the example store: the search from 1400 on returns what the
    search from 1500 on returns. *)
Lemma search_wider_dates_witness :
  primary_key Examples.world_places
  ∧ same_query Examples.search_from_1500 Examples.search_from_1400
  ∧ from_wider
      (in_force (from_date_of (F:=Examples.entity_foreign) Examples.search_from_1400))
      (in_force (from_date_of (F:=Examples.entity_foreign) Examples.search_from_1500))
  ∧ EntityModel.search (F:=Examples.entity_foreign) Examples.search_from_1500 1
      Examples.world_places = (Ok [Examples.vienna_dated], Examples.world_places)
  ∧ ∃ result',
      EntityModel.search (F:=Examples.entity_foreign) Examples.search_from_1400 1
        Examples.world_places = (Ok result', Examples.world_places)
      ∧ ∀ e, e ∈ [Examples.vienna_dated] → e ∈ result'.
Proof.
  assert (primary_key Examples.world_places) as Hpk by by_evaluation.
  assert (same_query Examples.search_from_1500 Examples.search_from_1400)
    as Hsame by (by repeat split).
  assert (from_wider
            (in_force (from_date_of (F:=Examples.entity_foreign) Examples.search_from_1400))
            (in_force (from_date_of (F:=Examples.entity_foreign) Examples.search_from_1500)))
    as Hfrom by (by vm_compute).
  assert (EntityModel.search (F:=Examples.entity_foreign) Examples.search_from_1500 1
            Examples.world_places = (Ok [Examples.vienna_dated], Examples.world_places))
    as Hrun by (by vm_compute).
  split; [done|]. split; [done|]. split; [done|]. split; [done|].
  apply (search_wider_dates (F:=Examples.entity_foreign) Examples.search_from_1500
           Examples.search_from_1400 1 Examples.world_places Examples.world_places
           [Examples.vienna_dated] Hpk Hsame Hfrom I Hrun).
Defined.

(** X25 on the example store: of the two places found for a search
    from 1500 on that leaves dateless entities out, the one with a date
    of 1529 is returned and the one without dates is not. *)
Lemma search_date_criteria_witness :
  primary_key Examples.world_places
  ∧ no_alias_class Examples.search_from_1500
  ∧ is_Some (in_force (from_date_of (F:=Examples.entity_foreign) Examples.search_from_1500))
  ∧ ∃ result,
      EntityModel.search (F:=Examples.entity_foreign) Examples.search_from_1500 1
        Examples.world_places = (Ok result, Examples.world_places)
      ∧ Examples.vienna_dated ∈ result ∧ Examples.linz ∉ result.
Proof.
  assert (primary_key Examples.world_places) as Hpk by by_evaluation.
  assert (SearchForm.classes Examples.search_from_1500 ≠ []) as Hclasses by done.
  assert (no_alias_class Examples.search_from_1500) as Halias by (split; by_evaluation).
  assert (is_Some (in_force (from_date_of (F:=Examples.entity_foreign)
                               Examples.search_from_1500))) as Hfrom by (by eexists).
  destruct (search_date_criteria (F:=Examples.entity_foreign)
              Examples.search_from_1500 1 Examples.world_places Hpk Hclasses Halias
              (or_introl Hfrom)) as (result & Hrun & Hin).
  split; [done|]. split; [done|]. split; [done|].
  exists result. split; [done|]. split.
  - destruct (Hin Examples.vienna_dated) as [Hdated _]; [by_evaluation|].
    apply Hdated; [done|]. split.
    + intros a [= <-]. exists 15291231. split; [by_evaluation|done].
    + intros b [=].
  - destruct (Hin Examples.linz) as [_ Hnone]; [by_evaluation|].
    intros Hlinz. by apply Hnone in Hlinz.
Defined.

(** X10 on the example store. *)
Lemma similar_named_entries_witness :
  primary_key Examples.world_places
  ∧ codes_list (SimilarForm.classes Examples.similar_places) ≠ []
  ∧ ∃ entities similar,
      EntityModel.get_by_class (SimilarForm.classes Examples.similar_places)
        Examples.world_places = (Ok entities, Examples.world_places)
      ∧ EntityModel.get_similar_named (F:=Examples.entity_foreign) Examples.similar_places
          Examples.world_places = (Ok similar, Examples.world_places)
      ∧ ∀ k sample group,
          similar !! k = Some (sample, group) →
          sample ∈ entities ∧ id sample = k
          ∧ group = similar_to (F:=Examples.entity_foreign) 90 entities sample
          ∧ group ≠ [] ∧ sample ∉ group.
Proof.
  assert (primary_key Examples.world_places) as Hpk by by_evaluation.
  assert (codes_list (SimilarForm.classes Examples.similar_places) ≠ []) as Hclasses by done.
  split; [done|]. split; [done|].
  apply (similar_named_entries (F:=Examples.entity_foreign) Examples.similar_places
           Examples.world_places Hpk Hclasses).
Defined.

(** X11 on the example store: Linz, named like Vienna, is in Vienna's
    group. *)
Lemma similar_named_covers_witness :
  primary_key Examples.world_places
  ∧ codes_list (SimilarForm.classes Examples.similar_places) ≠ []
  ∧ ∃ entities similar,
      EntityModel.get_similar_named (F:=Examples.entity_foreign) Examples.similar_places
        Examples.world_places = (Ok similar, Examples.world_places)
      ∧ ((∃ group, similar !! id Examples.linz = Some (Examples.linz, group)
                   ∧ Examples.vienna_dated ∈ group)
         ∨ (∃ s group, earlier entities s Examples.linz
                       ∧ similar !! id s = Some (s, group) ∧ Examples.linz ∈ group)).
Proof.
  assert (primary_key Examples.world_places) as Hpk by by_evaluation.
  assert (codes_list (SimilarForm.classes Examples.similar_places) ≠ []) as Hclasses by done.
  split; [done|]. split; [done|].
  destruct (similar_named_covers (F:=Examples.entity_foreign) Examples.similar_places
              Examples.world_places Hpk Hclasses)
    as (entities & similar & Hclass & Hrun & Hcover).
  assert (entities = [Examples.vienna_dated; Examples.linz; Examples.wien; Examples.graz])
    as -> by (vm_compute in Hclass; injection Hclass as <-; reflexivity).
  eexists _, similar. split; [exact Hrun|].
  apply (Hcover Examples.linz Examples.vienna_dated); [by_evaluation..|done].
Defined.

(** X12 on the example store, whose ratio is symmetric. *)
Lemma similar_named_members_are_no_samples_witness :
  primary_key Examples.world_places
  ∧ codes_list (SimilarForm.classes Examples.similar_places) ≠ []
  ∧ (∀ x y, fuzz_ratio (EntityForeign:=Examples.entity_foreign) x y
            = fuzz_ratio (EntityForeign:=Examples.entity_foreign) y x)
  ∧ ∃ similar : gmap Z (Entity * list Entity),
      EntityModel.get_similar_named (F:=Examples.entity_foreign) Examples.similar_places
        Examples.world_places = (Ok similar, Examples.world_places)
      ∧ ∀ k sample group b,
          similar !! k = Some (sample, group) → b ∈ group → similar !! id b = None.
Proof.
  assert (primary_key Examples.world_places) as Hpk by by_evaluation.
  assert (codes_list (SimilarForm.classes Examples.similar_places) ≠ []) as Hclasses by done.
  assert (∀ x y, fuzz_ratio (EntityForeign:=Examples.entity_foreign) x y
                 = fuzz_ratio (EntityForeign:=Examples.entity_foreign) y x) as Hsym.
  { intros x y. cbn. by rewrite String.eqb_sym, orb_comm. }
  split; [done|]. split; [done|]. split; [done|].
  apply (similar_named_members_are_no_samples (F:=Examples.entity_foreign)
           Examples.similar_places Examples.world_places Hpk Hclasses Hsym).
Defined.

(** X14 on the example store: with Alice linked to Vienna, the battle is
    the only orphan. *)
Lemma linked_entities_are_no_orphans_witness :
  caches_keyed_by_id Examples.g_plain
  ∧ LinkMapper.insert (F:=Examples.link_foreign) Examples.env_plain
      (VEntity Examples.alice) "P74" (VEntity Examples.vienna) None Examples.world0
    = (Ok (Some 1), Examples.world_linked)
  ∧ EntityModel.get_orphans Examples.g_plain Examples.world_linked
    = (Ok [Examples.battle], Examples.world_linked)
  ∧ ∀ e, e ∈ [Examples.battle] → id e ≠ id Examples.vienna ∧ id e ≠ id Examples.alice.
Proof.
  assert (caches_keyed_by_id Examples.g_plain) as Hkeyed
    by (split; apply map_Forall_empty).
  assert (LinkMapper.insert (F:=Examples.link_foreign) Examples.env_plain
            (VEntity Examples.alice) "P74" (VEntity Examples.vienna) None Examples.world0
          = (Ok (Some 1), Examples.world_linked)) as Hrun by reflexivity.
  assert (EntityModel.get_orphans Examples.g_plain Examples.world_linked
          = (Ok [Examples.battle], Examples.world_linked)) as Horphans by (by vm_compute).
  split; [done|]. split; [done|]. split; [done|].
  intros e He.
  destruct (linked_entities_are_no_orphans (F:=Examples.link_foreign) Examples.env_plain
              Examples.g_plain Examples.alice Examples.vienna "P74" None 1
              Examples.world0 Examples.world_linked Examples.world_linked
              [Examples.battle] Hkeyed Hrun Horphans e He) as [Hrange Hdomain].
  split; [done|]. apply Hdomain.
  intros t Ht _. revert t Ht. apply Forall_forall. by_evaluation.
Defined.

(** X15 on three of the groups. *)
Lemma is_authorized_transitive_witness :
  Util.is_authorized (user_of_group "manager") "editor" = true
  ∧ Util.is_authorized (user_of_group "editor") "readonly" = true
  ∧ Util.is_authorized (user_of_group "manager") "readonly" = true.
Proof.
  split; [done|]. split; [done|].
  by apply (is_authorized_transitive (user_of_group "manager") "editor" "readonly").
Defined.

(** X17 on a string with punctuation and a space. *)
Lemma sanitize_default_mode_witness :
  None ≠ Some "node"
  ∧ None ≠ Some "text"
  ∧ Util.sanitize (U:=Examples.util_foreign) (Some "St. Stephen 2") None = "StStephen2"
  ∧ Forall (λ c, Util.ascii_alnum c = true)
      (String.list_ascii_of_string
         (Util.sanitize (U:=Examples.util_foreign) (Some "St. Stephen 2") None)).
Proof.
  assert (@None string ≠ Some "node") as Hnode by done.
  assert (@None string ≠ Some "text") as Htext by done.
  split; [done|]. split; [done|]. split; [done|].
  by destruct (sanitize_default_mode (U:=Examples.util_foreign) "St. Stephen 2" None
                 Hnode Htext) as [Halnum _].
Defined.

(** X18 on a name of six characters, one of them not ASCII: "Müller"
    is returned whole at length 6 and cut to "Mül.." at length 3. *)
Lemma truncate_without_span_witness :
  0 ≤ 6
  ∧ Util.truncate (Some [77; 252; 108; 108; 101; 114]%N) 6 false
    = [77; 252; 108; 108; 101; 114]%N
  ∧ Util.truncate (Some [77; 252; 108; 108; 101; 114]%N) 3 false
    = [77; 252; 108; 46; 46]%N
  ∧ Z.of_nat (length (Util.truncate (Some [77; 252; 108; 108; 101; 114]%N) 3 false))
    ≤ 3 + 2.
Proof.
  assert (0 ≤ 6) as Hsix by lia.
  assert (0 ≤ 3) as Hthree by lia.
  split; [done|].
  destruct (truncate_without_span [77; 252; 108; 108; 101; 114]%N 6 Hsix)
    as (Hwhole & _).
  destruct (truncate_without_span [77; 252; 108; 108; 101; 114]%N 3 Hthree)
    as (_ & Hbound & _).
  split; [apply Hwhole; cbn; lia|]. by split.
Defined.

(** X22 on the example store: Alice is linked to Vienna. *)
Lemma inverse_lookup_is_converse_witness :
  codes_list (CodeStr "P74") ≠ []
  ∧ Examples.alice ∈ entity_table Examples.world_linked
  ∧ Examples.vienna ∈ entity_table Examples.world_linked
  ∧ ∃ l l',
      (LinkMapper.get_linked_entities Examples.alice (CodeStr "P74") false
         Examples.world_linked).1 = Ok l
      ∧ (LinkMapper.get_linked_entities Examples.vienna (CodeStr "P74") true
           Examples.world_linked).1 = Ok l'
      ∧ (Examples.vienna ∈ l ↔ Examples.alice ∈ l').
Proof.
  assert (codes_list (CodeStr "P74") ≠ []) as Hcodes by done.
  assert (Examples.alice ∈ entity_table Examples.world_linked) as Ha by by_evaluation.
  assert (Examples.vienna ∈ entity_table Examples.world_linked) as Hb by by_evaluation.
  split; [done|]. split; [done|]. split; [done|].
  apply (inverse_lookup_is_converse Examples.alice Examples.vienna (CodeStr "P74")
           Examples.world_linked Hcodes Ha Hb).
Defined.
